(** * Asset-Tag-Tracker: tag generation, bulk import, reference lists and
      dual-backend persistence of [app.py], embedded and verified.

    Modelling conventions.
    - A Python [str] is a [string]; a character is a code point below 256.
    - A Python [int] is a [Z]; [int(...)] and the number formatting are taken
      without the interpreter's limit on the number of digits of a conversion.
    - An asset is a JSON object with string values: a [gmap string string];
      [asset.get(k)] is the lookup [a !! k], [asset[k]] raises [KeyError]
      when the key is absent.
    - A Python list mutated in place ([assets.append]) is threaded through
      the functions that mutate it: they return its contents on exit.
    - The collaborators (remote repository, local file system, clock, JSON
      serialiser) are an interface [Collaborators]; the calls made to them and
      the messages shown to the user are recorded in a trace.
    - Every user interaction is one run of the script: [main] loads the three
      lists afresh ([main_load]) and the form or button handler works on the
      lists of that run; nothing in memory survives to the next run. *)

From Stdlib Require Import ZArith Lia Ascii String List Bool.
From stdpp Require Import base option list gmap strings.

Local Open Scope Z_scope.
Local Open Scope string_scope.

(** ** Python string primitives *)

Module PyStr.

(** [str.isspace] on the code points below 256: TAB..CR, FS..US, SPACE,
    NEL (133) and NBSP (160). *)
Definition is_space (c : ascii) : bool :=
  existsb (Nat.eqb (nat_of_ascii c))
          [9; 10; 11; 12; 13; 28; 29; 30; 31; 32; 133; 160]%nat.

(** The decimal value of a digit character, as [int] reads it. *)
Definition digit_val (c : ascii) : option Z :=
  let n := Z.of_nat (nat_of_ascii c) in
  if ((48 <=? n) && (n <=? 57))%Z then Some (n - 48) else None.

Definition is_digit (c : ascii) : bool :=
  match digit_val c with Some _ => true | None => false end.

(** The character of a decimal digit [0 <= d < 10]. *)
Definition digit_char (d : Z) : ascii :=
  ascii_of_nat (48 + Z.to_nat d).

(** [c in s] for a one-character [c]. *)
Fixpoint contains (c : ascii) (s : string) : bool :=
  match s with
  | EmptyString => false
  | String x r => if Ascii.eqb x c then true else contains c r
  end.

(** [s.split(sep)] for a one-character separator: never empty, one more
    segment than there are separators. *)
Fixpoint split (sep : ascii) (s : string) : list string :=
  match s with
  | EmptyString => [EmptyString]
  | String c r =>
      if Ascii.eqb c sep then EmptyString :: split sep r
      else match split sep r with
           | [] => [String c EmptyString]
           | h :: t => String c h :: t
           end
  end.

(** [sep.join(parts)]. *)
Fixpoint join (sep : string) (parts : list string) : string :=
  match parts with
  | [] => EmptyString
  | [p] => p
  | p :: ps => p ++ sep ++ join sep ps
  end.

(** [s.lstrip()], [s.rstrip()], [s.strip()]. *)
Fixpoint lstrip (s : string) : string :=
  match s with
  | EmptyString => EmptyString
  | String c r => if is_space c then lstrip r else s
  end.

Fixpoint rstrip (s : string) : string :=
  match s with
  | EmptyString => EmptyString
  | String c r =>
      match rstrip r with
      | EmptyString => if is_space c then EmptyString else String c EmptyString
      | r' => String c r'
      end
  end.

Definition strip (s : string) : string := rstrip (lstrip s).

(** Truthiness of a string: non-empty. *)
Definition truthy (s : string) : bool :=
  match s with EmptyString => false | _ => true end.

(** [parts[-1]] of a split. *)
Definition last_segment (parts : list string) : string :=
  List.last parts EmptyString.

(** The digits of [int]: one or more digits, single underscores allowed
    between two digits. [prev] tells whether the previous character was a
    digit. *)
Fixpoint int_digits (s : string) (acc : Z) (prev : bool) : option Z :=
  match s with
  | EmptyString => if prev then Some acc else None
  | String c r =>
      match digit_val c with
      | Some d => int_digits r (10 * acc + d) true
      | None =>
          if Ascii.eqb c "_" then
            if prev then int_digits r acc false else None
          else None
      end
  end.

(** The white space [int] skips around a number: TAB..CR and SPACE, and the
    two space characters above the ASCII range, NEL (133) and NBSP (160),
    which the conversion turns into a space first. The separators FS..US
    (28..31) are white space for [str.strip] but not here:
    [int] of such a string raises [ValueError]. *)
Definition is_int_space (c : ascii) : bool :=
  existsb (Nat.eqb (nat_of_ascii c)) [9; 10; 11; 12; 13; 32; 133; 160]%nat.

Fixpoint int_lstrip (s : string) : string :=
  match s with
  | EmptyString => EmptyString
  | String c r => if is_int_space c then int_lstrip r else s
  end.

Fixpoint int_rstrip (s : string) : string :=
  match s with
  | EmptyString => EmptyString
  | String c r =>
      match int_rstrip r with
      | EmptyString =>
          if is_int_space c then EmptyString else String c EmptyString
      | r' => String c r'
      end
  end.

Definition int_strip (s : string) : string := int_rstrip (int_lstrip s).

(** [int(s)]: surrounding white space is dropped, then an optional sign and
    the digits; [None] stands for [ValueError]. *)
Definition int (s : string) : option Z :=
  match int_strip s with
  | String "+" r => int_digits r 0 false
  | String "-" r => Z.opp <$> int_digits r 0 false
  | t => int_digits t 0 false
  end.

(** [str(n)] for [0 <= n]: the decimal digits, most significant first. *)
Fixpoint dec_go (fuel : nat) (n : Z) : string :=
  match fuel with
  | O => EmptyString
  | S f =>
      if (n <? 10)%Z then String (digit_char n) EmptyString
      else dec_go f (n / 10) ++ String (digit_char (n mod 10)) EmptyString
  end.

Definition dec (n : Z) : string := dec_go (S (Z.to_nat (Z.log2 n))) n.

(** [str(n)] for every integer. *)
Definition str (n : Z) : string :=
  if (n <? 0)%Z then String "-" (dec (- n)) else dec n.

(** A run of [k] zero characters. *)
Fixpoint zeros (k : nat) : string :=
  match k with O => EmptyString | S k' => String "0" (zeros k') end.

(** [s.zfill]-like padding of a digit string to [width] characters. *)
Definition pad0 (width : nat) (s : string) : string :=
  zeros (width - String.length s) ++ s.

(** The format specification [04d]: sign first, then zeros up to a total
    width of 4; longer numbers are not truncated. *)
Definition format_04d (n : Z) : string :=
  if (n <? 0)%Z then String "-" (pad0 3 (dec (- n))) else pad0 4 (dec n).

(** [max(numbers)] of a list; [None] stands for [ValueError] on the empty
    list. *)
Definition max (numbers : list Z) : option Z :=
  match numbers with
  | [] => None
  | x :: xs => Some (fold_left Z.max xs x)
  end.

End PyStr.

(** ** Data model *)

(** An asset record as stored in the assets collection. *)
Abbreviation Asset := (gmap string string).

(** An entry of a reference list (countries or manufacturers). *)
Record ReferenceEntry := { code : string; name : string }.

(** The three JSON collections handed to the storage backends. *)
Inductive Collection :=
| AssetList (assets : list Asset)
| ReferenceList (entries : list ReferenceEntry).

(** A raised Python exception; [exc_str] is [str(e)]. *)
Inductive Exc :=
| KeyError (key : string)
| Raised (msg : string).

Definition exc_str (e : Exc) : string :=
  match e with
  | KeyError k => "'" ++ k ++ "'"
  | Raised m => m
  end.

(** What [repo.get_contents] returns: the document and its revision token. *)
Record ContentFile := { decoded_content : string; sha : string }.

(** Calls made to the collaborators and messages shown to the user, in the
    order the program makes them. *)
Inductive Event :=
| EvGetContents (filename : string)
| EvUpdateFile (filename message content revision : string)
| EvCreateFile (filename message content : string)
| EvWriteFile (filepath content : string)
| EvNow
| EvError (msg : string)
| EvSuccess (msg : string)
| EvRerun.

(** The external collaborators over a world [W]: the remote repository
    ([get_contents], [update_file], [create_file], each of which may raise),
    the local file ([open] for writing followed by [json.dump]), the clock and
    the JSON serialiser. *)
Class Collaborators (W : Type) := {
  get_contents : string -> W -> (Exc + ContentFile) * W;
  update_file : string -> string -> string -> string -> W -> (Exc + unit) * W;
  create_file : string -> string -> string -> W -> (Exc + unit) * W;
  write_file : string -> string -> W -> (Exc + unit) * W;
  now_isoformat : W -> string * W;
  json_dumps : Collection -> string;
  json_dump : Collection -> string
}.

(** The tracker object: [self.repo] is [None] without a connection;
    [self.use_github] is set by the constructor. *)
Record Tracker := { repo : option string; use_github : bool }.

Definition data_file : string := "assets.json".
Definition manufacturers_file : string := "manufacturers.json".
Definition countries_file : string := "countries.json".

(** ** Tag generation (pure) *)

(** [asset.get(key) == value]. *)
Definition get_eq (a : Asset) (key value : string) : bool :=
  match a !! key with
  | Some v => String.eqb v value
  | None => false
  end.

(** The filter of [generate_asset_tag]. *)
Definition matches (country_code manufacturer_code : string) (a : Asset) : bool :=
  get_eq a "country_code" country_code && get_eq a "manufacturer_code" manufacturer_code.

(** One iteration of the loop that collects [numbers]. *)
Definition collect_number (numbers : list Z) (asset : Asset) : list Z :=
  let tag := default EmptyString (asset !! "tag") in
  if PyStr.contains "-" tag then
    match PyStr.int (PyStr.last_segment (PyStr.split "-" tag)) with
    | Some number => (numbers ++ [number])%list
    | None => numbers
    end
  else numbers.

(** The formatted tag of line 208. *)
Definition format_tag (country_code manufacturer_code : string) (next_number : Z) : string :=
  country_code ++ "-" ++ manufacturer_code ++ "-" ++ PyStr.format_04d next_number.

Definition next_number (country_code manufacturer_code : string) (assets : list Asset) : Z :=
  let existing_assets := List.filter (matches country_code manufacturer_code) assets in
  match existing_assets with
  | [] => 1
  | _ =>
      let numbers := fold_left collect_number existing_assets [] in
      match PyStr.max numbers with
      | Some m => m + 1
      | None => 1
      end
  end.

Definition generate_asset_tag (country_code manufacturer_code : string)
    (assets : list Asset) : string :=
  format_tag country_code manufacturer_code
             (next_number country_code manufacturer_code assets).

(** The record appended for a generated or imported tag. *)
Definition new_asset (tag country_code manufacturer_code name date_created : string) : Asset :=
  <["tag" := tag]> (<["country_code" := country_code]>
    (<["manufacturer_code" := manufacturer_code]>
      (<["name" := name]> (<["date_created" := date_created]> ∅)))).

(** The tags carried by a list of assets (an asset without the key has none). *)
Definition tags (assets : list Asset) : list string :=
  omap (fun a : Asset => a !! "tag") assets.



(** What one asset contributes to [numbers]: the trailing segment of its
    tag read as an integer, when the tag holds a dash and the segment reads. *)
Definition parse_trailing (a : Asset) : option Z :=
  let tag := default EmptyString (a !! "tag") in
  if PyStr.contains "-" tag
  then PyStr.int (PyStr.last_segment (PyStr.split "-" tag))
  else None.

(** The numbers the code parses, over the assets of the pair. *)
Definition parsed_numbers (country_code manufacturer_code : string)
    (assets : list Asset) : list Z :=
  omap parse_trailing (List.filter (matches country_code manufacturer_code) assets).

(** The identifier codec: the importer's split of a line (lines 238-242)
    with the generator's reading of the trailing segment (line 201). *)
Definition parse_tag (tag : string) : option (string * string * Z) :=
  match PyStr.split "-" tag with
  | [p0; p1; p2] =>
      match PyStr.int (PyStr.last_segment (PyStr.split "-" tag)) with
      | Some n => Some (PyStr.strip p0, PyStr.strip p1, n)
      | None => None
      end
  | _ => None
  end.

(** A sequence segment as [format_04d] writes it: digits only, four of them,
    or more with no leading zero. *)
Definition canonical_sequence (s : string) : bool :=
  forallb PyStr.is_digit (list_ascii_of_string s)
  && ((String.length s =? 4)%nat
      || ((4 <? String.length s)%nat
          && match s with String "0" _ => false | _ => true end)).

(** A well-formed tag [CC-MM-NNNN]: three segments, the codes free of
    surrounding white space, the sequence canonical. *)
Definition well_formed_tag (tag : string) : bool :=
  match PyStr.split "-" tag with
  | [cc; mm; nnnn] =>
      String.eqb (PyStr.strip cc) cc && String.eqb (PyStr.strip mm) mm
      && canonical_sequence nnnn
  | _ => false
  end.

(** ** Effects: a state monad over the world and the trace *)

Record State (W : Type) := mkState { world : W; trace : list Event }.
Arguments mkState {W} _ _.
Arguments world {W} _.
Arguments trace {W} _.

Definition M (W A : Type) : Type := State W -> A * State W.

Definition ret {W A} (a : A) : M W A := fun s => (a, s).

Definition bind {W A B} (m : M W A) (k : A -> M W B) : M W B :=
  fun s => let (a, s') := m s in k a s'.

Notation "'do' x <- m ; k" := (bind m (fun x => k))
  (at level 10, x name, m at level 100, k at level 200).
Notation "'run' m ; k" := (bind m (fun _ => k))
  (at level 10, m at level 100, k at level 200).

(** Record an event. *)
Definition emit {W} (e : Event) : M W unit :=
  fun s => (tt, mkState (world s) (trace s ++ [e])%list).

(** Call a collaborator, recording the call. *)
Definition call {W A} (e : Event) (f : W -> A * W) : M W A :=
  fun s => let (a, w') := f (world s) in (a, mkState w' (trace s ++ [e])%list).

Definition st_error {W} (msg : string) : M W unit := emit (EvError msg).
Definition st_success {W} (msg : string) : M W unit := emit (EvSuccess msg).
Definition st_rerun {W} : M W unit := emit EvRerun.

(** The outcome of the importer's loop: the exception that ended it, if any,
    the contents of [assets] and [imported_count]. *)
Record ImportLoop := mkImportLoop {
  loop_raised : option Exc;
  loop_assets : list Asset;
  loop_count : Z
}.

(** [any(asset['tag'] == tag_line for asset in assets)]: stops at the first
    match, raises at the first asset without a tag met before one. *)
Fixpoint any_tag_eq (tag_line : string) (assets : list Asset) : Exc + bool :=
  match assets with
  | [] => inr false
  | asset :: rest =>
      match asset !! "tag" with
      | None => inl (KeyError "tag")
      | Some t => if String.eqb t tag_line then inr true else any_tag_eq tag_line rest
      end
  end.

(** The lines the importer works on. *)
Definition tag_lines (pasted_tags : string) : list string :=
  map PyStr.strip
      (List.filter (fun line => PyStr.truthy (PyStr.strip line))
                   (PyStr.split "010" pasted_tags)).

(** The record the importer builds for an accepted line (lines 239-253). *)
Definition imported (tag_line date_created : string) : Asset :=
  let parts := PyStr.split "-" tag_line in
  new_asset tag_line (PyStr.strip (nth 0 parts EmptyString))
            (PyStr.strip (nth 1 parts EmptyString))
            ("Imported Asset " ++ PyStr.strip (nth 2 parts EmptyString))
            date_created.

(** The format test of line 238. *)
Definition line_format_ok (tag_line : string) : bool :=
  PyStr.contains "-" tag_line
  && (length (PyStr.split "-" tag_line) =? 3)%nat.

(** [c['code'] == new_code]. *)
Definition has_code (new_code : string) (c : ReferenceEntry) : bool :=
  String.eqb (code c) new_code.

Section Program.

Context {W : Type} `{!Collaborators W}.

(** *** Storage backends *)

Definition save_data_to_github (tr : Tracker) (filename : string) (data : Collection)
  : M W bool :=
  match repo tr with
  | None => ret false
  | Some _ =>
      do r <- call (EvGetContents filename) (get_contents filename) ;
      do updated <-
        match r with
        | inr file_content =>
            call (EvUpdateFile filename ("Update " ++ filename) (json_dumps data)
                               (sha file_content))
                 (update_file filename ("Update " ++ filename) (json_dumps data)
                              (sha file_content))
        | inl e => ret (inl e)
        end ;
      match updated with
      | inr _ => ret true
      | inl _ =>
          do c <- call (EvCreateFile filename ("Create " ++ filename) (json_dumps data))
                    (create_file filename ("Create " ++ filename) (json_dumps data)) ;
          match c with
          | inr _ => ret true
          | inl e =>
              run st_error ("Error saving to GitHub: " ++ exc_str e) ;
              ret false
          end
      end
  end.

Definition save_data_to_file (filename : string) (data : Collection) : M W bool :=
  let filepath := "data/" ++ filename in
  do r <- call (EvWriteFile filepath (json_dump data))
            (write_file filepath (json_dump data)) ;
  match r with
  | inr _ => ret true
  | inl e =>
      run st_error ("Error saving " ++ filename ++ ": " ++ exc_str e) ;
      ret false
  end.

(** The composed save of a collection under a file name; [save_assets],
    [save_manufacturers] and [save_countries] are its three instances. *)
Definition save_collection (tr : Tracker) (filename : string) (data : Collection)
  : M W bool :=
  do success <- (if use_github tr then save_data_to_github tr filename data
                 else ret true) ;
  do local <- save_data_to_file filename data ;
  ret (local && success).

Definition save_assets (tr : Tracker) (assets : list Asset) : M W bool :=
  save_collection tr data_file (AssetList assets).

Definition save_manufacturers (tr : Tracker) (manufacturers : list ReferenceEntry)
  : M W bool :=
  save_collection tr manufacturers_file (ReferenceList manufacturers).

Definition save_countries (tr : Tracker) (countries : list ReferenceEntry)
  : M W bool :=
  save_collection tr countries_file (ReferenceList countries).

(** *** Bulk import *)

(** The body of the importer's loop for one line; [inl] is a raised
    exception, which leaves [assets] and [imported_count] as they were. *)
Definition import_line (tag_line : string) (assets : list Asset) (imported_count : Z)
  : M W (Exc + list Asset * Z) :=
  if line_format_ok tag_line then
    let parts := PyStr.split "-" tag_line in
    let country_code := PyStr.strip (nth 0 parts EmptyString) in
    let manufacturer_code := PyStr.strip (nth 1 parts EmptyString) in
    let tag_number := PyStr.strip (nth 2 parts EmptyString) in
    match any_tag_eq tag_line assets with
    | inl e => ret (inl e)
    | inr true => ret (inr (assets, imported_count))
    | inr false =>
        do date_created <- call EvNow now_isoformat ;
        ret (inr ((assets ++ [new_asset tag_line country_code manufacturer_code
                                        ("Imported Asset " ++ tag_number) date_created])%list,
                  imported_count + 1))
    end
  else ret (inr (assets, imported_count)).

Fixpoint import_loop (lines : list string) (assets : list Asset) (imported_count : Z)
  : M W ImportLoop :=
  match lines with
  | [] => ret (mkImportLoop None assets imported_count)
  | tag_line :: rest =>
      do r <- import_line tag_line assets imported_count ;
      match r with
      | inl e => ret (mkImportLoop (Some e) assets imported_count)
      | inr (assets', count') => import_loop rest assets' count'
      end
  end.

(** [import_existing_tags]: the returned list is the contents of the caller's
    [assets] when the function returns. *)
Definition import_existing_tags (tr : Tracker) (assets : list Asset) (pasted_tags : string)
  : M W (bool * list Asset) :=
  do r <- import_loop (tag_lines pasted_tags) assets 0 ;
  match loop_raised r with
  | Some e =>
      run st_error ("Error importing tags: " ++ exc_str e) ;
      ret (false, loop_assets r)
  | None =>
      if (loop_count r >? 0)%Z then
        do saved <- save_assets tr (loop_assets r) ;
        ret (saved, loop_assets r)
      else ret (false, loop_assets r)
  end.

(** *** Batch generation (the loop of [show_tag_generator]) *)

Fixpoint generate_loop (remaining : nat) (i : Z)
    (country_code manufacturer_code asset_name : string)
    (generated_tags : list string) (current_assets : list Asset)
  : M W (list string * list Asset) :=
  match remaining with
  | O => ret (generated_tags, current_assets)
  | S k =>
      let tag := generate_asset_tag country_code manufacturer_code current_assets in
      do date_created <- call EvNow now_isoformat ;
      generate_loop k (i + 1) country_code manufacturer_code asset_name
        (generated_tags ++ [tag])%list
        (current_assets ++ [new_asset tag country_code manufacturer_code
                                      (asset_name ++ " #" ++ PyStr.str (i + 1))
                                      date_created])%list
  end.

(** The generated tags and the final [current_assets] of a batch of
    [num_tags] tags, started from a copy of [assets] (the branch taken when an
    asset name was entered). *)
Definition generate_tags (country_code manufacturer_code asset_name : string)
    (num_tags : nat) (assets : list Asset) : M W (list string * list Asset) :=
  generate_loop num_tags 0 country_code manufacturer_code asset_name [] assets.

(** *** Reference lists (the two add forms of [show_manage_lists]) *)

Inductive RefList := Countries | Manufacturers.

Definition duplicate_message (which : RefList) : string :=
  match which with
  | Countries => "Country code already exists"
  | Manufacturers => "Manufacturer code already exists"
  end.

Definition added_message (which : RefList) : string :=
  match which with
  | Countries => "Country added!"
  | Manufacturers => "Manufacturer added!"
  end.

Definition save_reference (which : RefList) (tr : Tracker) (entries : list ReferenceEntry)
  : M W bool :=
  match which with
  | Countries => save_countries tr entries
  | Manufacturers => save_manufacturers tr entries
  end.

(** [any(c['code'] == new_code for c in entries)]. *)
Definition code_present (new_code : string) (entries : list ReferenceEntry) : bool :=
  existsb (has_code new_code) entries.

(** A submitted add form; the returned list is the contents of the caller's
    list afterwards. *)
Definition add_entry (which : RefList) (tr : Tracker) (entries : list ReferenceEntry)
    (new_code new_name : string) : M W (list ReferenceEntry) :=
  if PyStr.truthy new_code && PyStr.truthy new_name then
    if code_present new_code entries then
      run st_error (duplicate_message which) ;
      ret entries
    else
      let entries' := (entries ++ [{| code := new_code; name := new_name |}])%list in
      do saved <- save_reference which tr entries' ;
      run (if saved then (run st_success (added_message which) ; st_rerun) else ret tt) ;
      ret entries'
  else ret entries.

End Program.

(** ** A concrete world, to run the program on *)

(** A remote store of documents with revision tokens, a local directory, a
    clock; [remote_up] and [disk_ok] switch transport and disk failures on. *)
Record SimWorld := mkSim {
  remote_docs : gmap string ContentFile;
  remote_up : bool;
  local_files : gmap string string;
  disk_ok : bool;
  clock : Z
}.

Definition sim_get_contents (filename : string) (w : SimWorld)
  : (Exc + ContentFile) * SimWorld :=
  if remote_up w then
    match remote_docs w !! filename with
    | Some cf => (inr cf, w)
    | None => (inl (Raised "404 Not Found"), w)
    end
  else (inl (Raised "Connection refused"), w).

Definition sim_update_file (filename message content revision : string) (w : SimWorld)
  : (Exc + unit) * SimWorld :=
  if remote_up w then
    match remote_docs w !! filename with
    | Some cf =>
        if String.eqb (sha cf) revision then
          (inr tt,
           mkSim (<[filename := {| decoded_content := content;
                                   sha := "rev" ++ PyStr.str (clock w) |}]> (remote_docs w))
                 (remote_up w) (local_files w) (disk_ok w) (clock w + 1))
        else (inl (Raised "409 Conflict"), w)
    | None => (inl (Raised "404 Not Found"), w)
    end
  else (inl (Raised "Connection refused"), w).

Definition sim_create_file (filename message content : string) (w : SimWorld)
  : (Exc + unit) * SimWorld :=
  if remote_up w then
    match remote_docs w !! filename with
    | Some _ => (inl (Raised "422 sha was not supplied"), w)
    | None =>
        (inr tt,
         mkSim (<[filename := {| decoded_content := content;
                                 sha := "rev" ++ PyStr.str (clock w) |}]> (remote_docs w))
               (remote_up w) (local_files w) (disk_ok w) (clock w + 1))
    end
  else (inl (Raised "Connection refused"), w).

Definition sim_write_file (filepath content : string) (w : SimWorld)
  : (Exc + unit) * SimWorld :=
  if disk_ok w then
    (inr tt, mkSim (remote_docs w) (remote_up w)
                   (<[filepath := content]> (local_files w)) (disk_ok w) (clock w))
  else (inl (Raised "Permission denied"), w).

Definition sim_now (w : SimWorld) : string * SimWorld :=
  ("T" ++ PyStr.str (clock w),
   mkSim (remote_docs w) (remote_up w) (local_files w) (disk_ok w) (clock w + 1)).

(** A plain serialiser: one line per record, fields in key order. *)
Definition sim_object (fields : list (string * string)) : string :=
  "{" ++ PyStr.join "," (map (fun kv => fst kv ++ "=" ++ snd kv) fields) ++ "}".

Definition sim_dumps (data : Collection) : string :=
  match data with
  | AssetList assets =>
      PyStr.join "," (map (fun a : Asset => sim_object (map_to_list a)) assets)
  | ReferenceList entries =>
      PyStr.join "," (map (fun c => sim_object [("code", code c); ("name", name c)]) entries)
  end.

#[local] Instance sim_collaborators : Collaborators SimWorld := {
  get_contents := sim_get_contents;
  update_file := sim_update_file;
  create_file := sim_create_file;
  write_file := sim_write_file;
  now_isoformat := sim_now;
  json_dumps := sim_dumps;
  json_dump := sim_dumps
}.

(** Worlds: everything works; the disk refuses writes. *)
Definition sim_ok : State SimWorld :=
  mkState (mkSim ∅ true ∅ true 0) [].

Definition sim_disk_full : State SimWorld :=
  mkState (mkSim ∅ true ∅ false 0) [].

(** A world whose remote store already holds the assets document. *)
Definition sim_stored : State SimWorld :=
  mkState (mkSim {["assets.json" := {| decoded_content := "[]"; sha := "rev7" |}]}
                 true ∅ true 8) [].

(** A remote store that refuses every update (a stale revision token). *)
Definition sim_update_conflict (filename message content revision : string)
    (w : SimWorld) : (Exc + unit) * SimWorld :=
  (inl (Raised "409 Conflict"), w).

Definition conflict_collaborators : Collaborators SimWorld := {|
  get_contents := sim_get_contents;
  update_file := sim_update_conflict;
  create_file := sim_create_file;
  write_file := sim_write_file;
  now_isoformat := sim_now;
  json_dumps := sim_dumps;
  json_dump := sim_dumps
|}.

Definition local_tracker : Tracker := {| repo := None; use_github := false |}.
Definition github_tracker : Tracker :=
  {| repo := Some "owner/asset-tracker"; use_github := true |}.

(** ** Digit strings *)

(** The value of a digit string read after [acc], as [int_digits] computes
    it on a string of digits. *)
Fixpoint digits_value (s : string) (acc : Z) : Z :=
  match s with
  | EmptyString => acc
  | String c r => digits_value r (10 * acc + default 0 (PyStr.digit_val c))
  end.

Definition all_digits (s : string) : bool :=
  forallb PyStr.is_digit (list_ascii_of_string s).

Definition no_space (s : string) : bool :=
  forallb (fun c => negb (PyStr.is_space c)) (list_ascii_of_string s).

(** ** The rest of the program: loading, construction, removal, batches *)

(** The read-side collaborators: [os.path.exists], [open] for reading with
    the text handed to [json.load], and the JSON parser. *)
Class Readers (W : Type) := {
  path_exists : string -> W -> bool * W;
  read_file : string -> W -> (Exc + string) * W;
  json_loads : string -> Exc + Collection
}.

(** Call a collaborator that only reads; reads are not recorded. *)
Definition ask {W A} (f : W -> A * W) : M W A :=
  fun s => let (a, w') := f (world s) in (a, mkState w' (trace s)).

(** Truthiness of a loaded list. *)
Definition collection_truthy (data : Collection) : bool :=
  match data with
  | AssetList [] | ReferenceList [] => false
  | _ => true
  end.

Definition default_manufacturers : list ReferenceEntry :=
  [ {| code := "ZE"; name := "Zebra Electronics" |};
    {| code := "HP"; name := "Hewlett Packard" |};
    {| code := "DE"; name := "Dell" |};
    {| code := "LE"; name := "Lenovo" |};
    {| code := "AP"; name := "Apple" |} ].

Definition default_countries : list ReferenceEntry :=
  [ {| code := "EGY"; name := "Egypt" |};
    {| code := "KSA"; name := "Saudi Arabia" |} ].

(** Equality of two [{code, name}] objects. *)
Definition entry_eqb (a b : ReferenceEntry) : bool :=
  String.eqb (code a) (code b) && String.eqb (name a) (name b).

(** [l.remove(x)]: the first element equal to [x] is dropped; [None] stands
    for [ValueError]. *)
Fixpoint py_remove (x : ReferenceEntry) (l : list ReferenceEntry)
  : option (list ReferenceEntry) :=
  match l with
  | [] => None
  | y :: rest =>
      if entry_eqb y x then Some rest
      else match py_remove x rest with
           | Some rest' => Some (y :: rest')
           | None => None
           end
  end.

Definition removed_message (which : RefList) : string :=
  match which with
  | Countries => "Country removed!"
  | Manufacturers => "Manufacturer removed!"
  end.

(** What the generator form leaves in the session state. *)
Record Session := mkSession {
  generated_tags : list string;
  asset_data_list : list Asset
}.

(** Calls to the remote repository. *)
Definition is_remote_event (e : Event) : bool :=
  match e with
  | EvGetContents _ | EvUpdateFile _ _ _ _ | EvCreateFile _ _ _ => true
  | _ => false
  end.

(** Calls to a storage backend and the error messages of the backends. *)
Definition is_storage_event (e : Event) : bool :=
  match e with
  | EvGetContents _ | EvUpdateFile _ _ _ _ | EvCreateFile _ _ _
  | EvWriteFile _ _ | EvError _ => true
  | _ => false
  end.

(** The events recorded between two states. *)
Definition new_events {W} (s s' : State W) : list Event :=
  drop (length (trace s)) (trace s').

(** [s'] continues the trace of [s] with events that satisfy [Q]. *)
Definition extends_with {W} (Q : Event -> Prop) (s s' : State W) : Prop :=
  trace s' = (trace s ++ new_events s s')%list /\ Forall Q (new_events s s').

(** What a save may record: storage calls and error messages, and no remote
    call without a remote backend. *)
Definition save_event (tr : Tracker) (e : Event) : Prop :=
  is_storage_event e = true /\ (use_github tr = false -> is_remote_event e = false).

(** No remote call is made unless a remote backend is in use. *)
Definition local_unless_remote (tr : Tracker) (e : Event) : Prop :=
  use_github tr = false -> is_remote_event e = false.

(** An asset whose tag splits into three segments, the first two being the
    codes it is stored under. *)
Definition tidy (a : Asset) : bool :=
  match a !! "tag", a !! "country_code", a !! "manufacturer_code" with
  | Some t, Some c, Some m =>
      match PyStr.split "-" t with
      | [p0; p1; _] => String.eqb p0 c && String.eqb p1 m
      | _ => false
      end
  | _, _, _ => false
  end.

(** A code the tag format can carry: no dash in it. *)
Definition dash_free (s : string) : bool := negb (PyStr.contains "-" s).

Definition all_space (s : string) : bool :=
  forallb PyStr.is_space (list_ascii_of_string s).

(** The sort key of [show_recent_tags]: [x.get('date_created', '')]. *)
Definition date_key (a : Asset) : string :=
  default EmptyString (a !! "date_created").

(** [sorted(..., key=date_key, reverse=True)] as a stable insertion sort:
    an element goes after the ones whose key is not below its own, so equal
    keys keep their order; strings compare by code points. *)
Fixpoint insert_desc (x : Asset) (l : list Asset) : list Asset :=
  match l with
  | [] => [x]
  | y :: rest =>
      if String.ltb (date_key y) (date_key x) then x :: y :: rest
      else y :: insert_desc x rest
  end.

Definition sorted_desc (assets : list Asset) : list Asset :=
  fold_left (fun acc x => insert_desc x acc) assets [].

(** The assets [show_recent_tags] lists: the first ten of the sorted list. *)
Definition recent_assets (assets : list Asset) : list Asset :=
  take 10 (sorted_desc assets).

(** A list in which no asset is followed by one with a later date. *)
Fixpoint descending (l : list Asset) : Prop :=
  match l with
  | [] => True
  | x :: rest =>
      Forall (fun y => String.leb (date_key y) (date_key x) = true) rest
      /\ descending rest
  end.

(** The credentials the constructor reads: both from the secrets when both
    are there, otherwise both from the environment. *)
Definition read_credentials (secrets : option (gmap string string))
    (env : gmap string string) : option string * string :=
  let from_env :=
    (env !! "GITHUB_TOKEN",
     default "your-username/asset-tracker" (env !! "GITHUB_REPO")) in
  match secrets with
  | Some sec =>
      match sec !! "GITHUB_TOKEN", sec !! "GITHUB_REPO" with
      | Some token, Some repo_name => (Some token, repo_name)
      | _, _ => from_env
      end
  | None => from_env
  end.

(** The fields [__init__] sets, [get_repo] being the connection attempt
    with a token and a repository name. *)
Definition init (get_repo : string -> string -> Exc + string)
    (secrets : option (gmap string string)) (env : gmap string string) : Tracker :=
  let (github_token, repo_name) := read_credentials secrets env in
  match github_token with
  | Some token =>
      if PyStr.truthy token then
        match get_repo token repo_name with
        | inr r => {| repo := Some r; use_github := true |}
        | inl _ => {| repo := None; use_github := false |}
        end
      else {| repo := None; use_github := false |}
  | None => {| repo := None; use_github := false |}
  end.


Section ProgramRest.

Context {W : Type} `{!Collaborators W} `{!Readers W}.

Definition load_data_from_github (tr : Tracker) (filename : string) : M W Collection :=
  match repo tr with
  | None => ret (AssetList [])
  | Some _ =>
      do r <- call (EvGetContents filename) (get_contents filename) ;
      match r with
      | inr file_content =>
          match json_loads (decoded_content file_content) with
          | inr data => ret data
          | inl _ => ret (AssetList [])
          end
      | inl _ => ret (AssetList [])
      end
  end.

Definition load_data_from_file (filename : string) : M W Collection :=
  let filepath := "data/" ++ filename in
  do present <- ask (path_exists filepath) ;
  if present then
    do r <- ask (read_file filepath) ;
    match r with
    | inr content =>
        match json_loads content with
        | inr data => ret data
        | inl e =>
            run st_error ("Error loading " ++ filename ++ ": " ++ exc_str e) ;
            ret (AssetList [])
        end
    | inl e =>
        run st_error ("Error loading " ++ filename ++ ": " ++ exc_str e) ;
        ret (AssetList [])
    end
  else ret (AssetList []).

Definition load_from_backend (tr : Tracker) (filename : string) : M W Collection :=
  if use_github tr then load_data_from_github tr filename
  else load_data_from_file filename.


Definition load_manufacturers (tr : Tracker) : M W Collection :=
  do manufacturers <- load_from_backend tr manufacturers_file ;
  if collection_truthy manufacturers then ret manufacturers
  else ret (ReferenceList default_manufacturers).

Definition load_countries (tr : Tracker) : M W Collection :=
  do countries <- load_from_backend tr countries_file ;
  if collection_truthy countries then ret countries
  else ret (ReferenceList default_countries).

(** A pressed Remove button of [show_manage_lists]; [inl] is the
    [ValueError] of [remove] on an entry that is not in the list. *)
Definition remove_entry (which : RefList) (tr : Tracker) (entries : list ReferenceEntry)
    (entry : ReferenceEntry) : M W (Exc + list ReferenceEntry) :=
  match py_remove entry entries with
  | None => ret (inl (Raised "list.remove(x): x not in list"))
  | Some entries' =>
      do saved <- save_reference which tr entries' ;
      run (if saved then (run st_success (removed_message which) ; st_rerun) else ret tt) ;
      ret (inr entries')
  end.



(** The submitted generator form (lines 366-389). *)
Definition submit_generate (country_code manufacturer_code asset_name : string)
    (num_tags : nat) (assets : list Asset) : M W (option Session) :=
  if PyStr.truthy asset_name then
    do r <- generate_tags country_code manufacturer_code asset_name num_tags assets ;
    run st_success ("Generated " ++ PyStr.str (Z.of_nat (length (fst r))) ++ " tags!") ;
    ret (Some (mkSession (fst r) (drop (length assets) (snd r))))
  else
    run st_error "Please enter an asset name" ;
    ret None.

(** The pressed Save All Tags button (lines 403-412): the contents of
    [assets] afterwards and what is left of the session state. *)
Definition save_all_tags (tr : Tracker) (assets : list Asset) (session : Session)
  : M W (list Asset * option Session) :=
  let assets' := (assets ++ asset_data_list session)%list in
  do saved <- save_assets tr assets' ;
  if saved then
    run st_success ("Saved " ++ PyStr.str (Z.of_nat (length (asset_data_list session)))
                    ++ " asset tags successfully!") ;
    run st_rerun ;
    ret (assets', None)
  else
    run st_error "Failed to save asset tags" ;
    ret (assets', Some session).

End ProgramRest.

(** A reader for the concrete world: the local directory of [SimWorld], and
    a parser of what [sim_dumps] writes. *)
Definition sim_path_exists (filepath : string) (w : SimWorld) : bool * SimWorld :=
  (bool_decide (is_Some (local_files w !! filepath)), w).

Definition sim_read_file (filepath : string) (w : SimWorld) : (Exc + string) * SimWorld :=
  match local_files w !! filepath with
  | Some content => (inr content, w)
  | None => (inl (Raised "No such file or directory"), w)
  end.

(** One field [key=value]. *)
Definition sim_field (field : string) : option (string * string) :=
  match PyStr.split "=" field with
  | [k; v] => Some (k, v)
  | _ => None
  end.

Fixpoint sim_fields (fields : list string) : option (list (string * string)) :=
  match fields with
  | [] => Some []
  | field :: rest =>
      match sim_field field, sim_fields rest with
      | Some kv, Some l => Some (kv :: l)
      | _, _ => None
      end
  end.

(** What stands between the braces of a record, the record being the first
    or following a comma. *)
Definition sim_body (piece : string) : option string :=
  match piece with
  | String "{" body => Some body
  | String "," (String "{" body) => Some body
  | _ => None
  end.

(** The records of a document cut at its closing braces; nothing may follow
    the last brace. *)
Fixpoint sim_objects (pieces : list string) : option (list (list (string * string))) :=
  match pieces with
  | [] => Some []
  | piece :: rest =>
      match rest with
      | [] => if PyStr.truthy piece then None else Some []
      | _ :: _ =>
          match sim_body piece, sim_objects rest with
          | Some body, Some l =>
              match (if PyStr.truthy body
                     then sim_fields (PyStr.split "," body) else Some []) with
              | Some fields => Some (fields :: l)
              | None => None
              end
          | _, _ => None
          end
      end
  end.

(** A record with the two keys of a reference entry, in the order written. *)
Definition sim_entry (fields : list (string * string)) : option ReferenceEntry :=
  match fields with
  | [(k1, c); (k2, n)] =>
      if String.eqb k1 "code" && String.eqb k2 "name"
      then Some {| code := c; name := n |} else None
  | _ => None
  end.

Fixpoint sim_entries (objects : list (list (string * string)))
  : option (list ReferenceEntry) :=
  match objects with
  | [] => Some []
  | fields :: rest =>
      match sim_entry fields, sim_entries rest with
      | Some c, Some l => Some (c :: l)
      | _, _ => None
      end
  end.

Definition sim_loads (content : string) : Exc + Collection :=
  match sim_objects (PyStr.split "}" content) with
  | Some objects =>
      match sim_entries objects with
      | Some (c :: l) => inr (ReferenceList (c :: l))
      | _ => inr (AssetList (map (fun fields => list_to_map fields) objects))
      end
  | None => inl (Raised "Expecting value")
  end.

#[local] Instance sim_readers : Readers SimWorld := {
  path_exists := sim_path_exists;
  read_file := sim_read_file;
  json_loads := sim_loads
}.

(** A world whose local directory holds a list of countries. *)
Definition sim_local_countries : State SimWorld :=
  mkState (mkSim ∅ true {["data/countries.json" := "{code=UAE,name=Emirates}"]} true 0) [].


(** * Verification *)

(** ** Characters and digit strings *)

Ltac ascii_cases c := destruct c as [[] [] [] [] [] [] [] []].

#[local] Arguments String.append !_ _ / : simpl nomatch.

Lemma digit_val_char d : 0 <= d < 10 -> PyStr.digit_val (PyStr.digit_char d) = Some d.
Proof.
  intros Hd.
  assert (d = 0 \/ d = 1 \/ d = 2 \/ d = 3 \/ d = 4 \/ d = 5 \/ d = 6
          \/ d = 7 \/ d = 8 \/ d = 9) as Hc by lia.
  repeat (destruct Hc as [-> | Hc]; [reflexivity |]). subst d. reflexivity.
Qed.

Lemma digit_char_val c d :
  PyStr.digit_val c = Some d -> PyStr.digit_char d = c /\ 0 <= d < 10.
Proof.
  intros H. ascii_cases c; vm_compute in H; try discriminate H;
    injection H as <-; (split; [reflexivity | lia]).
Qed.

Lemma is_digit_val c : PyStr.is_digit c = true -> exists d, PyStr.digit_val c = Some d.
Proof. unfold PyStr.is_digit. destruct (PyStr.digit_val c); [eauto | discriminate]. Qed.

Lemma is_digit_char d : 0 <= d < 10 -> PyStr.is_digit (PyStr.digit_char d) = true.
Proof. intros Hd. unfold PyStr.is_digit. now rewrite digit_val_char. Qed.

Lemma digit_not_space c : PyStr.is_digit c = true -> PyStr.is_space c = false.
Proof. intros H. ascii_cases c; vm_compute in H; try discriminate H; reflexivity. Qed.

Lemma digit_not_dash c : PyStr.is_digit c = true -> Ascii.eqb c "-" = false.
Proof. intros H. ascii_cases c; vm_compute in H; try discriminate H; reflexivity. Qed.

Lemma append_nil_r (s : string) : s ++ EmptyString = s.
Proof. induction s; simpl; congruence. Qed.

Lemma append_assoc (s t u : string) : (s ++ t) ++ u = s ++ t ++ u.
Proof. induction s; simpl; congruence. Qed.

Lemma length_append (s t : string) :
  String.length (s ++ t) = (String.length s + String.length t)%nat.
Proof. induction s; simpl; congruence. Qed.

Lemma all_digits_cons c s :
  all_digits (String c s) = PyStr.is_digit c && all_digits s.
Proof. reflexivity. Qed.

Lemma all_digits_app s t : all_digits (s ++ t) = all_digits s && all_digits t.
Proof.
  induction s as [|c s IH]; [reflexivity |].
  simpl. rewrite !all_digits_cons, IH. now rewrite andb_assoc.
Qed.

Lemma digits_value_snoc s c acc :
  digits_value (s ++ String c EmptyString) acc
  = 10 * digits_value s acc + default 0 (PyStr.digit_val c).
Proof. revert acc. induction s as [|x s IH]; intros acc; simpl; [reflexivity | apply IH]. Qed.

Lemma digits_value_nonneg s acc : 0 <= acc -> 0 <= digits_value s acc.
Proof.
  revert acc. induction s as [|c s IH]; intros acc Hacc; simpl; [assumption |].
  apply IH. destruct (PyStr.digit_val c) as [d|] eqn:E; simpl; [| lia].
  apply digit_char_val in E. lia.
Qed.

(** On a string of digits [int_digits] reads the value. *)
Lemma int_digits_all_digits s acc prev :
  all_digits s = true -> (s <> EmptyString \/ prev = true) ->
  PyStr.int_digits s acc prev = Some (digits_value s acc).
Proof.
  revert acc prev. induction s as [|c s IH]; intros acc prev Hd Hne.
  - destruct Hne as [Hne | ->]; [congruence | reflexivity].
  - rewrite all_digits_cons in Hd. apply andb_prop in Hd as [Hc Hs].
    apply is_digit_val in Hc as [d Hc]. simpl. rewrite Hc. simpl.
    apply IH; [assumption | now right].
Qed.

(** [int_digits] never yields a negative number from a non-negative start. *)
Lemma int_digits_nonneg s acc prev n :
  0 <= acc -> PyStr.int_digits s acc prev = Some n -> 0 <= n.
Proof.
  revert acc prev. induction s as [|c s IH]; intros acc prev Hacc H; simpl in H.
  - destruct prev; [injection H as <-; assumption | discriminate].
  - destruct (PyStr.digit_val c) as [d|] eqn:E.
    + apply digit_char_val in E. eapply IH; [| exact H]. lia.
    + destruct (Ascii.eqb c "_"); [| discriminate].
      destruct prev; [| discriminate]. eapply IH; eauto.
Qed.

(** ** Decimal printing and reading *)

Lemma pow2_succ (f : nat) : 2 ^ Z.of_nat (S f) = 2 * 2 ^ Z.of_nat f.
Proof. rewrite Nat2Z.inj_succ. apply Z.pow_succ_r. lia. Qed.

Lemma div10_fuel (f : nat) n :
  10 <= n < 2 ^ Z.of_nat (S f) -> 0 <= n / 10 < 2 ^ Z.of_nat f /\ (0 < f)%nat.
Proof.
  intros [Hlo Hhi]. rewrite pow2_succ in Hhi.
  assert (0 <= n / 10 < 2 ^ Z.of_nat f) as Hdiv.
  { split; [apply Z.div_pos; lia |]. apply Z.div_lt_upper_bound; lia. }
  split; [exact Hdiv |].
  destruct f; [| lia]. simpl in Hdiv.
  assert (1 <= n / 10) by (apply Z.div_le_lower_bound; lia). lia.
Qed.

(** With enough fuel the digits do not depend on the fuel. *)
Lemma dec_go_fuel (f1 f2 : nat) n :
  0 <= n < 2 ^ Z.of_nat f1 -> (0 < f1)%nat ->
  0 <= n < 2 ^ Z.of_nat f2 -> (0 < f2)%nat ->
  PyStr.dec_go f1 n = PyStr.dec_go f2 n.
Proof.
  revert f2 n. induction f1 as [|f1 IH]; intros f2 n H1 P1 H2 P2; [lia |].
  destruct f2 as [|f2]; [lia |]. simpl.
  destruct (n <? 10)%Z eqn:E; [reflexivity |]. apply Z.ltb_ge in E.
  destruct (div10_fuel f1 n) as [Ha Hb]; [lia |].
  destruct (div10_fuel f2 n) as [Hc Hd]; [lia |].
  f_equal. now apply IH.
Qed.

Lemma dec_fuel_enough n :
  0 <= n -> 0 <= n < 2 ^ Z.of_nat (S (Z.to_nat (Z.log2 n))).
Proof.
  intros Hn. split; [assumption |].
  rewrite Nat2Z.inj_succ, Z2Nat.id by apply Z.log2_nonneg.
  destruct (Z.eq_dec n 0) as [-> | Hz]; [reflexivity |].
  apply Z.log2_spec. lia.
Qed.

Lemma dec_small n : 0 <= n < 10 -> PyStr.dec n = String (PyStr.digit_char n) EmptyString.
Proof.
  intros Hn. unfold PyStr.dec. simpl.
  destruct (n <? 10)%Z eqn:E; [reflexivity |]. apply Z.ltb_ge in E. lia.
Qed.

(** The recursive equation of [str] on numbers of two digits or more. *)
Lemma dec_step n :
  10 <= n ->
  PyStr.dec n = PyStr.dec (n / 10) ++ String (PyStr.digit_char (n mod 10)) EmptyString.
Proof.
  intros Hn. unfold PyStr.dec at 1. simpl.
  destruct (n <? 10)%Z eqn:E; [apply Z.ltb_lt in E; lia |].
  f_equal.
  destruct (dec_fuel_enough n) as [_ Hhi]; [lia |].
  destruct (div10_fuel (Z.to_nat (Z.log2 n)) n) as [Ha Hb]; [lia |].
  apply dec_go_fuel; try assumption.
  - apply dec_fuel_enough. lia.
  - lia.
Qed.

(** Induction over the decimal digits of a non-negative number. *)
Lemma dec_ind (P : Z -> Prop) :
  (forall n, 0 <= n < 10 -> P n) ->
  (forall n, 10 <= n -> P (n / 10) -> P n) ->
  forall n, 0 <= n -> P n.
Proof.
  intros Hsmall Hstep n Hn.
  cut (0 <= n -> P n); [auto |]. pattern n.
  apply Z_lt_induction; [| exact Hn]. clear n Hn. intros m IH Hm.
  destruct (Z_lt_le_dec m 10) as [Hlt | Hge]; [apply Hsmall; lia |].
  assert (0 <= m / 10 < m) as Hdiv
    by (split; [apply Z.div_pos; lia | apply Z.div_lt; lia]).
  apply Hstep; [assumption |]. apply IH; [exact Hdiv | lia].
Qed.

Lemma dec_all_digits n : 0 <= n -> all_digits (PyStr.dec n) = true.
Proof.
  apply (dec_ind (fun n => all_digits (PyStr.dec n) = true)); clear n.
  - intros n Hn. rewrite dec_small by assumption.
    rewrite all_digits_cons, is_digit_char by assumption. reflexivity.
  - intros n Hn IH. rewrite dec_step, all_digits_app, IH by assumption.
    rewrite all_digits_cons, is_digit_char; [reflexivity |].
    apply Z.mod_pos_bound. lia.
Qed.

Lemma dec_nonempty n : 0 <= n -> PyStr.dec n <> EmptyString.
Proof.
  intros Hn. destruct (Z_lt_le_dec n 10).
  - rewrite dec_small by lia. discriminate.
  - rewrite dec_step by assumption.
    destruct (PyStr.dec (n / 10)); discriminate.
Qed.

(** Reading what [str] printed gives the number back. *)
Lemma digits_value_dec n : 0 <= n -> digits_value (PyStr.dec n) 0 = n.
Proof.
  apply (dec_ind (fun n => digits_value (PyStr.dec n) 0 = n)); clear n.
  - intros n Hn. rewrite dec_small by assumption. cbn [digits_value].
    rewrite digit_val_char by assumption. simpl (default _ _). lia.
  - intros n Hn IH. rewrite dec_step, digits_value_snoc, IH by assumption.
    rewrite digit_val_char by (apply Z.mod_pos_bound; lia). simpl (default _ _).
    pose proof (Z.div_mod n 10). lia.
Qed.

(** Printing after reading: digits read after a positive prefix. *)
Lemma dec_digits_value_pos s acc :
  0 < acc -> all_digits s = true ->
  PyStr.dec (digits_value s acc) = PyStr.dec acc ++ s.
Proof.
  revert acc. induction s as [|c s IH]; intros acc Hacc Hd; simpl.
  - now rewrite append_nil_r.
  - rewrite all_digits_cons in Hd. apply andb_prop in Hd as [Hc Hs].
    apply is_digit_val in Hc as [d Hc]. rewrite Hc. simpl.
    apply digit_char_val in Hc as [Hc Hr].
    rewrite IH by (assumption || lia).
    rewrite dec_step by lia.
    replace ((10 * acc + d) / 10) with acc
      by (apply Z.div_unique with d; lia).
    replace ((10 * acc + d) mod 10) with d
      by (apply Z.mod_unique with acc; lia).
    rewrite Hc, append_assoc. reflexivity.
Qed.

Lemma zeros_snoc k : PyStr.zeros k ++ "0" = PyStr.zeros (S k).
Proof. induction k as [|k IH]; [reflexivity |]. simpl in *. now rewrite IH. Qed.

Lemma length_zeros k : String.length (PyStr.zeros k) = k.
Proof. induction k; simpl; congruence. Qed.

(** Printing after reading a digit string drops its leading zeros. *)
Lemma dec_digits_value_zeros s :
  all_digits s = true -> s <> EmptyString ->
  exists k, s = PyStr.zeros k ++ PyStr.dec (digits_value s 0).
Proof.
  induction s as [|c s IH]; intros Hd Hne; [congruence |].
  rewrite all_digits_cons in Hd. apply andb_prop in Hd as [Hc Hs].
  apply is_digit_val in Hc as [d Hc]. simpl. rewrite Hc. simpl.
  apply digit_char_val in Hc as [Hc Hr].
  replace (10 * 0 + d) with d by lia.
  destruct (Z.eq_dec d 0) as [-> | Hnz].
  - destruct s as [|c' s'].
    + exists O. simpl. rewrite <- Hc. reflexivity.
    + destruct IH as [k Hk]; [assumption | discriminate |].
      exists (S k). simpl. rewrite <- Hc. f_equal. exact Hk.
  - exists O. simpl. rewrite dec_digits_value_pos by (assumption || lia).
    rewrite dec_small by lia. rewrite Hc. reflexivity.
Qed.

(** ** Stripping, reading and formatting *)

Lemma no_space_cons c s :
  no_space (String c s) = negb (PyStr.is_space c) && no_space s.
Proof. reflexivity. Qed.

Lemma rstrip_no_space s : no_space s = true -> PyStr.rstrip s = s.
Proof.
  induction s as [|c s IH]; intros H; [reflexivity |].
  rewrite no_space_cons in H. apply andb_prop in H as [Hc Hs].
  cbn [PyStr.rstrip]. rewrite (IH Hs).
  destruct s; [| reflexivity].
  destruct (PyStr.is_space c); [discriminate | reflexivity].
Qed.

Lemma lstrip_no_space s : no_space s = true -> PyStr.lstrip s = s.
Proof.
  destruct s as [|c s]; intros H; [reflexivity |].
  rewrite no_space_cons in H. apply andb_prop in H as [Hc Hs].
  cbn [PyStr.lstrip]. destruct (PyStr.is_space c); [discriminate | reflexivity].
Qed.

Lemma strip_no_space s : no_space s = true -> PyStr.strip s = s.
Proof.
  intros H. unfold PyStr.strip. rewrite lstrip_no_space by assumption.
  now apply rstrip_no_space.
Qed.

(** What [int] skips is white space for [str.strip] too; the converse fails
    on the separators FS..US. *)
Lemma int_space_is_space c :
  PyStr.is_int_space c = true -> PyStr.is_space c = true.
Proof.
  unfold PyStr.is_int_space, PyStr.is_space. rewrite !existsb_exists.
  intros (n & Hin & Hn). exists n. split; [| exact Hn].
  simpl in Hin |- *. intuition.
Qed.

Lemma int_rstrip_no_space s : no_space s = true -> PyStr.int_rstrip s = s.
Proof.
  induction s as [|c s IH]; intros H; [reflexivity |].
  rewrite no_space_cons in H. apply andb_prop in H as [Hc Hs].
  cbn [PyStr.int_rstrip]. rewrite (IH Hs).
  destruct s; [| reflexivity].
  destruct (PyStr.is_int_space c) eqn:E; [| reflexivity].
  apply int_space_is_space in E. rewrite E in Hc. discriminate.
Qed.

Lemma int_lstrip_no_space s : no_space s = true -> PyStr.int_lstrip s = s.
Proof.
  destruct s as [|c s]; intros H; [reflexivity |].
  rewrite no_space_cons in H. apply andb_prop in H as [Hc Hs].
  cbn [PyStr.int_lstrip].
  destruct (PyStr.is_int_space c) eqn:E; [| reflexivity].
  apply int_space_is_space in E. rewrite E in Hc. discriminate.
Qed.

Lemma int_strip_no_space s : no_space s = true -> PyStr.int_strip s = s.
Proof.
  intros H. unfold PyStr.int_strip. rewrite int_lstrip_no_space by assumption.
  now apply int_rstrip_no_space.
Qed.

Lemma all_digits_no_space s : all_digits s = true -> no_space s = true.
Proof.
  induction s as [|c s IH]; intros H; [reflexivity |].
  rewrite all_digits_cons in H. apply andb_prop in H as [Hc Hs].
  rewrite no_space_cons, (digit_not_space c Hc), (IH Hs). reflexivity.
Qed.

Lemma all_digits_no_dash s : all_digits s = true -> PyStr.contains "-" s = false.
Proof.
  induction s as [|c s IH]; intros H; [reflexivity |].
  rewrite all_digits_cons in H. apply andb_prop in H as [Hc Hs].
  cbn [PyStr.contains]. rewrite (digit_not_dash c Hc). now apply IH.
Qed.

(** A signless head: [int] goes straight to the digits. *)
Lemma int_unsigned c r :
  PyStr.is_digit c = true -> PyStr.int_strip (String c r) = String c r ->
  PyStr.int (String c r) = PyStr.int_digits (String c r) 0 false.
Proof.
  intros Hc Hs. unfold PyStr.int. rewrite Hs. clear Hs.
  ascii_cases c; vm_compute in Hc; try discriminate Hc; reflexivity.
Qed.

(** [int] on a non-empty string of digits. *)
Lemma int_all_digits s :
  all_digits s = true -> s <> EmptyString -> PyStr.int s = Some (digits_value s 0).
Proof.
  intros Hd Hne. destruct s as [|c r]; [congruence |].
  pose proof Hd as Hd'. rewrite all_digits_cons in Hd'.
  apply andb_prop in Hd' as [Hc _].
  rewrite int_unsigned; [| assumption | now apply int_strip_no_space, all_digits_no_space].
  apply int_digits_all_digits; [assumption | now left].
Qed.

Lemma all_digits_zeros k : all_digits (PyStr.zeros k) = true.
Proof. induction k; [reflexivity | assumption]. Qed.

Lemma digits_value_zeros k s : digits_value (PyStr.zeros k ++ s) 0 = digits_value s 0.
Proof. induction k as [|k IH]; [reflexivity | exact IH]. Qed.

Lemma format_04d_nonneg n : 0 <= n -> PyStr.format_04d n = PyStr.pad0 4 (PyStr.dec n).
Proof.
  intros Hn. unfold PyStr.format_04d.
  destruct (n <? 0)%Z eqn:E; [apply Z.ltb_lt in E; lia | reflexivity].
Qed.

Lemma format_04d_all_digits n : 0 <= n -> all_digits (PyStr.format_04d n) = true.
Proof.
  intros Hn. rewrite format_04d_nonneg by assumption. unfold PyStr.pad0.
  now rewrite all_digits_app, all_digits_zeros, dec_all_digits.
Qed.

Lemma format_04d_nonempty n : 0 <= n -> PyStr.format_04d n <> EmptyString.
Proof.
  intros Hn. rewrite format_04d_nonneg by assumption. unfold PyStr.pad0.
  pose proof (dec_nonempty n Hn) as Hne.
  destruct (PyStr.zeros _); simpl; [assumption | discriminate].
Qed.

(** Reading a formatted sequence number gives the number back. *)
Lemma int_format_04d n : 0 <= n -> PyStr.int (PyStr.format_04d n) = Some n.
Proof.
  intros Hn.
  rewrite int_all_digits
    by (apply format_04d_all_digits || apply format_04d_nonempty; assumption).
  rewrite format_04d_nonneg by assumption. unfold PyStr.pad0.
  now rewrite digits_value_zeros, digits_value_dec.
Qed.

(** The digits printed for a sequence number have that number as value. *)
Lemma digits_value_format_04d n :
  0 <= n -> digits_value (PyStr.format_04d n) 0 = n.
Proof.
  intros Hn. rewrite format_04d_nonneg by assumption. unfold PyStr.pad0.
  now rewrite digits_value_zeros, digits_value_dec.
Qed.

(** Formatting what was read from a canonical segment gives the segment. *)
Lemma format_04d_canonical s :
  canonical_sequence s = true -> PyStr.format_04d (digits_value s 0) = s.
Proof.
  unfold canonical_sequence. intros H. apply andb_prop in H as [Hd Hshape].
  change (all_digits s = true) in Hd.
  assert (s <> EmptyString) as Hne.
  { intros ->. simpl in Hshape. discriminate. }
  rewrite format_04d_nonneg by (apply digits_value_nonneg; lia).
  destruct (dec_digits_value_zeros s Hd Hne) as [k Hk].
  set (v := PyStr.dec (digits_value s 0)) in *.
  assert (String.length s = (k + String.length v)%nat) as Hlen
    by (rewrite Hk at 1; now rewrite length_append, length_zeros).
  unfold PyStr.pad0. apply orb_prop in Hshape as [H4 | Hlong].
  - apply Nat.eqb_eq in H4.
    replace (4 - String.length v)%nat with k by lia. now symmetry.
  - apply andb_prop in Hlong as [Hgt Hlead]. apply Nat.ltb_lt in Hgt.
    destruct k as [|k].
    + simpl in Hk. rewrite <- Hk.
      replace (4 - String.length s)%nat with O by lia. reflexivity.
    + rewrite Hk in Hlead. simpl in Hlead. discriminate.
Qed.

(** ** Splitting on a separator *)

Lemma split_nonempty sep s : PyStr.split sep s <> [].
Proof.
  destruct s as [|c s]; simpl; [discriminate |].
  destruct (Ascii.eqb c sep); [discriminate |].
  destruct (PyStr.split sep s); discriminate.
Qed.

Lemma split_no_sep sep s : PyStr.contains sep s = false -> PyStr.split sep s = [s].
Proof.
  induction s as [|c s IH]; intros H; [reflexivity |]. simpl in *.
  destruct (Ascii.eqb c sep); [discriminate |]. now rewrite IH.
Qed.

Lemma contains_app c s t :
  PyStr.contains c (s ++ t) = PyStr.contains c s || PyStr.contains c t.
Proof.
  induction s as [|x s IH]; [reflexivity |]. simpl.
  destruct (Ascii.eqb x c); [reflexivity | exact IH].
Qed.

Lemma last_cons_nonempty (x : string) l :
  l <> [] -> PyStr.last_segment (x :: l) = PyStr.last_segment l.
Proof. destruct l; [congruence | reflexivity]. Qed.

(** Splitting distributes over a separator. *)
Lemma split_app_sep sep s t :
  PyStr.split sep (s ++ String sep t) = (PyStr.split sep s ++ PyStr.split sep t)%list.
Proof.
  induction s as [|c s IH]; simpl.
  - now rewrite Ascii.eqb_refl.
  - rewrite IH. destruct (Ascii.eqb c sep); [reflexivity |].
    destruct (PyStr.split sep s) as [|h tl] eqn:E; [now apply split_nonempty in E |].
    reflexivity.
Qed.

Lemma last_segment_app_list (l1 l2 : list string) :
  l2 <> [] -> PyStr.last_segment (l1 ++ l2) = PyStr.last_segment l2.
Proof.
  intros Hne. induction l1 as [|x l1 IH]; [reflexivity |].
  change ((x :: l1) ++ l2)%list with (x :: (l1 ++ l2))%list.
  rewrite last_cons_nonempty; [exact IH |].
  destruct l1; simpl; [assumption | discriminate].
Qed.

(** The trailing segment only depends on what follows the last separator. *)
Lemma last_segment_app sep s t :
  PyStr.last_segment (PyStr.split sep (s ++ String sep t))
  = PyStr.last_segment (PyStr.split sep t).
Proof. rewrite split_app_sep. apply last_segment_app_list, split_nonempty. Qed.

Lemma last_segment_no_sep sep s :
  PyStr.contains sep (PyStr.last_segment (PyStr.split sep s)) = false.
Proof.
  induction s as [|c s IH]; [reflexivity |]. simpl.
  destruct (Ascii.eqb c sep) eqn:E.
  - rewrite last_cons_nonempty by apply split_nonempty. exact IH.
  - destruct (PyStr.split sep s) as [|h [|h' tl]] eqn:Es.
    + now apply split_nonempty in Es.
    + simpl in *. now rewrite E.
    + exact IH.
Qed.

Lemma join_cons sep p l :
  l <> [] -> PyStr.join sep (p :: l) = p ++ sep ++ PyStr.join sep l.
Proof. destruct l; [congruence | reflexivity]. Qed.

Lemma join_split sep s : PyStr.join (String sep EmptyString) (PyStr.split sep s) = s.
Proof.
  induction s as [|c s IH]; [reflexivity |]. cbn [PyStr.split].
  pose proof (split_nonempty sep s) as Hne.
  destruct (Ascii.eqb c sep) eqn:E.
  - apply Ascii.eqb_eq in E as ->.
    rewrite join_cons by assumption. simpl. now rewrite IH.
  - destruct (PyStr.split sep s) as [|h tl]; [congruence |].
    destruct tl as [|h' tl].
    + simpl in *. now rewrite IH.
    + rewrite join_cons in * by discriminate. rewrite <- IH. reflexivity.
Qed.

Lemma split_length_contains sep s :
  (1 < length (PyStr.split sep s))%nat -> PyStr.contains sep s = true.
Proof.
  intros H. destruct (PyStr.contains sep s) eqn:E; [reflexivity |].
  rewrite split_no_sep in H by assumption. simpl in H. lia.
Qed.

(** ** The sign of what [int] reads *)

Lemma int_cases s :
  PyStr.int s =
  match PyStr.int_strip s with
  | EmptyString => None
  | String c r =>
      if Ascii.eqb c "+" then PyStr.int_digits r 0 false
      else if Ascii.eqb c "-" then Z.opp <$> PyStr.int_digits r 0 false
      else PyStr.int_digits (String c r) 0 false
  end.
Proof.
  unfold PyStr.int. destruct (PyStr.int_strip s) as [|c r]; [reflexivity |].
  ascii_cases c; reflexivity.
Qed.

Lemma contains_int_lstrip c s :
  PyStr.contains c (PyStr.int_lstrip s) = true -> PyStr.contains c s = true.
Proof.
  induction s as [|x s IH]; [trivial |]. cbn [PyStr.int_lstrip].
  destruct (PyStr.is_int_space x); [| trivial].
  intros H. cbn [PyStr.contains]. rewrite (IH H). now destruct (Ascii.eqb x c).
Qed.

Lemma contains_int_rstrip c s :
  PyStr.contains c (PyStr.int_rstrip s) = true -> PyStr.contains c s = true.
Proof.
  induction s as [|x s IH]; [trivial |].
  cbn [PyStr.int_rstrip PyStr.contains].
  destruct (Ascii.eqb x c) eqn:E; [trivial |].
  destruct (PyStr.int_rstrip s) as [|y r].
  - destruct (PyStr.is_int_space x); simpl; [discriminate | now rewrite E].
  - cbn [PyStr.contains]. rewrite E. exact IH.
Qed.

Lemma contains_int_strip c s :
  PyStr.contains c (PyStr.int_strip s) = true -> PyStr.contains c s = true.
Proof. intros H. now apply contains_int_lstrip, contains_int_rstrip. Qed.

(** A segment without a dash never reads as a negative number. *)
Lemma int_no_dash_nonneg s n :
  PyStr.contains "-" s = false -> PyStr.int s = Some n -> 0 <= n.
Proof.
  intros Hdash. rewrite int_cases.
  destruct (PyStr.int_strip s) as [|c r] eqn:Es; [discriminate |].
  destruct (Ascii.eqb c "+"); [apply int_digits_nonneg; lia |].
  destruct (Ascii.eqb c "-") eqn:E; [| apply int_digits_nonneg; lia].
  exfalso. assert (PyStr.contains "-" (PyStr.int_strip s) = true) as Hc
    by (rewrite Es; simpl; now rewrite E).
  apply contains_int_strip in Hc. congruence.
Qed.

(** ** The maximum of a list *)

Lemma fold_max_ge (xs : list Z) x : x <= fold_left Z.max xs x.
Proof.
  revert x. induction xs as [|y xs IH]; intros x; simpl; [lia |].
  specialize (IH (Z.max x y)). lia.
Qed.

Lemma fold_max_upper (xs : list Z) x y : In y xs -> y <= fold_left Z.max xs x.
Proof.
  revert x. induction xs as [|z xs IH]; intros x Hin; simpl; [destruct Hin |].
  destruct Hin as [-> | Hin]; [| now apply IH].
  pose proof (fold_max_ge xs (Z.max x y)). lia.
Qed.

Lemma fold_max_bound (xs : list Z) x b :
  x <= b -> (forall y, In y xs -> y <= b) -> fold_left Z.max xs x <= b.
Proof.
  revert x. induction xs as [|z xs IH]; intros x Hx Hall; simpl; [assumption |].
  apply IH; [| intros y Hy; apply Hall; now right].
  specialize (Hall z (or_introl eq_refl)). lia.
Qed.

Lemma max_upper (l : list Z) m y : PyStr.max l = Some m -> In y l -> y <= m.
Proof.
  destruct l as [|x xs]; [discriminate |]. simpl. intros [= <-] [-> | Hin].
  - apply fold_max_ge.
  - now apply fold_max_upper.
Qed.

Lemma max_lower (l : list Z) m b :
  PyStr.max l = Some m -> (forall y, In y l -> b <= y) -> b <= m.
Proof.
  destruct l as [|x xs]; [discriminate |]. simpl. intros [= <-] Hall.
  specialize (Hall x (or_introl eq_refl)). pose proof (fold_max_ge xs x). lia.
Qed.

(** Appending a number above the maximum makes it the maximum. *)
Lemma max_snoc (l : list Z) x :
  (forall y, In y l -> y <= x) -> PyStr.max (l ++ [x]) = Some x.
Proof.
  intros Hall. destruct l as [|z zs]; [reflexivity |]. simpl. f_equal.
  rewrite fold_left_app. simpl.
  assert (fold_left Z.max zs z <= x); [| lia].
  apply fold_max_bound; [apply Hall; now left | intros y Hy; apply Hall; now right].
Qed.

(** ** The generator *)

Section Generator.

Variables country_code manufacturer_code : string.

(** The loop that fills [numbers] collects [parse_trailing] of each asset. *)
Lemma fold_collect_number (l : list Asset) (numbers : list Z) :
  fold_left collect_number l numbers = (numbers ++ omap parse_trailing l)%list.
Proof.
  revert numbers. induction l as [|a l IH]; intros numbers; simpl.
  - now rewrite app_nil_r.
  - rewrite IH. unfold collect_number, parse_trailing.
    destruct (PyStr.contains "-" (default EmptyString (a !! "tag"))); [| reflexivity].
    destruct (PyStr.int _); [| reflexivity].
    now rewrite <- app_assoc.
Qed.

Lemma next_number_parsed (assets : list Asset) :
  next_number country_code manufacturer_code assets =
  match PyStr.max (parsed_numbers country_code manufacturer_code assets) with
  | Some m => m + 1
  | None => 1
  end.
Proof.
  unfold next_number, parsed_numbers.
  destruct (List.filter _ assets) as [|a l]; [reflexivity |].
  rewrite fold_collect_number. reflexivity.
Qed.

Lemma parsed_numbers_nonneg (assets : list Asset) n :
  In n (parsed_numbers country_code manufacturer_code assets) -> 0 <= n.
Proof.
  unfold parsed_numbers. intros Hin.
  apply list_elem_of_In, list_elem_of_omap in Hin as (a & _ & Ha).
  unfold parse_trailing in Ha. cbv zeta in Ha.
  destruct (PyStr.contains "-" (default EmptyString (a !! "tag"))); [| discriminate].
  eapply int_no_dash_nonneg; [| exact Ha]. apply last_segment_no_sep.
Qed.

Lemma next_number_pos (assets : list Asset) :
  1 <= next_number country_code manufacturer_code assets.
Proof.
  rewrite next_number_parsed.
  destruct (PyStr.max _) as [m|] eqn:E; [| lia].
  enough (0 <= m) by lia.
  destruct (parsed_numbers country_code manufacturer_code assets) as [|x xs] eqn:Ep;
    [discriminate |].
  assert (0 <= x) by (eapply parsed_numbers_nonneg; rewrite Ep; now left).
  pose proof (max_upper _ _ x E (or_introl eq_refl)). lia.
Qed.

End Generator.

(** ** Records appended by the program *)

Lemma new_asset_tag t c m n d : new_asset t c m n d !! "tag" = Some t.
Proof. unfold new_asset. now simplify_map_eq. Qed.

Lemma new_asset_country t c m n d : new_asset t c m n d !! "country_code" = Some c.
Proof. unfold new_asset. now simplify_map_eq. Qed.

Lemma new_asset_manufacturer t c m n d :
  new_asset t c m n d !! "manufacturer_code" = Some m.
Proof. unfold new_asset. now simplify_map_eq. Qed.

Lemma matches_new_asset t c m n d : matches c m (new_asset t c m n d) = true.
Proof.
  unfold matches, get_eq.
  rewrite new_asset_country, new_asset_manufacturer, !String.eqb_refl. reflexivity.
Qed.

Lemma tags_app (l1 l2 : list Asset) : tags (l1 ++ l2) = (tags l1 ++ tags l2)%list.
Proof. apply omap_app. Qed.

Lemma tags_new_asset t c m n d : tags [new_asset t c m n d] = [t].
Proof. unfold tags. simpl. now rewrite new_asset_tag. Qed.

(** The trailing segment of a formatted tag is its sequence number. *)
Lemma format_tag_contains_dash c m n : PyStr.contains "-" (format_tag c m n) = true.
Proof.
  unfold format_tag. rewrite contains_app. simpl. now rewrite orb_true_r.
Qed.

Lemma format_tag_last_segment c m n :
  0 <= n ->
  PyStr.last_segment (PyStr.split "-" (format_tag c m n)) = PyStr.format_04d n.
Proof.
  intros Hn. unfold format_tag.
  change ("-" ++ m ++ "-" ++ PyStr.format_04d n)
    with (String "-" (m ++ String "-" (PyStr.format_04d n))).
  rewrite !last_segment_app, split_no_sep; [reflexivity |].
  now apply all_digits_no_dash, format_04d_all_digits.
Qed.

Lemma format_tag_sequence c m n :
  0 <= n -> PyStr.int (PyStr.last_segment (PyStr.split "-" (format_tag c m n))) = Some n.
Proof. intros Hn. rewrite format_tag_last_segment by assumption. now apply int_format_04d. Qed.

Section GeneratorSteps.

Variables country_code manufacturer_code : string.

(** An asset of the pair whose tag is a formatted tag contributes its
    sequence number to [parsed_numbers]. *)
Lemma parsed_numbers_member (assets : list Asset) (a : Asset) n :
  In a assets -> matches country_code manufacturer_code a = true ->
  a !! "tag" = Some (format_tag country_code manufacturer_code n) -> 0 <= n ->
  In n (parsed_numbers country_code manufacturer_code assets).
Proof.
  intros Hin Hm Htag Hn. unfold parsed_numbers.
  apply list_elem_of_In, list_elem_of_omap. exists a. split.
  - apply list_elem_of_In, filter_In. now split.
  - unfold parse_trailing. rewrite Htag. simpl (default _ _).
    rewrite format_tag_contains_dash. now apply format_tag_sequence.
Qed.

Lemma parsed_numbers_snoc (assets : list Asset) n nm d :
  0 <= n ->
  parsed_numbers country_code manufacturer_code
    (assets ++ [new_asset (format_tag country_code manufacturer_code n)
                          country_code manufacturer_code nm d])
  = (parsed_numbers country_code manufacturer_code assets ++ [n])%list.
Proof.
  intros Hn. unfold parsed_numbers.
  rewrite List.filter_app, omap_app. f_equal.
  cbn [List.filter]. rewrite matches_new_asset. cbn [omap list_omap].
  unfold parse_trailing. rewrite new_asset_tag. simpl (default _ _).
  rewrite format_tag_contains_dash, format_tag_sequence by assumption. reflexivity.
Qed.

(** Every parsed number lies below the next number. *)
Lemma parsed_below_next (assets : list Asset) y :
  In y (parsed_numbers country_code manufacturer_code assets) ->
  y < next_number country_code manufacturer_code assets.
Proof.
  intros Hin. rewrite next_number_parsed.
  destruct (PyStr.max _) as [m|] eqn:E.
  - pose proof (max_upper _ _ y E Hin). lia.
  - destruct (parsed_numbers _ _ assets); [destruct Hin | discriminate].
Qed.

(** Feeding the generated record back advances the sequence by one. *)
Lemma next_number_snoc (assets : list Asset) nm d :
  next_number country_code manufacturer_code
    (assets ++ [new_asset (generate_asset_tag country_code manufacturer_code assets)
                          country_code manufacturer_code nm d])
  = next_number country_code manufacturer_code assets + 1.
Proof.
  pose proof (next_number_pos country_code manufacturer_code assets) as Hpos.
  unfold generate_asset_tag.
  rewrite (next_number_parsed _ _ (_ ++ _)), parsed_numbers_snoc by lia.
  rewrite max_snoc; [reflexivity |].
  intros y Hy. apply parsed_below_next in Hy. lia.
Qed.

(** The generated tag differs from the tag of every asset of the pair. *)
Lemma generated_tag_fresh_in_pair (assets : list Asset) (a : Asset) :
  In a assets -> matches country_code manufacturer_code a = true ->
  a !! "tag" <> Some (generate_asset_tag country_code manufacturer_code assets).
Proof.
  intros Hin Hm Htag. unfold generate_asset_tag in Htag.
  pose proof (next_number_pos country_code manufacturer_code assets) as Hpos.
  assert (In (next_number country_code manufacturer_code assets)
             (parsed_numbers country_code manufacturer_code assets)) as Hmem
    by (eapply parsed_numbers_member; eauto; lia).
  apply parsed_below_next in Hmem. lia.
Qed.

End GeneratorSteps.

(** ** Tag generation: the sequence number *)



(** ** Batch generation *)

Section Batch.

Context {W : Type} `{!Collaborators W}.

Lemma generate_loop_S k i c m nm (gen : list string) (cur : list Asset) (s : State W) :
  generate_loop (S k) i c m nm gen cur s =
  generate_loop k (i + 1) c m nm
    (gen ++ [generate_asset_tag c m cur])%list
    (cur ++ [new_asset (generate_asset_tag c m cur) c m
                       (nm ++ " #" ++ PyStr.str (i + 1))
                       (fst (now_isoformat (world s)))])%list
    (mkState (snd (now_isoformat (world s))) (trace s ++ [EvNow])%list).
Proof.
  cbn [generate_loop]. unfold bind, call.
  destruct (now_isoformat (world s)) as [d w']. reflexivity.
Qed.

(** The tags of a batch count up from the next number of the snapshot. *)
Lemma generate_loop_tags k i c m nm (gen : list string) (cur : list Asset) (s : State W) :
  fst (fst (generate_loop k i c m nm gen cur s)) =
  (gen ++ map (fun j => format_tag c m (next_number c m cur + Z.of_nat j)) (seq 0 k))%list.
Proof.
  revert i gen cur s. induction k as [|k IH]; intros i gen cur s.
  - simpl. now rewrite app_nil_r.
  - rewrite generate_loop_S, IH, next_number_snoc, <- app_assoc. f_equal.
    cbn [seq map app]. f_equal.
    + unfold generate_asset_tag. f_equal. lia.
    + rewrite <- seq_shift, map_map. apply map_ext. intros j. f_equal. lia.
Qed.

End Batch.

(** C3. In a batch of [num_tags] tags for one pair, each tag being fed back
    into the snapshot of the next call, started from a snapshot with no asset
    of the pair, the N-th tag carries the sequence number N: the tag is the
    two codes followed by a run of decimal digits whose value is N, and
    reading the tag's trailing segment the way the generator reads stored
    tags ([int] of the last dash-separated segment) gives N. *)
Theorem nth_generated_tag_has_sequence_n {W : Type} `{!Collaborators W}
    (country_code manufacturer_code asset_name : string)
    (num_tags N : nat) (assets : list Asset) (s : State W) :
  (1 <= N <= num_tags)%nat ->
  List.filter (matches country_code manufacturer_code) assets = [] ->
  exists tag digits,
    fst (fst (generate_tags country_code manufacturer_code asset_name num_tags assets s))
      !! (N - 1)%nat = Some tag
    /\ tag = format_tag country_code manufacturer_code (Z.of_nat N)
    /\ tag = country_code ++ "-" ++ manufacturer_code ++ "-" ++ digits
    /\ all_digits digits = true
    /\ digits_value digits 0 = Z.of_nat N
    /\ PyStr.int digits = Some (Z.of_nat N)
    /\ PyStr.int (PyStr.last_segment (PyStr.split "-" tag)) = Some (Z.of_nat N).
Proof.
  intros HN Hnone.
  exists (format_tag country_code manufacturer_code (Z.of_nat N)),
         (PyStr.format_04d (Z.of_nat N)).
  assert (0 <= Z.of_nat N) as Hpos by lia.
  split; [| split; [reflexivity | split; [reflexivity |]]].
  - unfold generate_tags. rewrite generate_loop_tags.
    cbn [app]. rewrite list_lookup_fmap.
    rewrite (lookup_seq_lt 0 num_tags (N - 1)) by lia. simpl. do 2 f_equal.
    unfold next_number. rewrite Hnone. lia.
  - split; [now apply format_04d_all_digits |].
    split; [now apply digits_value_format_04d |].
    split; [now apply int_format_04d | now apply format_tag_sequence].
Qed.

(** ** The identifier codec *)

(** C4. A well-formed tag [CC-MM-NNNN] (codes without surrounding white
    space, a canonical numeric third segment) parsed by splitting on the dash
    and formatted back is the tag itself. *)
Theorem format_parse_round_trip (tag : string) :
  well_formed_tag tag = true ->
  exists country_code manufacturer_code sequence,
    parse_tag tag = Some (country_code, manufacturer_code, sequence)
    /\ format_tag country_code manufacturer_code sequence = tag.
Proof.
  unfold well_formed_tag, parse_tag. intros Hwf.
  pose proof (join_split "-" tag) as Hjoin.
  destruct (PyStr.split "-" tag) as [|cc [|mm [|nnnn [|x l]]]]; try discriminate.
  apply andb_prop in Hwf as [Hcodes Hcanon]. apply andb_prop in Hcodes as [Hcc Hmm].
  apply String.eqb_eq in Hcc, Hmm.
  assert (all_digits nnnn = true /\ nnnn <> EmptyString) as [Hd Hne].
  { unfold canonical_sequence in Hcanon. apply andb_prop in Hcanon as [Hd Hs].
    split; [exact Hd |]. intros ->. discriminate. }
  exists (PyStr.strip cc), (PyStr.strip mm), (digits_value nnnn 0).
  cbn [PyStr.last_segment last]. rewrite int_all_digits by assumption.
  split; [reflexivity |].
  unfold format_tag. rewrite Hcc, Hmm, format_04d_canonical by assumption.
  exact Hjoin.
Qed.

(** ** Bulk import *)

Lemma line_format_ok_iff line :
  line_format_ok line = true <-> length (PyStr.split "-" line) = 3%nat.
Proof.
  unfold line_format_ok. rewrite andb_true_iff, Nat.eqb_eq. split; [tauto |].
  intros H. split; [| assumption]. apply split_length_contains. lia.
Qed.

(** No match and no exception: every asset has a tag, none is the line. *)
Lemma any_tag_eq_false line (assets : list Asset) :
  any_tag_eq line assets = inr false ->
  Forall (fun a : Asset => exists t, a !! "tag" = Some t /\ t <> line) assets.
Proof.
  induction assets as [|a l IH]; intros H; [constructor |]. simpl in H.
  destruct (a !! "tag") as [t|] eqn:Et; [| discriminate].
  destruct (String.eqb t line) eqn:E; [discriminate |].
  apply String.eqb_neq in E. constructor; eauto.
Qed.

Lemma any_tag_eq_false_fresh line (assets : list Asset) :
  any_tag_eq line assets = inr false -> ~ In line (tags assets).
Proof.
  intros H%any_tag_eq_false Hin.
  apply list_elem_of_In, list_elem_of_omap in Hin as (a & Ha & Htag).
  rewrite Forall_forall in H. destruct (H a Ha) as (t & Ht & Hne). congruence.
Qed.

(** A line that is the tag of some asset never passes the duplicate test. *)
Lemma any_tag_eq_present line (assets : list Asset) (a : Asset) :
  In a assets -> a !! "tag" = Some line -> any_tag_eq line assets <> inr false.
Proof.
  intros Hin Htag H. apply any_tag_eq_false_fresh in H. apply H.
  apply list_elem_of_In, list_elem_of_omap. exists a. split; [| assumption].
  now apply list_elem_of_In.
Qed.

Section BulkImport.

Context {W : Type} `{!Collaborators W}.

Lemma import_line_cases tag_line (assets : list Asset) count (s : State W) :
  import_line tag_line assets count s =
  if line_format_ok tag_line then
    match any_tag_eq tag_line assets with
    | inl e => (inl e, s)
    | inr true => (inr (assets, count), s)
    | inr false =>
        (inr ((assets ++ [imported tag_line (fst (now_isoformat (world s)))])%list,
              count + 1),
         mkState (snd (now_isoformat (world s))) (trace s ++ [EvNow])%list)
    end
  else (inr (assets, count), s).
Proof.
  unfold import_line, imported.
  destruct (line_format_ok tag_line); [| reflexivity].
  destruct (any_tag_eq tag_line assets) as [e | [|]]; try reflexivity.
  unfold bind, call, ret. destruct (now_isoformat (world s)). reflexivity.
Qed.

Lemma import_loop_cons tag_line rest (assets : list Asset) count (s : State W) :
  import_loop (tag_line :: rest) assets count s =
  match import_line tag_line assets count s with
  | (inl e, s') => (mkImportLoop (Some e) assets count, s')
  | (inr (assets', count'), s') => import_loop rest assets' count' s'
  end.
Proof.
  cbn [import_loop]. unfold bind.
  destruct (import_line tag_line assets count s) as [[e | [a' c']] s']; reflexivity.
Qed.

(** A property kept by every accepted line holds when the loop ends. *)
Lemma import_loop_invariant (P : list Asset -> Z -> Prop) lines :
  (forall line (assets : list Asset) count d,
      In line lines -> line_format_ok line = true ->
      any_tag_eq line assets = inr false -> P assets count ->
      P (assets ++ [imported line d])%list (count + 1)) ->
  forall (assets : list Asset) count (s : State W),
    P assets count ->
    P (loop_assets (fst (import_loop lines assets count s)))
      (loop_count (fst (import_loop lines assets count s))).
Proof.
  induction lines as [|line rest IH]; intros Hstep assets count s HP; [exact HP |].
  rewrite import_loop_cons, import_line_cases.
  assert (forall (a : list Asset) c s', P a c ->
            P (loop_assets (fst (import_loop rest a c s')))
              (loop_count (fst (import_loop rest a c s')))) as Hrest.
  { intros a c s' Hac. apply IH; [| exact Hac].
    intros l a' c' d Hin. apply Hstep. now right. }
  destruct (line_format_ok line) eqn:Hok; [| now apply Hrest].
  destruct (any_tag_eq line assets) as [e | [|]] eqn:Hany.
  - exact HP.
  - now apply Hrest.
  - apply Hrest. apply Hstep; auto. now left.
Qed.

(** Lines that fail the format test change nothing: the loop behaves as on
    the list without them. *)
Lemma import_loop_filter lines (assets : list Asset) count (s : State W) :
  import_loop lines assets count s
  = import_loop (List.filter line_format_ok lines) assets count s.
Proof.
  revert assets count s. induction lines as [|line rest IH]; intros assets count s;
    [reflexivity |].
  cbn [List.filter]. destruct (line_format_ok line) eqn:Hok.
  - rewrite !import_loop_cons.
    destruct (import_line line assets count s) as [[e | [a' c']] s']; [reflexivity |].
    apply IH.
  - rewrite import_loop_cons, import_line_cases, Hok. apply IH.
Qed.

(** The loop only appends: the new records are accepted lines, each a line of
    three segments that was the tag of no asset when it was appended. *)
Lemma import_loop_appends lines (assets : list Asset) count (s : State W) :
  exists news : list Asset,
    loop_assets (fst (import_loop lines assets count s)) = (assets ++ news)%list
    /\ loop_count (fst (import_loop lines assets count s))
       = count + Z.of_nat (length news)
    /\ Forall (fun a : Asset =>
                 exists line, In line lines /\ a !! "tag" = Some line
                              /\ length (PyStr.split "-" line) = 3%nat
                              /\ ~ In line (tags assets)) news.
Proof.
  apply (import_loop_invariant
           (fun assets' count' =>
              exists news : list Asset,
                assets' = (assets ++ news)%list
                /\ count' = count + Z.of_nat (length news)
                /\ Forall (fun a : Asset =>
                             exists line, In line lines /\ a !! "tag" = Some line
                                          /\ length (PyStr.split "-" line) = 3%nat
                                          /\ ~ In line (tags assets)) news)).
  - intros line assets' count' d Hin Hok Hany (news & -> & -> & Hall).
    exists (news ++ [imported line d])%list. split; [now rewrite app_assoc |].
    split; [rewrite length_app; simpl; lia |].
    apply Forall_app. split; [exact Hall |]. constructor; [| constructor].
    exists line. split; [exact Hin |]. split; [apply new_asset_tag |].
    split; [now apply line_format_ok_iff |].
    intros Hold. apply any_tag_eq_false_fresh in Hany. apply Hany.
    rewrite tags_app. apply in_or_app. now left.
  - exists []. rewrite app_nil_r. repeat split; [simpl; lia | constructor].
Qed.

(** The loop keeps the tags pairwise distinct. *)
Lemma import_loop_nodup lines (assets : list Asset) count (s : State W) :
  NoDup (tags assets) ->
  NoDup (tags (loop_assets (fst (import_loop lines assets count s)))).
Proof.
  intros Hnd.
  apply (import_loop_invariant (fun assets' _ => NoDup (tags assets'))); [| exact Hnd].
  intros line assets' count' d _ _ Hany Hnd'.
  rewrite tags_app. unfold imported. rewrite tags_new_asset.
  apply NoDup_app. split; [exact Hnd' |]. split; [| apply NoDup_singleton].
  intros x Hx Hin. apply list_elem_of_singleton in Hin as ->.
  apply any_tag_eq_false_fresh in Hany. apply Hany. now apply list_elem_of_In.
Qed.

(** What [import_existing_tags] leaves in the caller's list is what the loop
    left there. *)
Lemma import_existing_tags_assets tr (assets : list Asset) pasted (s : State W) :
  snd (fst (import_existing_tags tr assets pasted s))
  = loop_assets (fst (import_loop (tag_lines pasted) assets 0 s)).
Proof.
  unfold import_existing_tags, bind.
  destruct (import_loop (tag_lines pasted) assets 0 s) as [r s1]. simpl.
  destruct (loop_raised r) as [e|].
  - unfold st_error, emit, ret. reflexivity.
  - destruct (loop_count r >? 0)%Z; [| reflexivity].
    destruct (save_assets tr (loop_assets r) s1). reflexivity.
Qed.

End BulkImport.

(** C5 (amended). The importer accepts a trimmed non-blank line only if
    splitting it on the dash yields exactly three segments, which may be
    empty; a line that does not split into exactly three segments is
    skipped: it produces no record, leaves the imported count unchanged, and
    the import runs as if the line were absent. *)
Theorem import_accepts_only_three_segments {W : Type} `{!Collaborators W}
    (tr : Tracker) (assets : list Asset) (pasted_tags : string) (s : State W) :
  (forall line, line_format_ok line = true <-> length (PyStr.split "-" line) = 3%nat)
  /\ (forall line (current : list Asset) count (s' : State W),
        length (PyStr.split "-" line) <> 3%nat ->
        import_line line current count s' = (inr (current, count), s'))
  /\ import_loop (tag_lines pasted_tags) assets 0 s
     = import_loop (List.filter (fun line => (length (PyStr.split "-" line) =? 3)%nat)
                                (tag_lines pasted_tags)) assets 0 s
  /\ exists news : list Asset,
       snd (fst (import_existing_tags tr assets pasted_tags s)) = (assets ++ news)%list
       /\ loop_count (fst (import_loop (tag_lines pasted_tags) assets 0 s))
          = Z.of_nat (length news)
       /\ Forall (fun a : Asset =>
                    exists line, In line (tag_lines pasted_tags)
                                 /\ a !! "tag" = Some line
                                 /\ length (PyStr.split "-" line) = 3%nat) news.
Proof.
  split; [apply line_format_ok_iff |]. split; [| split].
  - intros line current count s' Hlen. rewrite import_line_cases.
    destruct (line_format_ok line) eqn:E; [| reflexivity].
    now apply line_format_ok_iff in E.
  - rewrite import_loop_filter. f_equal. apply filter_ext. intros line.
    unfold line_format_ok.
    destruct (length (PyStr.split "-" line) =? 3)%nat eqn:E;
      [| apply andb_false_r].
    apply Nat.eqb_eq in E. rewrite split_length_contains; [reflexivity | lia].
  - destruct (import_loop_appends (tag_lines pasted_tags) assets 0 s)
      as (news & Hassets & Hcount & Hall).
    exists news. rewrite import_existing_tags_assets.
    split; [exact Hassets |]. split; [rewrite Hcount; lia |].
    eapply List.Forall_impl; [| exact Hall]. intros a (line & H1 & H2 & H3 & _). eauto.
Qed.

(** C6. A trimmed non-blank line whose text is the tag of an asset already in
    the list is skipped: the loop body builds no record for it and leaves the
    count as it was (or stops the import at an asset without a tag), and none
    of the records the import appends carries that tag; the imported count is
    the number of appended records. *)
Theorem import_skips_existing_tag {W : Type} `{!Collaborators W}
    (tr : Tracker) (assets : list Asset) (pasted_tags : string) (s : State W)
    (line : string) (a : Asset) :
  In line (tag_lines pasted_tags) -> In a assets -> a !! "tag" = Some line ->
  (forall (current : list Asset) count (s' : State W),
      In a current ->
      import_line line current count s' = (inr (current, count), s')
      \/ exists e, import_line line current count s' = (inl e, s'))
  /\ exists news : list Asset,
       snd (fst (import_existing_tags tr assets pasted_tags s)) = (assets ++ news)%list
       /\ loop_count (fst (import_loop (tag_lines pasted_tags) assets 0 s))
          = Z.of_nat (length news)
       /\ Forall (fun n : Asset => n !! "tag" <> Some line) news.
Proof.
  intros Hline Hin Htag. split.
  - intros current count s' Hcur. rewrite import_line_cases.
    destruct (line_format_ok line); [| now left].
    pose proof (any_tag_eq_present line current a Hcur Htag) as Hne.
    destruct (any_tag_eq line current) as [e | [|]]; [right; eauto | now left | congruence].
  - destruct (import_loop_appends (tag_lines pasted_tags) assets 0 s)
      as (news & Hassets & Hcount & Hall).
    exists news. rewrite import_existing_tags_assets.
    split; [exact Hassets |]. split; [rewrite Hcount; lia |].
    eapply List.Forall_impl; [| exact Hall].
    intros n (l & _ & Hn & _ & Hfresh) Heq. apply Hfresh.
    assert (l = line) as -> by congruence.
    apply list_elem_of_In, list_elem_of_omap. exists a.
    split; [now apply list_elem_of_In | exact Htag].
Qed.

(** C10. The importer appends the accepted records to the caller's list
    before it saves; when at least one line was accepted and the save that
    follows fails, it returns [False] and the appended records are still in
    the caller's list. *)
Theorem import_keeps_records_when_save_fails {W : Type} `{!Collaborators W}
    (tr : Tracker) (assets : list Asset) (pasted_tags : string) (s : State W) :
  let r := import_loop (tag_lines pasted_tags) assets 0 s in
  loop_raised (fst r) = None -> 0 < loop_count (fst r) ->
  fst (save_assets tr (loop_assets (fst r)) (snd r)) = false ->
  import_existing_tags tr assets pasted_tags s
  = ((false, loop_assets (fst r)), snd (save_assets tr (loop_assets (fst r)) (snd r)))
  /\ exists news : list Asset,
       news <> [] /\ loop_assets (fst r) = (assets ++ news)%list
       /\ loop_count (fst r) = Z.of_nat (length news).
Proof.
  intros r Hraised Hcount Hsave. split.
  - unfold import_existing_tags, bind. fold r.
    destruct r as [l s1]. simpl in *. rewrite Hraised.
    destruct (loop_count l >? 0)%Z eqn:E;
      [| rewrite Z.gtb_ltb in E; apply Z.ltb_ge in E; lia].
    destruct (save_assets tr (loop_assets l) s1) as [b s2]. simpl in *.
    now subst b.
  - destruct (import_loop_appends (tag_lines pasted_tags) assets 0 s)
      as (news & Hassets & Hc & _).
    fold r in Hassets, Hc. exists news. split; [| split; [exact Hassets | lia]].
    intros ->. simpl in Hc. lia.
Qed.

(** C2 (amended). With pairwise distinct tags, (a) an import of any pasted
    text leaves the tags pairwise distinct, and (b) the generated tag differs
    from the tag of every asset stored under the pair, so appending the
    generated record keeps the tags pairwise distinct when no asset stored
    under other codes carries that tag; no membership test is made. *)
Theorem tags_stay_distinct {W : Type} `{!Collaborators W}
    (tr : Tracker) (assets : list Asset) (pasted_tags : string) (s : State W)
    (country_code manufacturer_code asset_name date_created : string) :
  NoDup (tags assets) ->
  NoDup (tags (snd (fst (import_existing_tags tr assets pasted_tags s))))
  /\ (forall a : Asset,
        In a assets -> matches country_code manufacturer_code a = true ->
        a !! "tag" <> Some (generate_asset_tag country_code manufacturer_code assets))
  /\ ((forall a : Asset,
         In a assets -> matches country_code manufacturer_code a = false ->
         a !! "tag" <> Some (generate_asset_tag country_code manufacturer_code assets)) ->
      NoDup (tags (assets ++
                   [new_asset (generate_asset_tag country_code manufacturer_code assets)
                              country_code manufacturer_code asset_name date_created]))).
Proof.
  intros Hnd. split; [| split].
  - rewrite import_existing_tags_assets. now apply import_loop_nodup.
  - intros a. apply generated_tag_fresh_in_pair.
  - intros Hother. rewrite tags_app, tags_new_asset.
    apply NoDup_app. split; [exact Hnd |]. split; [| apply NoDup_singleton].
    intros x Hx Hin. apply list_elem_of_singleton in Hin as ->.
    apply list_elem_of_omap in Hx as (a & Ha%list_elem_of_In & Htag).
    destruct (matches country_code manufacturer_code a) eqn:Hm.
    + now apply (generated_tag_fresh_in_pair country_code manufacturer_code assets a).
    + now apply (Hother a).
Qed.

(** ** Storage backends *)

Section Storage.

Context {W : Type} `{!Collaborators W}.

Lemma save_data_to_file_cases filename data (s : State W) :
  save_data_to_file filename data s =
  let filepath := "data/" ++ filename in
  let ev := EvWriteFile filepath (json_dump data) in
  match write_file filepath (json_dump data) (world s) with
  | (inr _, w') => (true, mkState w' (trace s ++ [ev])%list)
  | (inl e, w') =>
      (false, mkState w' ((trace s ++ [ev])
                          ++ [EvError ("Error saving " ++ filename ++ ": " ++ exc_str e)])%list)
  end.
Proof.
  unfold save_data_to_file, bind, call, st_error, emit, ret. cbv zeta.
  destruct (write_file _ _ (world s)) as [[e | u] w']; reflexivity.
Qed.

(** The remote save after a read that found the document. *)
Lemma save_data_to_github_found tr filename data (s : State W) r cf w1 :
  repo tr = Some r -> get_contents filename (world s) = (inr cf, w1) ->
  save_data_to_github tr filename data s =
  let t1 := (trace s ++ [EvGetContents filename])%list in
  let up := EvUpdateFile filename ("Update " ++ filename) (json_dumps data) (sha cf) in
  match update_file filename ("Update " ++ filename) (json_dumps data) (sha cf) w1 with
  | (inr _, w2) => (true, mkState w2 (t1 ++ [up])%list)
  | (inl _, w2) =>
      let cr := EvCreateFile filename ("Create " ++ filename) (json_dumps data) in
      match create_file filename ("Create " ++ filename) (json_dumps data) w2 with
      | (inr _, w3) => (true, mkState w3 ((t1 ++ [up]) ++ [cr])%list)
      | (inl e, w3) =>
          (false, mkState w3 (((t1 ++ [up]) ++ [cr])
                              ++ [EvError ("Error saving to GitHub: " ++ exc_str e)])%list)
      end
  end.
Proof.
  intros Hrepo Hget. unfold save_data_to_github, bind, call, st_error, emit, ret.
  rewrite Hrepo, Hget. cbv zeta. simpl.
  destruct (update_file _ _ _ _ w1) as [[e | u] w2]; [| reflexivity]. simpl.
  destruct (create_file _ _ _ w2) as [[e' | u'] w3]; reflexivity.
Qed.

(** The remote save after a read that raised. *)
Lemma save_data_to_github_missing tr filename data (s : State W) r e w1 :
  repo tr = Some r -> get_contents filename (world s) = (inl e, w1) ->
  save_data_to_github tr filename data s =
  let t1 := (trace s ++ [EvGetContents filename])%list in
  let cr := EvCreateFile filename ("Create " ++ filename) (json_dumps data) in
  match create_file filename ("Create " ++ filename) (json_dumps data) w1 with
  | (inr _, w2) => (true, mkState w2 (t1 ++ [cr])%list)
  | (inl e', w2) =>
      (false, mkState w2 ((t1 ++ [cr])
                          ++ [EvError ("Error saving to GitHub: " ++ exc_str e')])%list)
  end.
Proof.
  intros Hrepo Hget. unfold save_data_to_github, bind, call, st_error, emit, ret.
  rewrite Hrepo, Hget. cbv zeta. simpl.
  destruct (create_file _ _ _ w1) as [[e' | u'] w2]; reflexivity.
Qed.

Lemma save_data_to_github_trace tr filename data (s : State W) r :
  repo tr = Some r ->
  exists evs, trace (snd (save_data_to_github tr filename data s))
              = (trace s ++ EvGetContents filename :: evs)%list.
Proof.
  intros Hrepo. destruct (get_contents filename (world s)) as [[e | cf] w1] eqn:Hget.
  - rewrite (save_data_to_github_missing _ _ _ _ _ _ _ Hrepo Hget). cbv zeta.
    destruct (create_file _ _ _ w1) as [[e' | u'] w2]; simpl;
      rewrite <- ?app_assoc; simpl; eauto.
  - rewrite (save_data_to_github_found _ _ _ _ _ _ _ Hrepo Hget). cbv zeta.
    destruct (update_file _ _ _ _ w1) as [[e' | u'] w2]; simpl;
      [| rewrite <- ?app_assoc; simpl; eauto].
    destruct (create_file _ _ _ w2) as [[e2 | u2] w3]; simpl;
      rewrite <- ?app_assoc; simpl; eauto.
Qed.

Lemma save_data_to_file_trace filename data (s : State W) :
  exists evs, trace (snd (save_data_to_file filename data s))
              = (trace s ++ EvWriteFile ("data/" ++ filename) (json_dump data) :: evs)%list.
Proof.
  rewrite save_data_to_file_cases. cbv zeta.
  destruct (write_file _ _ (world s)) as [[e | u] w']; simpl;
    rewrite <- ?app_assoc; simpl; eauto.
Qed.

End Storage.

(** C8. With a remote backend configured, a save of a collection attempts the
    remote save and then the local file save, whatever the remote save
    returned, and reports success exactly when both succeeded. *)
Theorem composed_save_needs_both {W : Type} `{!Collaborators W}
    (tr : Tracker) (filename : string) (data : Collection) (s : State W) (r : string) :
  use_github tr = true -> repo tr = Some r ->
  let remote := save_data_to_github tr filename data s in
  let local := save_data_to_file filename data (snd remote) in
  (forall assets, save_assets tr assets = save_collection tr data_file (AssetList assets))
  /\ (forall l, save_manufacturers tr l = save_collection tr manufacturers_file (ReferenceList l))
  /\ (forall l, save_countries tr l = save_collection tr countries_file (ReferenceList l))
  /\ save_collection tr filename data s = (fst local && fst remote, snd local)
  /\ (exists evs, trace (snd remote) = (trace s ++ EvGetContents filename :: evs)%list)
  /\ (exists evs, trace (snd local)
                  = (trace (snd remote)
                     ++ EvWriteFile ("data/" ++ filename) (json_dump data) :: evs)%list)
  /\ (fst (save_collection tr filename data s) = true
      <-> fst remote = true /\ fst local = true).
Proof.
  intros Hgh Hrepo remote local.
  assert (save_collection tr filename data s = (fst local && fst remote, snd local)) as Heq.
  { unfold save_collection, bind, ret. rewrite Hgh. subst local. fold remote.
    destruct remote as [b1 s1]. simpl.
    destruct (save_data_to_file filename data s1) as [b2 s2]. reflexivity. }
  repeat split; try reflexivity; try exact Heq.
  - now apply save_data_to_github_trace with r.
  - apply save_data_to_file_trace.
  - rewrite Heq in H. simpl in H. now apply andb_prop in H.
  - rewrite Heq in H. simpl in H. now apply andb_prop in H.
  - intros [H1 H2]. rewrite Heq. simpl. now rewrite H1, H2.
Qed.

(** C9. A remote save first reads the document. When the read succeeds it
    calls the update with the revision token that read returned; a successful
    update is the whole save, a refused one is followed by a create. When the
    read finds nothing it calls the create and makes no update. In each case
    the result, the world left behind and the calls made are those of the
    collaborator calls themselves: the save succeeds exactly when its last
    call did, and a failed create is reported with its error. *)
Theorem remote_save_update_or_create {W : Type} `{!Collaborators W}
    (tr : Tracker) (filename : string) (data : Collection) (s : State W) (r : string) :
  repo tr = Some r ->
  let save := save_data_to_github tr filename data s in
  let got := EvGetContents filename in
  let created := EvCreateFile filename ("Create " ++ filename) (json_dumps data) in
  (forall cf w1,
      get_contents filename (world s) = (inr cf, w1) ->
      let updated :=
        EvUpdateFile filename ("Update " ++ filename) (json_dumps data) (sha cf) in
      (exists rest,
        trace (snd save) = (trace s ++ [got; updated] ++ rest)%list
        /\ (forall w2,
              update_file filename ("Update " ++ filename) (json_dumps data) (sha cf) w1
              = (inr tt, w2) ->
              rest = [] /\ fst save = true /\ world (snd save) = w2))
      /\ (forall w2,
            update_file filename ("Update " ++ filename) (json_dumps data) (sha cf) w1
            = (inr tt, w2) ->
            save = (true, mkState w2 (trace s ++ [got; updated])%list))
      /\ (forall e2 w2,
            update_file filename ("Update " ++ filename) (json_dumps data) (sha cf) w1
            = (inl e2, w2) ->
            (forall w3,
                create_file filename ("Create " ++ filename) (json_dumps data) w2
                = (inr tt, w3) ->
                save = (true, mkState w3 (trace s ++ [got; updated; created])%list))
            /\ (forall e3 w3,
                  create_file filename ("Create " ++ filename) (json_dumps data) w2
                  = (inl e3, w3) ->
                  save = (false,
                          mkState w3
                            (trace s
                             ++ [got; updated; created;
                                 EvError ("Error saving to GitHub: " ++ exc_str e3)])%list))))
  /\ (forall e w1,
        get_contents filename (world s) = (inl e, w1) ->
        (exists rest,
          trace (snd save) = (trace s ++ [got; created] ++ rest)%list
          /\ (rest = [] \/ exists msg, rest = [EvError msg]))
        /\ (forall w2,
              create_file filename ("Create " ++ filename) (json_dumps data) w1
              = (inr tt, w2) ->
              save = (true, mkState w2 (trace s ++ [got; created])%list))
        /\ (forall e' w2,
              create_file filename ("Create " ++ filename) (json_dumps data) w1
              = (inl e', w2) ->
              save = (false,
                      mkState w2
                        (trace s
                         ++ [got; created;
                             EvError ("Error saving to GitHub: " ++ exc_str e')])%list))).
Proof.
  intros Hrepo save got created. subst save got created. split.
  - intros cf w1 Hget updated. subst updated.
    rewrite (save_data_to_github_found _ _ _ _ _ _ _ Hrepo Hget). cbv zeta.
    destruct (update_file _ _ _ _ w1) as [[e | []] w2] eqn:Hup.
    + split; [| split].
      * destruct (create_file _ _ _ w2) as [[e' | u'] w3]; simpl;
          eexists; (split; [rewrite <- ?app_assoc; simpl; reflexivity | discriminate]).
      * discriminate.
      * intros e2 w2' [= <- <-]. split.
        -- intros w3 ->. now rewrite <- !app_assoc.
        -- intros e3 w3 ->. now rewrite <- !app_assoc.
    + split; [| split].
      * simpl. exists []. split; [now rewrite <- app_assoc |].
        intros w2' [= <-]. auto.
      * intros w2' [= <-]. now rewrite <- app_assoc.
      * discriminate.
  - intros e w1 Hget.
    rewrite (save_data_to_github_missing _ _ _ _ _ _ _ Hrepo Hget). cbv zeta.
    destruct (create_file _ _ _ w1) as [[e' | []] w2] eqn:Hcr.
    + split; [| split].
      * simpl. eexists. split; [rewrite <- ?app_assoc; simpl; reflexivity |].
        right. eauto.
      * discriminate.
      * intros e2 w2' [= <- <-]. now rewrite <- !app_assoc.
    + split; [| split].
      * simpl. exists []. split; [now rewrite <- app_assoc | now left].
      * intros w2' [= <-]. now rewrite <- app_assoc.
      * discriminate.
Qed.

(** ** Reference lists *)

Lemma code_present_iff new_code (entries : list ReferenceEntry) :
  code_present new_code entries = true <-> exists c, In c entries /\ code c = new_code.
Proof.
  unfold code_present, has_code. rewrite existsb_exists.
  split; intros (c & Hin & Hc); exists c; (split; [assumption |]);
    now apply String.eqb_eq.
Qed.



Section ReferenceLists.

Context {W : Type} `{!Collaborators W}.


Lemma add_entry_fresh which tr (entries : list ReferenceEntry) new_code new_name
    (s : State W) :
  new_code <> EmptyString -> new_name <> EmptyString ->
  code_present new_code entries = false ->
  fst (add_entry which tr entries new_code new_name s)
  = (entries ++ [{| code := new_code; name := new_name |}])%list.
Proof.
  intros Hc Hn Hp. unfold add_entry.
  destruct new_code; [congruence |]. destruct new_name; [congruence |].
  cbn [PyStr.truthy andb]. rewrite Hp. unfold bind.
  destruct (save_reference which tr _ s) as [[|] s1]; reflexivity.
Qed.

End ReferenceLists.



Example split_3 : PyStr.split "-" "EGY-ZE-0001" = ["EGY"; "ZE"; "0001"].
Proof. reflexivity. Qed.

Example split_dashes : PyStr.split "-" "--" = [EmptyString; EmptyString; EmptyString].
Proof. reflexivity. Qed.

Example int_padded : PyStr.int "0042" = Some 42.
Proof. reflexivity. Qed.

Example int_spaces_sign : PyStr.int " +1_000 " = Some 1000.
Proof. reflexivity. Qed.

Example int_bad : PyStr.int "12a" = None /\ PyStr.int "1__0" = None /\ PyStr.int EmptyString = None.
Proof. repeat split; reflexivity. Qed.

(** A separator character (FS, code point 28) before the digit: [str.strip]
    drops it, [int] does not and raises; NBSP (160) is skipped by both. *)
Example int_separator :
  PyStr.strip (String "028" "5") = "5"
  /\ PyStr.int (String "028" "5") = None
  /\ PyStr.int (String "160" "5") = Some 5
  /\ PyStr.int (String "009" "5" ++ String "010" EmptyString) = Some 5.
Proof. repeat split; reflexivity. Qed.

(** A stored tag whose trailing segment starts with that separator is not
    counted: the pair starts again at 1. *)
Example generate_skips_unreadable_number :
  generate_asset_tag "EGY" "ZE"
    [new_asset ("EGY-ZE-" ++ String "028" "5") "EGY" "ZE" "Laptop" "2024-01-01"]
  = "EGY-ZE-0001".
Proof. reflexivity. Qed.

Example format_04d_ex :
  PyStr.format_04d 7 = "0007" /\ PyStr.format_04d 12345 = "12345" /\ PyStr.format_04d (-5) = "-005".
Proof. repeat split; reflexivity. Qed.

(** * The program run on concrete inputs *)

(** A pasted text of three lines, the second malformed, the third a repeat of
    the first with surrounding blanks. *)
Example import_three_lines :
  tags (snd (fst (import_existing_tags local_tracker []
                    ("EGY-ZE-0001" ++ String "010" "BADFORMAT"
                     ++ String "010" " EGY-ZE-0001 ") sim_ok)))
  = ["EGY-ZE-0001"].
Proof. vm_compute. reflexivity. Qed.



(** C2, counterexample. The record generated for the pair [(A-B, C)] and the
    tag generated next for the pair [(A, B-C)] are both [A-B-C-0001]: the
    tags were pairwise distinct and are no longer after the append. *)
Lemma generation_can_repeat_a_tag :
  let assets := [new_asset (generate_asset_tag "A-B" "C" []) "A-B" "C" "Router #1" "T0"] in
  NoDup (tags assets)
  /\ generate_asset_tag "A" "B-C" assets = "A-B-C-0001"
  /\ ~ NoDup (tags (assets ++ [new_asset (generate_asset_tag "A" "B-C" assets)
                                         "A" "B-C" "Switch #1" "T1"])).
Proof.
  cbv zeta. split; [| split].
  - vm_compute. apply NoDup_singleton.
  - vm_compute. reflexivity.
  - vm_compute. intros Hnd. apply NoDup_cons in Hnd as [Hnotin _].
    apply Hnotin. left.
Qed.

(** C2, witness: one stored asset of the pair. *)
Lemma tags_stay_distinct_witness :
  let assets := [new_asset "EGY-ZE-0001" "EGY" "ZE" "Printer #1" "T0"] in
  NoDup (tags assets)
  /\ NoDup (tags (snd (fst (import_existing_tags local_tracker assets
                              ("EGY-ZE-0001" ++ String "010" "EGY-ZE-0002") sim_ok))))
  /\ NoDup (tags (assets ++ [new_asset (generate_asset_tag "EGY" "ZE" assets)
                                       "EGY" "ZE" "Printer #2" "T1"])).
Proof.
  cbv zeta.
  assert (NoDup (tags [new_asset "EGY-ZE-0001" "EGY" "ZE" "Printer #1" "T0"])) as Hnd
    by (rewrite tags_new_asset; apply NoDup_singleton).
  destruct (tags_stay_distinct local_tracker
              [new_asset "EGY-ZE-0001" "EGY" "ZE" "Printer #1" "T0"]
              ("EGY-ZE-0001" ++ String "010" "EGY-ZE-0002") sim_ok
              "EGY" "ZE" "Printer #2" "T1" Hnd) as (Ha & _ & Hb).
  split; [exact Hnd |]. split; [exact Ha |]. apply Hb.
  intros a [<- | []] Hm. vm_compute in Hm. discriminate Hm.
Defined.

(** C3, witness: the third tag of a batch of three. *)
Lemma nth_generated_tag_has_sequence_n_witness :
  (1 <= 3 <= 3)%nat
  /\ List.filter (matches "EGY" "ZE") [new_asset "KSA-DE-0001" "KSA" "DE" "Laptop #1" "T0"] = []
  /\ exists tag digits,
       fst (fst (generate_tags "EGY" "ZE" "Printer" 3
                   [new_asset "KSA-DE-0001" "KSA" "DE" "Laptop #1" "T0"] sim_ok))
         !! (3 - 1)%nat = Some tag
       /\ tag = format_tag "EGY" "ZE" (Z.of_nat 3)
       /\ tag = "EGY" ++ "-" ++ "ZE" ++ "-" ++ digits
       /\ all_digits digits = true
       /\ digits_value digits 0 = Z.of_nat 3
       /\ PyStr.int digits = Some (Z.of_nat 3)
       /\ PyStr.int (PyStr.last_segment (PyStr.split "-" tag)) = Some (Z.of_nat 3).
Proof.
  split; [lia |]. split; [vm_compute; reflexivity |].
  apply (nth_generated_tag_has_sequence_n "EGY" "ZE" "Printer" 3 3
           [new_asset "KSA-DE-0001" "KSA" "DE" "Laptop #1" "T0"] sim_ok);
    [lia | vm_compute; reflexivity].
Defined.

(** The batch of C3 run: the third tag and the number it carries. *)
Example third_tag_of_batch :
  fst (fst (generate_tags "EGY" "ZE" "Printer" 3
              [new_asset "KSA-DE-0001" "KSA" "DE" "Laptop #1" "T0"] sim_ok))
  = ["EGY-ZE-0001"; "EGY-ZE-0002"; "EGY-ZE-0003"]
  /\ PyStr.int (PyStr.last_segment (PyStr.split "-" "EGY-ZE-0003")) = Some 3.
Proof. split; vm_compute; reflexivity. Qed.

(** C4, witness. *)
Lemma format_parse_round_trip_witness :
  well_formed_tag "EGY-ZE-0042" = true
  /\ exists country_code manufacturer_code sequence,
       parse_tag "EGY-ZE-0042" = Some (country_code, manufacturer_code, sequence)
       /\ format_tag country_code manufacturer_code sequence = "EGY-ZE-0042".
Proof.
  split; [vm_compute; reflexivity |].
  apply (format_parse_round_trip "EGY-ZE-0042"). vm_compute. reflexivity.
Defined.

(** C5, counterexample. The line [--] splits into three empty segments and
    is accepted: a record is appended and the count is 1. *)
Lemma import_accepts_empty_segments :
  PyStr.split "-" "--" = [EmptyString; EmptyString; EmptyString]
  /\ tag_lines "--" = ["--"]
  /\ tags (snd (fst (import_existing_tags local_tracker [] "--" sim_ok))) = ["--"]
  /\ loop_count (fst (import_loop (tag_lines "--") [] 0 sim_ok)) = 1.
Proof.
  split; [vm_compute; reflexivity |]. split; [vm_compute; reflexivity |].
  split; vm_compute; reflexivity.
Qed.

(** C5, witness: a line without a dash is skipped. *)
Lemma import_accepts_only_three_segments_witness :
  length (PyStr.split "-" "BADFORMAT") <> 3%nat
  /\ import_line "BADFORMAT" [] 0 sim_ok = (inr ([], 0), sim_ok).
Proof.
  assert (length (PyStr.split "-" "BADFORMAT") <> 3%nat) as Hlen
    by (vm_compute; discriminate).
  split; [exact Hlen |].
  apply (proj1 (proj2 (import_accepts_only_three_segments local_tracker [] "BADFORMAT" sim_ok))).
  exact Hlen.
Defined.

(** C6, witness: the first pasted line is the tag of the stored asset. *)
Lemma import_skips_existing_tag_witness :
  let stored := new_asset "EGY-ZE-0001" "EGY" "ZE" "Printer #1" "T0" in
  let pasted := "EGY-ZE-0001" ++ String "010" "EGY-ZE-0002" in
  In "EGY-ZE-0001" (tag_lines pasted)
  /\ stored !! "tag" = Some "EGY-ZE-0001"
  /\ exists news : list Asset,
       snd (fst (import_existing_tags local_tracker [stored] pasted sim_ok))
       = ([stored] ++ news)%list
       /\ loop_count (fst (import_loop (tag_lines pasted) [stored] 0 sim_ok))
          = Z.of_nat (length news)
       /\ Forall (fun n : Asset => n !! "tag" <> Some "EGY-ZE-0001") news.
Proof.
  cbv zeta.
  assert (In "EGY-ZE-0001" (tag_lines ("EGY-ZE-0001" ++ String "010" "EGY-ZE-0002")))
    as Hline by (vm_compute; now left).
  split; [exact Hline |]. split; [apply new_asset_tag |].
  apply (import_skips_existing_tag local_tracker
           [new_asset "EGY-ZE-0001" "EGY" "ZE" "Printer #1" "T0"]
           ("EGY-ZE-0001" ++ String "010" "EGY-ZE-0002") sim_ok "EGY-ZE-0001"
           (new_asset "EGY-ZE-0001" "EGY" "ZE" "Printer #1" "T0"));
    [exact Hline | now left | apply new_asset_tag].
Defined.



(** C8, witness: the remote save succeeds, the disk refuses the write. *)
Lemma composed_save_needs_both_witness :
  use_github github_tracker = true
  /\ fst (save_data_to_github github_tracker data_file (AssetList []) sim_disk_full) = true
  /\ fst (save_assets github_tracker [] sim_disk_full) = false
  /\ (fst (save_collection github_tracker data_file (AssetList []) sim_disk_full) = true
      <-> fst (save_data_to_github github_tracker data_file (AssetList []) sim_disk_full) = true
          /\ fst (save_data_to_file data_file (AssetList [])
                    (snd (save_data_to_github github_tracker data_file (AssetList [])
                            sim_disk_full))) = true).
Proof.
  split; [reflexivity |]. split; [vm_compute; reflexivity |].
  split; [vm_compute; reflexivity |].
  apply (composed_save_needs_both github_tracker data_file (AssetList []) sim_disk_full
           "owner/asset-tracker"); reflexivity.
Defined.

(** C9, witness: on a store that holds the document, an update with the token
    [rev7] that the read returned, which replaces the document; on an empty
    store, a create, which adds it. *)
Lemma remote_save_update_or_create_witness :
  save_data_to_github github_tracker data_file (AssetList []) sim_stored
  = (true,
     mkState (mkSim {["assets.json" := {| decoded_content := EmptyString;
                                          sha := "rev8" |}]} true ∅ true 9)
             ([] ++ [EvGetContents data_file;
                     EvUpdateFile data_file ("Update " ++ data_file)
                                  (json_dumps (AssetList [])) "rev7"])%list)
  /\ save_data_to_github github_tracker data_file (AssetList []) sim_ok
     = (true,
        mkState (mkSim {["assets.json" := {| decoded_content := EmptyString;
                                             sha := "rev0" |}]} true ∅ true 1)
                ([] ++ [EvGetContents data_file;
                        EvCreateFile data_file ("Create " ++ data_file)
                                     (json_dumps (AssetList []))])%list).
Proof.
  split.
  - destruct (remote_save_update_or_create github_tracker data_file (AssetList [])
                sim_stored "owner/asset-tracker" eq_refl) as [Hfound _].
    destruct (Hfound {| decoded_content := "[]"; sha := "rev7" |} (world sim_stored)
                eq_refl) as (_ & Hupdated & _).
    apply Hupdated. vm_compute. reflexivity.
  - destruct (remote_save_update_or_create github_tracker data_file (AssetList [])
                sim_ok "owner/asset-tracker" eq_refl) as [_ Hmissing].
    destruct (Hmissing (Raised "404 Not Found") (world sim_ok) eq_refl)
      as (_ & Hcreated & _).
    apply Hcreated. vm_compute. reflexivity.
Defined.

(** C10, witness: one accepted line, a disk that refuses the write. *)
Lemma import_keeps_records_when_save_fails_witness :
  fst (import_existing_tags local_tracker [] "EGY-ZE-0001" sim_disk_full)
  = (false, loop_assets (fst (import_loop (tag_lines "EGY-ZE-0001") [] 0 sim_disk_full)))
  /\ tags (snd (fst (import_existing_tags local_tracker [] "EGY-ZE-0001" sim_disk_full)))
     = ["EGY-ZE-0001"].
Proof.
  split; [| vm_compute; reflexivity].
  destruct (import_keeps_records_when_save_fails local_tracker [] "EGY-ZE-0001"
              sim_disk_full) as [Hres _];
    [vm_compute; reflexivity | vm_compute; reflexivity | vm_compute; reflexivity |].
  rewrite Hres. reflexivity.
Defined.

(** * Further properties of the program *)

(** ** The shape of formatted numbers and tags *)

Lemma dec_head_nonzero n :
  0 < n -> exists c r, PyStr.dec n = String c r /\ c <> "0"%char.
Proof.
  intros Hpos. assert (0 <= n) as Hn by lia. revert Hpos. pattern n.
  apply dec_ind; [| | exact Hn]; clear n Hn.
  - intros n Hn Hpos. rewrite dec_small by assumption.
    exists (PyStr.digit_char n), EmptyString. split; [reflexivity |].
    intros Hzero. pose proof (digit_val_char n Hn) as Hval.
    rewrite Hzero in Hval. vm_compute in Hval. injection Hval as Hval. lia.
  - intros n Hn IH _. rewrite dec_step by assumption.
    destruct IH as (c & r & Hr & Hc).
    { assert (1 <= n / 10) by (apply Z.div_le_lower_bound; lia). lia. }
    rewrite Hr. simpl. eauto.
Qed.

Lemma length_pad0 w s :
  String.length (PyStr.pad0 w s) = Nat.max w (String.length s).
Proof. unfold PyStr.pad0. rewrite length_append, length_zeros. lia. Qed.

Lemma format_04d_canonical_sequence n :
  0 <= n -> canonical_sequence (PyStr.format_04d n) = true.
Proof.
  intros Hn. unfold canonical_sequence. apply andb_true_intro. split.
  - now apply format_04d_all_digits.
  - rewrite format_04d_nonneg by assumption.
    destruct (Nat.le_gt_cases (String.length (PyStr.dec n)) 4) as [Hle | Hgt].
    + apply orb_true_intro. left. apply Nat.eqb_eq. rewrite length_pad0. lia.
    + apply orb_true_intro. right. apply andb_true_intro. split.
      * apply Nat.ltb_lt. rewrite length_pad0. lia.
      * unfold PyStr.pad0.
        replace (4 - String.length (PyStr.dec n))%nat with O by lia. simpl.
        destruct (Z.eq_dec n 0) as [-> | Hnz]; [simpl in Hgt; lia |].
        destruct (dec_head_nonzero n) as (c & r & -> & Hc); [lia |].
        ascii_cases c; try reflexivity. congruence.
Qed.

(** X19. The [04d] format of a sequence number is a run of digits of length
    at least four, exactly four up to 9999, and different numbers have
    different formats. *)
Theorem format_04d_shape (n m : Z) :
  0 <= n -> 0 <= m ->
  all_digits (PyStr.format_04d n) = true
  /\ (4 <= String.length (PyStr.format_04d n))%nat
  /\ (n <= 9999 -> String.length (PyStr.format_04d n) = 4%nat)
  /\ (PyStr.format_04d n = PyStr.format_04d m -> n = m).
Proof.
  intros Hn Hm. split; [now apply format_04d_all_digits |].
  split; [rewrite format_04d_nonneg, length_pad0 by assumption; lia |].
  split.
  - intros Hsmall. rewrite format_04d_nonneg, length_pad0 by assumption.
    enough (String.length (PyStr.dec n) <= 4)%nat by lia.
    destruct (Z_lt_le_dec n 10); [rewrite dec_small by lia; simpl; lia |].
    rewrite dec_step, length_append by lia. simpl.
    destruct (Z_lt_le_dec (n / 10) 10) as [Hs | Hb];
      [rewrite dec_small by (split; [apply Z.div_pos; lia | lia]); simpl; lia |].
    rewrite dec_step, length_append by lia. simpl.
    destruct (Z_lt_le_dec (n / 10 / 10) 10) as [Hs2 | Hb2];
      [rewrite dec_small by (split; [apply Z.div_pos; lia | lia]); simpl; lia |].
    rewrite dec_step, length_append by lia. simpl.
    assert (0 <= n / 10 / 10 / 10 < 10) as Hlast.
    { split; [repeat apply Z.div_pos; lia |].
      repeat (apply Z.div_lt_upper_bound; [lia |]). lia. }
    rewrite dec_small by exact Hlast. simpl. lia.
  - intros Heq. pose proof (int_format_04d n Hn) as H1.
    rewrite Heq, int_format_04d in H1 by assumption. congruence.
Qed.

(** ** Formatting, then parsing *)

Lemma dash_free_no_dash s : dash_free s = true -> PyStr.contains "-" s = false.
Proof. unfold dash_free. now destruct (PyStr.contains "-" s). Qed.

Lemma split_format_tag c m n :
  dash_free c = true -> dash_free m = true -> 0 <= n ->
  PyStr.split "-" (format_tag c m n) = [c; m; PyStr.format_04d n].
Proof.
  intros Hc Hm Hn. unfold format_tag.
  change ("-" ++ m ++ "-" ++ PyStr.format_04d n)
    with (String "-" (m ++ String "-" (PyStr.format_04d n))).
  rewrite !split_app_sep.
  rewrite (split_no_sep "-" c) by now apply dash_free_no_dash.
  rewrite (split_no_sep "-" m) by now apply dash_free_no_dash.
  rewrite (split_no_sep "-" (PyStr.format_04d n))
    by now apply all_digits_no_dash, format_04d_all_digits.
  reflexivity.
Qed.

(** X9. A tag formatted from codes without a dash and a non-negative number
    splits into exactly three segments and parses back to the stripped codes
    and the number; with codes free of surrounding white space it is a
    well-formed tag and parses back to the codes themselves. *)
Theorem parse_format_round_trip (country_code manufacturer_code : string) (n : Z) :
  dash_free country_code = true -> dash_free manufacturer_code = true -> 0 <= n ->
  line_format_ok (format_tag country_code manufacturer_code n) = true
  /\ parse_tag (format_tag country_code manufacturer_code n)
     = Some (PyStr.strip country_code, PyStr.strip manufacturer_code, n)
  /\ (PyStr.strip country_code = country_code ->
      PyStr.strip manufacturer_code = manufacturer_code ->
      well_formed_tag (format_tag country_code manufacturer_code n) = true
      /\ parse_tag (format_tag country_code manufacturer_code n)
         = Some (country_code, manufacturer_code, n)).
Proof.
  intros Hc Hm Hn.
  assert (parse_tag (format_tag country_code manufacturer_code n)
          = Some (PyStr.strip country_code, PyStr.strip manufacturer_code, n)) as Hparse.
  { unfold parse_tag. rewrite format_tag_sequence by assumption.
    now rewrite split_format_tag. }
  split; [| split; [exact Hparse |]].
  - apply line_format_ok_iff. now rewrite split_format_tag.
  - intros Hsc Hsm. split; [| now rewrite Hparse, Hsc, Hsm].
    unfold well_formed_tag. rewrite split_format_tag by assumption.
    rewrite Hsc, Hsm, !String.eqb_refl. simpl.
    now apply format_04d_canonical_sequence.
Qed.

Lemma parse_format_round_trip_witness :
  dash_free "EGY" = true /\ dash_free "ZE" = true /\ 0 <= 12
  /\ parse_tag (format_tag "EGY" "ZE" 12) = Some (PyStr.strip "EGY", PyStr.strip "ZE", 12).
Proof.
  split; [reflexivity |]. split; [reflexivity |]. split; [lia |].
  assert (0 <= 12) as H12 by lia.
  exact (proj1 (proj2 (parse_format_round_trip "EGY" "ZE" 12 eq_refl eq_refl H12))).
Defined.

(** ** The sequence number *)

Lemma max_member (l : list Z) m : PyStr.max l = Some m -> In m l.
Proof.
  destruct l as [|x xs]; [discriminate |]. simpl. intros [= <-].
  revert x. induction xs as [|y xs IH]; intros x; simpl; [now left |].
  destruct (IH (Z.max x y)) as [Heq | Hin]; [| now right; right].
  rewrite <- Heq.
  destruct (Z.max_spec x y) as [[_ Hmax] | [_ Hmax]]; rewrite Hmax.
  - right. now left.
  - now left.
Qed.

Lemma filter_matches_idem c m (assets : list Asset) :
  List.filter (matches c m) (List.filter (matches c m) assets)
  = List.filter (matches c m) assets.
Proof.
  induction assets as [|a l IH]; [reflexivity |]. simpl.
  destruct (matches c m a) eqn:E; [| exact IH]. simpl. now rewrite E, IH.
Qed.

(** X7. The sequence number of a generated tag is at least 1, lies above
    every number read from the tags of the pair, and, when some number was
    read, is one more than a number one of those tags carries. *)
Theorem next_number_bounds (country_code manufacturer_code : string)
    (assets : list Asset) :
  1 <= next_number country_code manufacturer_code assets
  /\ (forall y, In y (parsed_numbers country_code manufacturer_code assets) ->
                0 <= y < next_number country_code manufacturer_code assets)
  /\ (parsed_numbers country_code manufacturer_code assets <> [] ->
      In (next_number country_code manufacturer_code assets - 1)
         (parsed_numbers country_code manufacturer_code assets)).
Proof.
  split; [apply next_number_pos |]. split.
  - intros y Hy. split; [now apply parsed_numbers_nonneg in Hy |].
    now apply parsed_below_next.
  - intros Hne. rewrite next_number_parsed.
    destruct (PyStr.max _) as [m|] eqn:E.
    + replace (m + 1 - 1) with m by lia. now apply max_member.
    + destruct (parsed_numbers _ _ assets); [congruence | discriminate].
Qed.

Lemma next_number_bounds_witness :
  let assets := [new_asset "EGY-ZE-0041" "EGY" "ZE" "Printer #1" "T0"] in
  parsed_numbers "EGY" "ZE" assets <> []
  /\ In (next_number "EGY" "ZE" assets - 1) (parsed_numbers "EGY" "ZE" assets).
Proof.
  cbv zeta.
  assert (parsed_numbers "EGY" "ZE" [new_asset "EGY-ZE-0041" "EGY" "ZE" "Printer #1" "T0"]
          <> []) as Hne by (vm_compute; discriminate).
  split; [exact Hne |].
  apply (next_number_bounds "EGY" "ZE"
           [new_asset "EGY-ZE-0041" "EGY" "ZE" "Printer #1" "T0"]). exact Hne.
Defined.

(** X8. The generated tag depends only on the assets stored under the
    pair: it is the tag generated from those assets alone, and assets stored
    under other codes, wherever they stand in the list, do not change it. *)
Theorem generate_asset_tag_frame (country_code manufacturer_code : string)
    (before others after : list Asset) :
  Forall (fun a : Asset => matches country_code manufacturer_code a = false) others ->
  generate_asset_tag country_code manufacturer_code (before ++ others ++ after)
  = generate_asset_tag country_code manufacturer_code (before ++ after)
  /\ generate_asset_tag country_code manufacturer_code (before ++ after)
     = generate_asset_tag country_code manufacturer_code
         (List.filter (matches country_code manufacturer_code) (before ++ after)).
Proof.
  intros Hothers.
  assert (List.filter (matches country_code manufacturer_code) others = []) as Hnil.
  { induction Hothers as [|a l Ha _ IH]; [reflexivity |]. simpl. now rewrite Ha. }
  unfold generate_asset_tag. split; f_equal.
  - unfold next_number. now rewrite !List.filter_app, Hnil.
  - unfold next_number. now rewrite filter_matches_idem.
Qed.

Lemma generate_asset_tag_frame_witness :
  let other := new_asset "KSA-DE-0007" "KSA" "DE" "Laptop #1" "T0" in
  let mine := new_asset "EGY-ZE-0002" "EGY" "ZE" "Printer #1" "T1" in
  generate_asset_tag "EGY" "ZE" ([mine] ++ [other] ++ [])
  = generate_asset_tag "EGY" "ZE" ([mine] ++ []).
Proof.
  cbv zeta.
  apply (generate_asset_tag_frame "EGY" "ZE"
           [new_asset "EGY-ZE-0002" "EGY" "ZE" "Printer #1" "T1"]
           [new_asset "KSA-DE-0007" "KSA" "DE" "Laptop #1" "T0"] []).
  constructor; [vm_compute; reflexivity | constructor].
Defined.

(** ** Batches *)

Lemma tags_cons_new_asset t c m n d (l : list Asset) :
  tags (new_asset t c m n d :: l) = t :: tags l.
Proof. unfold tags. cbn [omap list_omap]. now rewrite new_asset_tag. Qed.

Lemma format_tag_inj c m a b :
  0 <= a -> 0 <= b -> format_tag c m a = format_tag c m b -> a = b.
Proof.
  intros Ha Hb Heq. pose proof (format_tag_sequence c m a Ha) as H1.
  rewrite Heq, format_tag_sequence in H1 by assumption. congruence.
Qed.

Section BatchShape.

Context {W : Type} `{!Collaborators W}.

(** The loop appends one record of the pair per tag, in step. *)
Lemma generate_loop_shape k i c m nm (gen : list string) (cur : list Asset) (s : State W) :
  exists news : list Asset,
    snd (fst (generate_loop k i c m nm gen cur s)) = (cur ++ news)%list
    /\ fst (fst (generate_loop k i c m nm gen cur s)) = (gen ++ tags news)%list
    /\ length news = k
    /\ Forall (fun a : Asset => matches c m a = true) news.
Proof.
  revert i gen cur s. induction k as [|k IH]; intros i gen cur s.
  - exists []. simpl. rewrite !app_nil_r. repeat split. constructor.
  - rewrite generate_loop_S.
    destruct (IH (i + 1) (gen ++ [generate_asset_tag c m cur])%list
                 (cur ++ [new_asset (generate_asset_tag c m cur) c m
                                    (nm ++ " #" ++ PyStr.str (i + 1))
                                    (fst (now_isoformat (world s)))])%list
                 (mkState (snd (now_isoformat (world s))) (trace s ++ [EvNow])%list))
      as (news & Hcur & Hgen & Hlen & Hall).
    eexists (_ :: news). rewrite Hcur, Hgen, tags_cons_new_asset, <- !app_assoc.
    repeat split; [simpl; now rewrite Hlen |].
    constructor; [apply matches_new_asset | exact Hall].
Qed.

End BatchShape.

(** The same statement, for use in the proofs that follow. *)
Lemma submit_generate_batch_core {W : Type} `{!Collaborators W}
    (country_code manufacturer_code asset_name : string) (num_tags : nat)
    (assets : list Asset) (s : State W) :
  asset_name <> EmptyString ->
  exists session,
    fst (submit_generate country_code manufacturer_code asset_name num_tags assets s)
    = Some session
    /\ generated_tags session
       = map (fun j => format_tag country_code manufacturer_code
                         (next_number country_code manufacturer_code assets + Z.of_nat j))
             (seq 0 num_tags)
    /\ tags (asset_data_list session) = generated_tags session
    /\ length (asset_data_list session) = num_tags
    /\ Forall (fun a : Asset => matches country_code manufacturer_code a = true)
              (asset_data_list session)
    /\ NoDup (generated_tags session)
    /\ (forall a : Asset,
          In a assets -> matches country_code manufacturer_code a = true ->
          forall t, a !! "tag" = Some t -> ~ In t (generated_tags session)).
Proof.
  intros Hname. unfold submit_generate.
  destruct asset_name as [|x nm]; [congruence |]. cbn [PyStr.truthy].
  unfold bind, generate_tags.
  pose proof (generate_loop_tags num_tags 0 country_code manufacturer_code
                (String x nm) [] assets s) as Htags.
  destruct (generate_loop_shape num_tags 0 country_code manufacturer_code
              (String x nm) [] assets s) as (news & Hcur & Hgen & Hlen & Hall).
  destruct (generate_loop _ _ _ _ _ _ _ s) as [[gen cur] s1]. simpl in *. subst cur.
  eexists. split; [reflexivity |]. cbn [generated_tags asset_data_list].
  rewrite drop_app_length.
  pose proof (next_number_pos country_code manufacturer_code assets) as Hpos.
  split; [exact Htags |]. split; [congruence |]. split; [exact Hlen |].
  split; [exact Hall |]. split.
  - rewrite Htags. apply NoDup_fmap_2_strong; [| apply NoDup_seq].
    intros a b _ _ Heq. apply format_tag_inj in Heq; lia.
  - intros a Hin Hm t Ht Hgen'. rewrite Htags in Hgen'.
    apply in_map_iff in Hgen' as (j & <- & _).
    assert (In (next_number country_code manufacturer_code assets + Z.of_nat j)
               (parsed_numbers country_code manufacturer_code assets)) as Hmem
      by (eapply parsed_numbers_member; eauto; lia).
    apply parsed_below_next in Hmem. lia.
Qed.

(** X17. A submitted generator form with an asset name stores [num_tags] tags
    and as many new records, the records carrying the tags in order and the
    codes of the pair; the tags count up by one from the next number of the
    snapshot, are pairwise distinct, and none is the tag of an asset already
    stored under the pair. *)
Theorem submit_generate_batch {W : Type} `{!Collaborators W}
    (country_code manufacturer_code asset_name : string) (num_tags : nat)
    (assets : list Asset) (s : State W) :
  asset_name <> EmptyString ->
  exists session,
    fst (submit_generate country_code manufacturer_code asset_name num_tags assets s)
    = Some session
    /\ generated_tags session
       = map (fun j => format_tag country_code manufacturer_code
                         (next_number country_code manufacturer_code assets + Z.of_nat j))
             (seq 0 num_tags)
    /\ tags (asset_data_list session) = generated_tags session
    /\ length (asset_data_list session) = num_tags
    /\ Forall (fun a : Asset => matches country_code manufacturer_code a = true)
              (asset_data_list session)
    /\ NoDup (generated_tags session)
    /\ (forall a : Asset,
          In a assets -> matches country_code manufacturer_code a = true ->
          forall t, a !! "tag" = Some t -> ~ In t (generated_tags session)).
Proof.
  intros Hname. unfold submit_generate.
  destruct asset_name as [|x nm]; [congruence |]. cbn [PyStr.truthy].
  unfold bind, generate_tags.
  pose proof (generate_loop_tags num_tags 0 country_code manufacturer_code
                (String x nm) [] assets s) as Htags.
  destruct (generate_loop_shape num_tags 0 country_code manufacturer_code
              (String x nm) [] assets s) as (news & Hcur & Hgen & Hlen & Hall).
  destruct (generate_loop _ _ _ _ _ _ _ s) as [[gen cur] s1]. simpl in *. subst cur.
  eexists. split; [reflexivity |]. cbn [generated_tags asset_data_list].
  rewrite drop_app_length.
  pose proof (next_number_pos country_code manufacturer_code assets) as Hpos.
  split; [exact Htags |]. split; [congruence |]. split; [exact Hlen |].
  split; [exact Hall |]. split.
  - rewrite Htags. apply NoDup_fmap_2_strong; [| apply NoDup_seq].
    intros a b _ _ Heq. apply format_tag_inj in Heq; lia.
  - intros a Hin Hm t Ht Hgen'. rewrite Htags in Hgen'.
    apply in_map_iff in Hgen' as (j & <- & _).
    assert (In (next_number country_code manufacturer_code assets + Z.of_nat j)
               (parsed_numbers country_code manufacturer_code assets)) as Hmem
      by (eapply parsed_numbers_member; eauto; lia).
    apply parsed_below_next in Hmem. lia.
Qed.

Lemma submit_generate_batch_witness :
  "Printer" <> EmptyString
  /\ exists session,
       fst (submit_generate "EGY" "ZE" "Printer" 2
              [new_asset "EGY-ZE-0004" "EGY" "ZE" "Scanner #1" "T0"] sim_ok)
       = Some session
       /\ NoDup (generated_tags session).
Proof.
  assert ("Printer" <> EmptyString) as Hname by discriminate.
  split; [exact Hname |].
  destruct (submit_generate_batch "EGY" "ZE" "Printer" 2
              [new_asset "EGY-ZE-0004" "EGY" "ZE" "Scanner #1" "T0"] sim_ok Hname)
    as (session & Hs & _ & _ & _ & _ & Hnd & _).
  exists session. split; assumption.
Defined.

(** ** Tags that agree with the codes of their record *)

Lemma tidy_new_asset c m n nm d :
  dash_free c = true -> dash_free m = true -> 0 <= n ->
  tidy (new_asset (format_tag c m n) c m nm d) = true.
Proof.
  intros Hc Hm Hn. unfold tidy.
  rewrite new_asset_tag, new_asset_country, new_asset_manufacturer.
  rewrite split_format_tag by assumption. now rewrite !String.eqb_refl.
Qed.

(** A tidy asset that carries a tag of the pair is stored under the pair. *)
Lemma tidy_matches (a : Asset) c m n :
  dash_free c = true -> dash_free m = true -> 0 <= n ->
  tidy a = true -> a !! "tag" = Some (format_tag c m n) -> matches c m a = true.
Proof.
  intros Hc Hm Hn Htidy Htag. unfold tidy in Htidy. rewrite Htag in Htidy.
  rewrite split_format_tag in Htidy by assumption.
  unfold matches, get_eq.
  destruct (a !! "country_code") as [c'|]; [| discriminate].
  destruct (a !! "manufacturer_code") as [m'|]; [| discriminate].
  apply andb_prop in Htidy as [H1 H2].
  apply String.eqb_eq in H1, H2. subst. now rewrite !String.eqb_refl.
Qed.

Lemma Forall_tidy_app (l1 l2 : list Asset) :
  Forall (fun a : Asset => tidy a = true) l1 ->
  Forall (fun a : Asset => tidy a = true) l2 ->
  Forall (fun a : Asset => tidy a = true) (l1 ++ l2).
Proof. intros H1 H2. apply Forall_app. now split. Qed.

(** X10. When every asset's tag splits into its record's two codes and a
    third segment, the tags are pairwise distinct and the codes of the pair
    hold no dash, appending the generated record keeps the tags pairwise
    distinct and every tag in agreement with its record. *)
Theorem generation_keeps_tidy_tags_distinct (country_code manufacturer_code : string)
    (asset_name date_created : string) (assets : list Asset) :
  dash_free country_code = true -> dash_free manufacturer_code = true ->
  Forall (fun a : Asset => tidy a = true) assets ->
  NoDup (tags assets) ->
  let record := new_asset (generate_asset_tag country_code manufacturer_code assets)
                          country_code manufacturer_code asset_name date_created in
  NoDup (tags (assets ++ [record]))
  /\ Forall (fun a : Asset => tidy a = true) (assets ++ [record]).
Proof.
  intros Hc Hm Htidy Hnd record.
  pose proof (next_number_pos country_code manufacturer_code assets) as Hpos.
  split.
  - subst record. rewrite tags_app, tags_new_asset.
    apply NoDup_app. split; [exact Hnd |]. split; [| apply NoDup_singleton].
    intros x Hx Hin. apply list_elem_of_singleton in Hin as ->.
    apply list_elem_of_omap in Hx as (a & Ha & Htag).
    apply (generated_tag_fresh_in_pair country_code manufacturer_code assets a);
      [now apply list_elem_of_In | | exact Htag].
    rewrite Forall_forall in Htidy.
    eapply tidy_matches; [exact Hc | exact Hm | | apply Htidy; exact Ha | exact Htag].
    lia.
  - apply Forall_tidy_app; [exact Htidy |]. constructor; [| constructor].
    subst record. unfold generate_asset_tag. apply tidy_new_asset; auto. lia.
Qed.

Lemma generation_keeps_tidy_tags_distinct_witness :
  let assets := [new_asset "EGY-ZE-0001" "EGY" "ZE" "Printer #1" "T0";
                 new_asset "KSA-ZE-0001" "KSA" "ZE" "Printer #2" "T1"] in
  NoDup (tags (assets ++ [new_asset (generate_asset_tag "KSA" "ZE" assets)
                                    "KSA" "ZE" "Printer #3" "T2"])).
Proof.
  cbv zeta.
  apply (generation_keeps_tidy_tags_distinct "KSA" "ZE" "Printer #3" "T2"
           [new_asset "EGY-ZE-0001" "EGY" "ZE" "Printer #1" "T0";
            new_asset "KSA-ZE-0001" "KSA" "ZE" "Printer #2" "T1"]);
    [reflexivity | reflexivity | |].
  - repeat constructor; vm_compute; reflexivity.
  - rewrite !tags_cons_new_asset. apply NoDup_cons. split; [| apply NoDup_singleton].
    intros Hin. apply list_elem_of_singleton in Hin. discriminate Hin.
Defined.

(** ** More on the bulk import *)

Lemma any_tag_eq_true line (assets : list Asset) :
  any_tag_eq line assets = inr true ->
  exists a : Asset, In a assets /\ a !! "tag" = Some line.
Proof.
  induction assets as [|a l IH]; intros H; simpl in H; [discriminate |].
  destruct (a !! "tag") as [t|] eqn:Et; [| discriminate].
  destruct (String.eqb t line) eqn:E.
  - apply String.eqb_eq in E as ->. exists a. split; [now left | exact Et].
  - destruct (IH H) as (b & Hb & Htag). exists b. split; [now right | exact Htag].
Qed.

(** With every asset tagged, the duplicate test answers without raising. *)
Lemma any_tag_eq_tagged line (assets : list Asset) :
  Forall (fun a : Asset => is_Some (a !! "tag")) assets ->
  any_tag_eq line assets = inr (bool_decide (line ∈ tags assets)).
Proof.
  induction 1 as [|a l [t Ht] _ IH]; [reflexivity |]. simpl.
  unfold tags. cbn [omap list_omap]. rewrite Ht. fold (tags l).
  destruct (String.eqb t line) eqn:E.
  - apply String.eqb_eq in E as ->.
    rewrite bool_decide_eq_true_2; [reflexivity | apply list_elem_of_here].
  - rewrite IH. f_equal. apply String.eqb_neq in E.
    apply bool_decide_ext. rewrite elem_of_cons. intuition congruence.
Qed.

(** A match met in a list is met in every extension of the list. *)
Lemma any_tag_eq_true_app line (assets more : list Asset) :
  any_tag_eq line assets = inr true -> any_tag_eq line (assets ++ more) = inr true.
Proof.
  induction assets as [|a l IH]; intros H; simpl in *; [discriminate |].
  destruct (a !! "tag") as [t|]; [| discriminate].
  destruct (String.eqb t line); [reflexivity | now apply IH].
Qed.

Lemma any_tag_eq_false_snoc line (assets more : list Asset) d :
  any_tag_eq line assets = inr false ->
  any_tag_eq line ((assets ++ [imported line d]) ++ more) = inr true.
Proof.
  intros H. apply any_tag_eq_true_app.
  induction assets as [|a l IH]; simpl in *.
  - unfold imported. now rewrite new_asset_tag, String.eqb_refl.
  - destruct (a !! "tag") as [t|]; [| discriminate].
    destruct (String.eqb t line); [discriminate | now apply IH].
Qed.

Section BulkImportMore.

Context {W : Type} `{!Collaborators W}.

(** The loop written out on an accepted line. *)
Lemma import_loop_accept line rest (assets : list Asset) count (s : State W) :
  line_format_ok line = true -> any_tag_eq line assets = inr false ->
  import_loop (line :: rest) assets count s
  = import_loop rest (assets ++ [imported line (fst (now_isoformat (world s)))])%list
                (count + 1)
                (mkState (snd (now_isoformat (world s))) (trace s ++ [EvNow])%list).
Proof.
  intros Hok Hany. now rewrite import_loop_cons, import_line_cases, Hok, Hany.
Qed.

(** The loop written out on a line that is skipped. *)
Lemma import_loop_skip line rest (assets : list Asset) count (s : State W) :
  line_format_ok line = false \/ any_tag_eq line assets = inr true ->
  import_loop (line :: rest) assets count s = import_loop rest assets count s.
Proof.
  intros H. rewrite import_loop_cons, import_line_cases.
  destruct (line_format_ok line); [| reflexivity].
  destruct H as [H | ->]; [discriminate | reflexivity].
Qed.

(** The loop written out on a line at which the duplicate test raises. *)
Lemma import_loop_raise line rest (assets : list Asset) count (s : State W) e :
  line_format_ok line = true -> any_tag_eq line assets = inl e ->
  import_loop (line :: rest) assets count s = (mkImportLoop (Some e) assets count, s).
Proof.
  intros Hok Hany. now rewrite import_loop_cons, import_line_cases, Hok, Hany.
Qed.

(** When no line can be accepted the loop changes nothing at all. *)
Lemma import_loop_no_accept lines (assets : list Asset) count (s : State W) :
  (forall line, In line lines -> line_format_ok line = true ->
                any_tag_eq line assets <> inr false) ->
  snd (import_loop lines assets count s) = s
  /\ loop_assets (fst (import_loop lines assets count s)) = assets
  /\ loop_count (fst (import_loop lines assets count s)) = count.
Proof.
  induction lines as [|line rest IH]; intros Hno; [now repeat split |].
  assert (forall l, In l rest -> line_format_ok l = true ->
                    any_tag_eq l assets <> inr false) as Hrest
    by (intros l Hl; apply Hno; now right).
  destruct (line_format_ok line) eqn:Hok;
    [| rewrite import_loop_skip by (now left); now apply IH].
  destruct (any_tag_eq line assets) as [e | [|]] eqn:Hany.
  - rewrite (import_loop_raise _ _ _ _ _ e) by assumption. now repeat split.
  - rewrite import_loop_skip by (now right). now apply IH.
  - exfalso. apply (Hno line); auto. now left.
Qed.

(** Fresh, distinct, well-split lines are all appended, in order. *)
Lemma import_loop_all_fresh lines (assets : list Asset) count (s : State W) :
  Forall (fun a : Asset => is_Some (a !! "tag")) assets ->
  Forall (fun line => line_format_ok line = true) lines ->
  NoDup lines -> (forall line, In line lines -> ~ In line (tags assets)) ->
  loop_raised (fst (import_loop lines assets count s)) = None
  /\ tags (loop_assets (fst (import_loop lines assets count s)))
     = (tags assets ++ lines)%list
  /\ loop_count (fst (import_loop lines assets count s))
     = count + Z.of_nat (length lines).
Proof.
  revert assets count s.
  induction lines as [|line rest IH]; intros assets count s Htag Hok Hnd Hfresh.
  - simpl. rewrite app_nil_r. repeat split. lia.
  - apply Forall_cons in Hok as [Hok1 Hok]. apply NoDup_cons in Hnd as [Hnotin Hnd].
    assert (any_tag_eq line assets = inr false) as Hany.
    { rewrite any_tag_eq_tagged by assumption. f_equal.
      apply bool_decide_eq_false_2. rewrite list_elem_of_In. apply Hfresh. now left. }
    rewrite import_loop_accept by assumption.
    set (a1 := imported line (fst (now_isoformat (world s)))).
    destruct (IH (assets ++ [a1])%list (count + 1)
                 (mkState (snd (now_isoformat (world s))) (trace s ++ [EvNow])%list))
      as (Hr & Ht & Hc); try assumption.
    + apply Forall_app. split; [assumption |]. constructor; [| constructor].
      subst a1. unfold imported. rewrite new_asset_tag. eauto.
    + intros l Hl Hin. rewrite tags_app in Hin. subst a1. unfold imported in Hin.
      rewrite tags_new_asset in Hin. apply in_app_or in Hin as [Hin | [<- | []]].
      * apply (Hfresh l); [now right | exact Hin].
      * apply Hnotin. now apply list_elem_of_In.
    + split; [exact Hr |]. split.
      * rewrite Ht, tags_app. subst a1. unfold imported.
        now rewrite tags_new_asset, <- app_assoc.
      * rewrite Hc. simpl length. lia.
Qed.

(** What is appended is the importer's record of an accepted line. *)
Lemma import_loop_stores lines (assets : list Asset) count (s : State W) line :
  loop_raised (fst (import_loop lines assets count s)) = None ->
  In line lines -> line_format_ok line = true -> ~ In line (tags assets) ->
  exists d, In (imported line d) (loop_assets (fst (import_loop lines assets count s))).
Proof.
  revert assets count s.
  induction lines as [|l rest IH]; intros assets count s Hr Hin Hok Hfresh;
    [destruct Hin |].
  destruct (string_dec l line) as [-> | Hne].
  - destruct (any_tag_eq line assets) as [e | [|]] eqn:Hany.
    + rewrite (import_loop_raise _ _ _ _ _ e) in Hr by assumption. discriminate.
    + exfalso. apply any_tag_eq_true in Hany as (a & Ha & Htag). apply Hfresh.
      apply list_elem_of_In, list_elem_of_omap. exists a.
      split; [now apply list_elem_of_In | exact Htag].
    + rewrite import_loop_accept in * by assumption.
      destruct (import_loop_appends rest
                  (assets ++ [imported line (fst (now_isoformat (world s)))])%list
                  (count + 1)
                  (mkState (snd (now_isoformat (world s))) (trace s ++ [EvNow])%list))
        as (news & -> & _).
      eexists. apply in_or_app. left. apply in_or_app. right. now left.
  - destruct Hin as [-> | Hin]; [congruence |].
    destruct (line_format_ok l) eqn:Hokl;
      [| rewrite import_loop_skip in * by (now left); now apply IH].
    destruct (any_tag_eq l assets) as [e | [|]] eqn:Hany.
    + rewrite (import_loop_raise _ _ _ _ _ e) in Hr by assumption. discriminate.
    + rewrite import_loop_skip in * by (now right). now apply IH.
    + rewrite import_loop_accept in * by assumption. apply IH; try assumption.
      rewrite tags_app. unfold imported. rewrite tags_new_asset.
      intros Hx. apply in_app_or in Hx as [Hx | [Hx | []]]; [now apply Hfresh | congruence].
Qed.

(** After a loop that did not raise, every well-split pasted line is met by
    the duplicate test. *)
Lemma import_loop_settled lines (assets : list Asset) count (s : State W) line :
  loop_raised (fst (import_loop lines assets count s)) = None ->
  In line lines -> line_format_ok line = true ->
  any_tag_eq line (loop_assets (fst (import_loop lines assets count s))) = inr true.
Proof.
  revert assets count s.
  induction lines as [|l rest IH]; intros assets count s Hr Hin Hok; [destruct Hin |].
  assert (forall (a : list Asset) c s',
             import_loop (l :: rest) assets count s = import_loop rest a c s' ->
             any_tag_eq line a = inr true \/ In line rest ->
             any_tag_eq line (loop_assets (fst (import_loop (l :: rest) assets count s)))
             = inr true) as Hgo.
  { intros a c s' Heq [Hmet | Hlater]; rewrite Heq in *; [| now apply IH].
    destruct (import_loop_appends rest a c s') as (news & -> & _).
    now apply any_tag_eq_true_app. }
  destruct (line_format_ok l) eqn:Hokl.
  - destruct (any_tag_eq l assets) as [e | [|]] eqn:Hany.
    + rewrite (import_loop_raise _ _ _ _ _ e) in Hr by assumption. discriminate.
    + eapply Hgo; [apply import_loop_skip; now right |].
      destruct Hin as [-> | Hin]; [now left | now right].
    + eapply Hgo; [now apply import_loop_accept |].
      destruct Hin as [-> | Hin]; [left | now right].
      pose proof (any_tag_eq_false_snoc line assets []
                    (fst (now_isoformat (world s))) Hany) as Hs.
      now rewrite app_nil_r in Hs.
  - eapply Hgo; [apply import_loop_skip; now left |].
    destruct Hin as [-> | Hin]; [congruence | now right].
Qed.

End BulkImportMore.

Section BulkImportResults.

Context {W : Type} `{!Collaborators W}.

(** With every asset tagged the loop never raises and keeps every asset
    tagged. *)
Lemma import_loop_tagged lines (assets : list Asset) count (s : State W) :
  Forall (fun a : Asset => is_Some (a !! "tag")) assets ->
  loop_raised (fst (import_loop lines assets count s)) = None
  /\ Forall (fun a : Asset => is_Some (a !! "tag"))
            (loop_assets (fst (import_loop lines assets count s))).
Proof.
  revert assets count s. induction lines as [|line rest IH]; intros assets count s Htag;
    [now split |].
  destruct (line_format_ok line) eqn:Hok;
    [| rewrite import_loop_skip by (now left); now apply IH].
  pose proof (any_tag_eq_tagged line assets Htag) as Hany.
  destruct (bool_decide (line ∈ tags assets)).
  - rewrite import_loop_skip by (now right). now apply IH.
  - rewrite import_loop_accept by assumption. apply IH.
    apply Forall_app. split; [assumption |]. constructor; [| constructor].
    unfold imported. rewrite new_asset_tag. eauto.
Qed.

(** A loop that leaves the count as it was did nothing to the world. *)
Lemma import_loop_unchanged lines (assets : list Asset) count (s : State W) :
  loop_count (fst (import_loop lines assets count s)) = count ->
  snd (import_loop lines assets count s) = s
  /\ loop_assets (fst (import_loop lines assets count s)) = assets.
Proof.
  revert assets count s. induction lines as [|line rest IH]; intros assets count s Hc;
    [now split |].
  destruct (line_format_ok line) eqn:Hok;
    [| rewrite import_loop_skip in * by (now left); now apply IH].
  destruct (any_tag_eq line assets) as [e | [|]] eqn:Hany.
  - rewrite (import_loop_raise _ _ _ _ _ e) by assumption. now split.
  - rewrite import_loop_skip in * by (now right). now apply IH.
  - exfalso. rewrite import_loop_accept in Hc by assumption.
    destruct (import_loop_appends rest
                (assets ++ [imported line (fst (now_isoformat (world s)))])%list
                (count + 1)
                (mkState (snd (now_isoformat (world s))) (trace s ++ [EvNow])%list))
      as (news & _ & Hcount & _).
    rewrite Hcount in Hc. lia.
Qed.

End BulkImportResults.

(** X1. When every stored asset has a tag, and the pasted lines all split
    into three segments, are pairwise distinct and are not yet stored, the
    import appends one record per line, in the order of the paste, and counts
    them all; the result of the import is the result of the save. *)
Theorem import_appends_all_fresh_lines {W : Type} `{!Collaborators W}
    (tr : Tracker) (assets : list Asset) (pasted_tags : string) (s : State W) :
  Forall (fun a : Asset => is_Some (a !! "tag")) assets ->
  Forall (fun line => length (PyStr.split "-" line) = 3%nat) (tag_lines pasted_tags) ->
  NoDup (tag_lines pasted_tags) ->
  (forall line, In line (tag_lines pasted_tags) -> ~ In line (tags assets)) ->
  tags (snd (fst (import_existing_tags tr assets pasted_tags s)))
  = (tags assets ++ tag_lines pasted_tags)%list
  /\ loop_count (fst (import_loop (tag_lines pasted_tags) assets 0 s))
     = Z.of_nat (length (tag_lines pasted_tags))
  /\ (tag_lines pasted_tags <> [] ->
      fst (fst (import_existing_tags tr assets pasted_tags s))
      = fst (save_assets tr (snd (fst (import_existing_tags tr assets pasted_tags s)))
                         (snd (import_loop (tag_lines pasted_tags) assets 0 s)))).
Proof.
  intros Htag Hok Hnd Hfresh.
  assert (Forall (fun line => line_format_ok line = true) (tag_lines pasted_tags)) as Hok'
    by (eapply List.Forall_impl; [| exact Hok]; intros l; apply line_format_ok_iff).
  destruct (import_loop_all_fresh (tag_lines pasted_tags) assets 0 s Htag Hok' Hnd Hfresh)
    as (Hr & Ht & Hc).
  rewrite import_existing_tags_assets. split; [exact Ht |]. split; [exact Hc |].
  intros Hne. unfold import_existing_tags, bind.
  destruct (import_loop (tag_lines pasted_tags) assets 0 s) as [r s1]. simpl in *.
  rewrite Hr.
  destruct (loop_count r >? 0)%Z eqn:E.
  - destruct (save_assets tr (loop_assets r) s1). reflexivity.
  - rewrite Z.gtb_ltb in E. apply Z.ltb_ge in E.
    destruct (tag_lines pasted_tags); [congruence | simpl in Hc; lia].
Qed.

Lemma import_appends_all_fresh_lines_witness :
  let pasted := "EGY-ZE-0001" ++ String "010" "EGY-ZE-0002" ++ String "010" "KSA-DE-0001" in
  tags (snd (fst (import_existing_tags local_tracker [] pasted sim_ok)))
  = ([] ++ tag_lines pasted)%list
  /\ loop_count (fst (import_loop (tag_lines pasted) [] 0 sim_ok)) = 3.
Proof.
  cbv zeta.
  destruct (import_appends_all_fresh_lines local_tracker []
              ("EGY-ZE-0001" ++ String "010" "EGY-ZE-0002" ++ String "010" "KSA-DE-0001")
              sim_ok) as (Ht & Hc & _).
  - constructor.
  - vm_compute. repeat constructor.
  - apply (bool_decide_unpack (NoDup _)). vm_compute. exact I.
  - intros line _ [].
  - split; [exact Ht | exact Hc].
Defined.

(** X2. When every stored asset has a tag, the import never raises, every
    asset of the resulting list has a tag, and the import returns [True]
    exactly when at least one line was accepted and the save succeeded. *)
Theorem import_on_tagged_assets {W : Type} `{!Collaborators W}
    (tr : Tracker) (assets : list Asset) (pasted_tags : string) (s : State W) :
  Forall (fun a : Asset => is_Some (a !! "tag")) assets ->
  let r := import_loop (tag_lines pasted_tags) assets 0 s in
  loop_raised (fst r) = None
  /\ Forall (fun a : Asset => is_Some (a !! "tag"))
            (snd (fst (import_existing_tags tr assets pasted_tags s)))
  /\ (fst (fst (import_existing_tags tr assets pasted_tags s)) = true
      <-> 0 < loop_count (fst r)
          /\ fst (save_assets tr (loop_assets (fst r)) (snd r)) = true).
Proof.
  intros Htag r.
  destruct (import_loop_tagged (tag_lines pasted_tags) assets 0 s Htag) as [Hr Hall].
  fold r in Hr, Hall. split; [exact Hr |].
  rewrite import_existing_tags_assets. fold r. split; [exact Hall |].
  unfold import_existing_tags, bind. fold r. destruct r as [l s1]. simpl in *.
  rewrite Hr. destruct (loop_count l >? 0)%Z eqn:E.
  - rewrite Z.gtb_ltb in E. apply Z.ltb_lt in E.
    destruct (save_assets tr (loop_assets l) s1) as [b s2]. simpl. tauto.
  - rewrite Z.gtb_ltb in E. apply Z.ltb_ge in E. simpl.
    split; [discriminate | lia].
Qed.

Lemma import_on_tagged_assets_witness :
  let assets := [new_asset "EGY-ZE-0001" "EGY" "ZE" "Printer #1" "T0"] in
  loop_raised (fst (import_loop (tag_lines "EGY-ZE-0002") assets 0 sim_ok)) = None.
Proof.
  cbv zeta.
  apply (import_on_tagged_assets local_tracker
           [new_asset "EGY-ZE-0001" "EGY" "ZE" "Printer #1" "T0"] "EGY-ZE-0002" sim_ok).
  constructor; [rewrite new_asset_tag; eauto | constructor].
Defined.

(** The same statement, for use in the proofs that follow. *)
Lemma import_nothing_accepted_core {W : Type} `{!Collaborators W}
    (tr : Tracker) (assets : list Asset) (pasted_tags : string) (s : State W) :
  loop_count (fst (import_loop (tag_lines pasted_tags) assets 0 s)) = 0 ->
  fst (import_existing_tags tr assets pasted_tags s) = (false, assets)
  /\ world (snd (import_existing_tags tr assets pasted_tags s)) = world s
  /\ (trace (snd (import_existing_tags tr assets pasted_tags s)) = trace s
      \/ exists msg, trace (snd (import_existing_tags tr assets pasted_tags s))
                     = (trace s ++ [EvError msg])%list).
Proof.
  intros Hc.
  destruct (import_loop_unchanged (tag_lines pasted_tags) assets 0 s Hc) as [Hs Ha].
  unfold import_existing_tags, bind.
  destruct (import_loop (tag_lines pasted_tags) assets 0 s) as [r s1]. simpl in *.
  subst s1. rewrite Ha, Hc.
  destruct (loop_raised r) as [e|]; simpl; [| now auto].
  split; [reflexivity |]. split; [reflexivity |]. right. eauto.
Qed.

(** X3. When no line is accepted, the import returns [False], leaves the
    caller's list and the world as they were, and makes no call to a storage
    backend: at most one error message is shown. *)
Theorem import_nothing_accepted {W : Type} `{!Collaborators W}
    (tr : Tracker) (assets : list Asset) (pasted_tags : string) (s : State W) :
  loop_count (fst (import_loop (tag_lines pasted_tags) assets 0 s)) = 0 ->
  fst (import_existing_tags tr assets pasted_tags s) = (false, assets)
  /\ world (snd (import_existing_tags tr assets pasted_tags s)) = world s
  /\ (trace (snd (import_existing_tags tr assets pasted_tags s)) = trace s
      \/ exists msg, trace (snd (import_existing_tags tr assets pasted_tags s))
                     = (trace s ++ [EvError msg])%list).
Proof.
  intros Hc.
  destruct (import_loop_unchanged (tag_lines pasted_tags) assets 0 s Hc) as [Hs Ha].
  unfold import_existing_tags, bind.
  destruct (import_loop (tag_lines pasted_tags) assets 0 s) as [r s1]. simpl in *.
  subst s1. rewrite Ha, Hc.
  destruct (loop_raised r) as [e|]; simpl; [| now auto].
  split; [reflexivity |]. split; [reflexivity |]. right. eauto.
Qed.

Lemma import_nothing_accepted_witness :
  loop_count (fst (import_loop (tag_lines "BADFORMAT") [] 0 sim_ok)) = 0
  /\ fst (import_existing_tags github_tracker [] "BADFORMAT" sim_ok) = (false, []).
Proof.
  assert (loop_count (fst (import_loop (tag_lines "BADFORMAT") [] 0 sim_ok)) = 0) as Hc
    by (vm_compute; reflexivity).
  split; [exact Hc |].
  apply (import_nothing_accepted github_tracker [] "BADFORMAT" sim_ok Hc).
Defined.

(** X4. An asset without a [tag] key anywhere in the list blocks the import:
    whatever is pasted, no record is appended, nothing is saved and the import
    returns [False]. *)
Theorem import_blocked_by_untagged_asset {W : Type} `{!Collaborators W}
    (tr : Tracker) (assets : list Asset) (pasted_tags : string) (s : State W)
    (a : Asset) :
  In a assets -> a !! "tag" = None ->
  fst (import_existing_tags tr assets pasted_tags s) = (false, assets)
  /\ world (snd (import_existing_tags tr assets pasted_tags s)) = world s
  /\ Forall (fun e => is_remote_event e = false
                      /\ forall p c, e <> EvWriteFile p c)
            (drop (length (trace s))
                  (trace (snd (import_existing_tags tr assets pasted_tags s)))).
Proof.
  intros Hin Hnone.
  assert (loop_count (fst (import_loop (tag_lines pasted_tags) assets 0 s)) = 0) as Hc.
  { apply import_loop_no_accept. intros line _ _ Hfalse.
    apply any_tag_eq_false in Hfalse. rewrite Forall_forall in Hfalse.
    destruct (Hfalse a) as (t & Ht & _); [now apply list_elem_of_In | congruence]. }
  destruct (import_nothing_accepted_core tr assets pasted_tags s Hc) as (H1 & H2 & H3).
  split; [exact H1 |]. split; [exact H2 |].
  destruct H3 as [-> | [msg ->]].
  - rewrite drop_all. constructor.
  - rewrite drop_app_length. constructor; [| constructor].
    split; [reflexivity | discriminate].
Qed.

Lemma import_blocked_by_untagged_asset_witness :
  let untagged : Asset := {["name" := "Legacy printer"]} in
  untagged !! "tag" = None
  /\ fst (import_existing_tags local_tracker [untagged] "EGY-ZE-0001" sim_ok)
     = (false, [untagged]).
Proof.
  cbv zeta. split; [reflexivity |].
  apply (import_blocked_by_untagged_asset local_tracker [{["name" := "Legacy printer"]}]
           "EGY-ZE-0001" sim_ok {["name" := "Legacy printer"]});
    [now left | reflexivity].
Defined.

(** On a list where every well-split line is met by the duplicate test the
    loop is the identity. *)
Lemma import_loop_all_met {W : Type} `{!Collaborators W}
    lines (stored : list Asset) count (s : State W) :
  (forall line, In line lines -> line_format_ok line = true ->
                any_tag_eq line stored = inr true) ->
  import_loop lines stored count s = (mkImportLoop None stored count, s).
Proof.
  induction lines as [|l rest IH]; intros Hmet; [reflexivity |].
  rewrite import_loop_skip.
  - apply IH. intros line Hin. apply Hmet. now right.
  - destruct (line_format_ok l) eqn:E; [right; apply Hmet; auto; now left | now left].
Qed.

(** X5. Importing the same text a second time, after an import that did not
    raise, appends nothing: the second import returns [False] and leaves the
    list and the world as they are. *)
Theorem import_twice_adds_nothing {W : Type} `{!Collaborators W}
    (tr tr' : Tracker) (assets : list Asset) (pasted_tags : string) (s s' : State W) :
  loop_raised (fst (import_loop (tag_lines pasted_tags) assets 0 s)) = None ->
  let once := snd (fst (import_existing_tags tr assets pasted_tags s)) in
  import_existing_tags tr' once pasted_tags s' = ((false, once), s').
Proof.
  intros Hr once. subst once. rewrite import_existing_tags_assets.
  unfold import_existing_tags, bind.
  rewrite import_loop_all_met; [reflexivity |].
  intros line Hin Hok. now apply import_loop_settled.
Qed.

Lemma import_twice_adds_nothing_witness :
  let pasted := "EGY-ZE-0001" ++ String "010" "EGY-ZE-0002" in
  let once := snd (fst (import_existing_tags local_tracker [] pasted sim_ok)) in
  import_existing_tags local_tracker once pasted sim_ok = ((false, once), sim_ok).
Proof.
  cbv zeta.
  apply (import_twice_adds_nothing local_tracker local_tracker []
           ("EGY-ZE-0001" ++ String "010" "EGY-ZE-0002") sim_ok sim_ok).
  vm_compute. reflexivity.
Defined.

(** ** The lines of a pasted text *)

Lemma lstrip_shape s :
  PyStr.lstrip s = EmptyString
  \/ exists c r, PyStr.lstrip s = String c r /\ PyStr.is_space c = false.
Proof.
  induction s as [|c s IH]; [now left |]. cbn [PyStr.lstrip].
  destruct (PyStr.is_space c) eqn:E; [exact IH | right; eauto].
Qed.

Lemma rstrip_head c r :
  PyStr.is_space c = false -> exists r', PyStr.rstrip (String c r) = String c r'.
Proof.
  intros Hc. cbn [PyStr.rstrip]. destruct (PyStr.rstrip r); [rewrite Hc |]; eauto.
Qed.

Lemma rstrip_idem s : PyStr.rstrip (PyStr.rstrip s) = PyStr.rstrip s.
Proof.
  induction s as [|c s IH]; [reflexivity |]. cbn [PyStr.rstrip].
  destruct (PyStr.rstrip s) as [|x r] eqn:E.
  - destruct (PyStr.is_space c) eqn:Hc; [reflexivity |].
    cbn [PyStr.rstrip]. now rewrite Hc.
  - cbn [PyStr.rstrip] in *. now rewrite IH.
Qed.

Lemma strip_idem s : PyStr.strip (PyStr.strip s) = PyStr.strip s.
Proof.
  unfold PyStr.strip at 1.
  assert (PyStr.lstrip (PyStr.strip s) = PyStr.strip s) as ->.
  { unfold PyStr.strip. destruct (lstrip_shape s) as [-> | (c & r & -> & Hc)];
      [reflexivity |].
    destruct (rstrip_head c r Hc) as [r' ->]. cbn [PyStr.lstrip]. now rewrite Hc. }
  unfold PyStr.strip. apply rstrip_idem.
Qed.

Lemma all_space_cons c s :
  all_space (String c s) = PyStr.is_space c && all_space s.
Proof. reflexivity. Qed.

Lemma strip_all_space s : all_space s = true -> PyStr.strip s = EmptyString.
Proof.
  intros H. unfold PyStr.strip.
  enough (PyStr.lstrip s = EmptyString) as -> by reflexivity.
  induction s as [|c s IH]; [reflexivity |].
  rewrite all_space_cons in H. apply andb_prop in H as [Hc Hs].
  cbn [PyStr.lstrip]. rewrite Hc. now apply IH.
Qed.

Lemma split_all_space sep s :
  all_space s = true -> Forall (fun p => all_space p = true) (PyStr.split sep s).
Proof.
  induction s as [|c s IH]; intros H; [repeat constructor |].
  rewrite all_space_cons in H. apply andb_prop in H as [Hc Hs].
  specialize (IH Hs). cbn [PyStr.split].
  destruct (Ascii.eqb c sep); [constructor; [reflexivity | exact IH] |].
  destruct (PyStr.split sep s) as [|h t]; [repeat constructor; now rewrite all_space_cons, Hc |].
  apply Forall_cons in IH as [Hh Ht]. constructor; [| exact Ht].
  now rewrite all_space_cons, Hc, Hh.
Qed.

(** X6. The lines the importer works on are never empty and carry no
    surrounding white space; a pasted text made of white space only has no
    line, and its import returns [False] without touching the list or the
    world. *)
Theorem tag_lines_are_trimmed {W : Type} `{!Collaborators W}
    (tr : Tracker) (assets : list Asset) (pasted_tags : string) (s : State W) :
  Forall (fun line => line <> EmptyString /\ PyStr.strip line = line)
         (tag_lines pasted_tags)
  /\ (all_space pasted_tags = true ->
      tag_lines pasted_tags = []
      /\ import_existing_tags tr assets pasted_tags s = ((false, assets), s)).
Proof.
  split.
  - unfold tag_lines. apply Forall_forall. intros line Hin.
    apply list_elem_of_In, in_map_iff in Hin as (raw & <- & Hraw).
    apply filter_In in Hraw as [_ Htruthy].
    split; [| apply strip_idem].
    destruct (PyStr.strip raw); [discriminate | discriminate].
  - intros Hspace.
    assert (tag_lines pasted_tags = []) as Hnil.
    { unfold tag_lines.
      pose proof (split_all_space "010" pasted_tags Hspace) as Hall.
      induction Hall as [|p l Hp _ IH]; [reflexivity |]. cbn [List.filter].
      rewrite (strip_all_space p Hp). exact IH. }
    split; [exact Hnil |]. unfold import_existing_tags. now rewrite Hnil.
Qed.

Lemma tag_lines_are_trimmed_witness :
  all_space (String "010" "   ") = true
  /\ import_existing_tags local_tracker [] (String "010" "   ") sim_ok
     = ((false, []), sim_ok).
Proof.
  split; [reflexivity |].
  apply (tag_lines_are_trimmed local_tracker [] (String "010" "   ") sim_ok).
  reflexivity.
Defined.

(** ** From the importer to the generator *)

Lemma imported_matches c m n d :
  dash_free c = true -> dash_free m = true -> 0 <= n ->
  matches (PyStr.strip c) (PyStr.strip m) (imported (format_tag c m n) d) = true.
Proof.
  intros Hc Hm Hn. unfold imported. rewrite split_format_tag by assumption.
  cbn [nth]. apply matches_new_asset.
Qed.

(** X11. After an import that does not raise, a pasted tag [CC-MM-NNNN] built
    from codes without a dash or surrounding white space, and not stored
    before, is stored under the pair [(CC, MM)], and the sequence number the
    generator gives next for that pair lies above [NNNN]. *)
Theorem imported_tag_raises_next_number {W : Type} `{!Collaborators W}
    (tr : Tracker) (assets : list Asset) (pasted_tags : string) (s : State W)
    (country_code manufacturer_code : string) (n : Z) :
  dash_free country_code = true -> dash_free manufacturer_code = true ->
  PyStr.strip country_code = country_code ->
  PyStr.strip manufacturer_code = manufacturer_code -> 0 <= n ->
  In (format_tag country_code manufacturer_code n) (tag_lines pasted_tags) ->
  ~ In (format_tag country_code manufacturer_code n) (tags assets) ->
  loop_raised (fst (import_loop (tag_lines pasted_tags) assets 0 s)) = None ->
  let stored := snd (fst (import_existing_tags tr assets pasted_tags s)) in
  (exists a : Asset,
      In a stored /\ matches country_code manufacturer_code a = true
      /\ a !! "tag" = Some (format_tag country_code manufacturer_code n))
  /\ n < next_number country_code manufacturer_code stored.
Proof.
  intros Hc Hm Hsc Hsm Hn Hin Hfresh Hr stored. subst stored.
  rewrite import_existing_tags_assets.
  destruct (import_loop_stores (tag_lines pasted_tags) assets 0 s
              (format_tag country_code manufacturer_code n) Hr Hin) as [d Hd];
    [apply line_format_ok_iff; now rewrite split_format_tag | exact Hfresh |].
  assert (matches country_code manufacturer_code
            (imported (format_tag country_code manufacturer_code n) d) = true) as Hmatch.
  { pose proof (imported_matches country_code manufacturer_code n d Hc Hm Hn) as H.
    now rewrite Hsc, Hsm in H. }
  assert (imported (format_tag country_code manufacturer_code n) d !! "tag"
          = Some (format_tag country_code manufacturer_code n)) as Htag
    by (unfold imported; apply new_asset_tag).
  split; [eauto |].
  apply parsed_below_next. eapply parsed_numbers_member; eauto.
Qed.

Lemma imported_tag_raises_next_number_witness :
  let stored := snd (fst (import_existing_tags local_tracker [] "EGY-ZE-0041" sim_ok)) in
  41 < next_number "EGY" "ZE" stored.
Proof.
  cbv zeta.
  assert (0 <= 41) as H41 by lia.
  apply (imported_tag_raises_next_number local_tracker [] "EGY-ZE-0041" sim_ok
           "EGY" "ZE" 41 eq_refl eq_refl eq_refl eq_refl H41).
  - vm_compute. now left.
  - intros [].
  - vm_compute. reflexivity.
Defined.

(** ** Which events an operation records *)

Section Events.

Context {W : Type}.

Lemma extends_intro (Q : Event -> Prop) (s s' : State W) evs :
  trace s' = (trace s ++ evs)%list -> Forall Q evs -> extends_with Q s s'.
Proof.
  intros Ht Hq. unfold extends_with, new_events.
  rewrite Ht, drop_app_length. now split.
Qed.

Lemma extends_refl (Q : Event -> Prop) (s : State W) : extends_with Q s s.
Proof. apply (extends_intro Q s s []); [now rewrite app_nil_r | constructor]. Qed.

Lemma extends_trans (Q : Event -> Prop) (s1 s2 s3 : State W) :
  extends_with Q s1 s2 -> extends_with Q s2 s3 -> extends_with Q s1 s3.
Proof.
  intros [H12 Q12] [H23 Q23].
  apply (extends_intro Q s1 s3 (new_events s1 s2 ++ new_events s2 s3)).
  - rewrite H23, H12 at 1. now rewrite app_assoc.
  - apply Forall_app. now split.
Qed.

Lemma extends_weaken (Q Q' : Event -> Prop) (s s' : State W) :
  (forall e, Q e -> Q' e) -> extends_with Q s s' -> extends_with Q' s s'.
Proof.
  intros Himp [Ht Hq]. split; [exact Ht |]. eapply List.Forall_impl; eauto.
Qed.

Lemma extends_emit (Q : Event -> Prop) (s : State W) e :
  Q e -> extends_with Q s (snd (emit e s)).
Proof.
  intros He. apply (extends_intro Q _ _ [e]); [reflexivity | now repeat constructor].
Qed.

Lemma extends_call {A} (Q : Event -> Prop) (s : State W) e (f : W -> A * W) :
  Q e -> extends_with Q s (snd (call e f s)).
Proof.
  intros He. apply (extends_intro Q _ _ [e]); [| now repeat constructor].
  unfold call. now destruct (f (world s)).
Qed.

End Events.

Section StorageEvents.

Context {W : Type} `{!Collaborators W}.

Lemma save_data_to_file_events (Q : Event -> Prop) filename data (s : State W) :
  (forall p c, Q (EvWriteFile p c)) -> (forall m, Q (EvError m)) ->
  extends_with Q s (snd (save_data_to_file filename data s)).
Proof.
  intros Hw He. rewrite save_data_to_file_cases. cbv zeta.
  destruct (write_file _ _ (world s)) as [[e | u] w'].
  - eapply extends_intro; [simpl; now rewrite <- app_assoc |].
    repeat constructor; auto.
  - eapply extends_intro; [reflexivity |]. repeat constructor; auto.
Qed.

Lemma save_data_to_github_events (Q : Event -> Prop) tr filename data (s : State W) :
  (forall e, is_storage_event e = true -> Q e) ->
  extends_with Q s (snd (save_data_to_github tr filename data s)).
Proof.
  intros HQ. destruct (repo tr) as [r|] eqn:Hrepo.
  - destruct (get_contents filename (world s)) as [[e | cf] w1] eqn:Hget.
    + rewrite (save_data_to_github_missing _ _ _ _ _ _ _ Hrepo Hget). cbv zeta.
      destruct (create_file _ _ _ w1) as [[e' | u'] w2];
        (eapply extends_intro; [simpl; rewrite <- ?app_assoc; reflexivity |]);
        repeat constructor; now apply HQ.
    + rewrite (save_data_to_github_found _ _ _ _ _ _ _ Hrepo Hget). cbv zeta.
      destruct (update_file _ _ _ _ w1) as [[e' | u'] w2].
      * destruct (create_file _ _ _ w2) as [[e2 | u2] w3];
          (eapply extends_intro; [simpl; rewrite <- ?app_assoc; reflexivity |]);
          repeat constructor; now apply HQ.
      * eapply extends_intro; [simpl; rewrite <- ?app_assoc; reflexivity |].
        repeat constructor; now apply HQ.
  - unfold save_data_to_github. rewrite Hrepo. apply extends_refl.
Qed.

Lemma save_collection_events tr filename data (s : State W) :
  extends_with (save_event tr) s (snd (save_collection tr filename data s)).
Proof.
  unfold save_collection, bind.
  destruct (use_github tr) eqn:Hgh.
  - pose proof (save_data_to_github_events (save_event tr) tr filename data s) as H1.
    destruct (save_data_to_github tr filename data s) as [b1 s1].
    pose proof (save_data_to_file_events (save_event tr) filename data s1) as H2.
    destruct (save_data_to_file filename data s1) as [b2 s2]. simpl in *.
    eapply extends_trans; [apply H1 | apply H2].
    + intros e He. split; [exact He | rewrite Hgh; discriminate].
    + intros p c. split; [reflexivity | reflexivity].
    + intros m. split; reflexivity.
  - pose proof (save_data_to_file_events (save_event tr) filename data s) as H2.
    unfold ret. destruct (save_data_to_file filename data s) as [b2 s2]. simpl in *.
    apply H2; intros; split; reflexivity.
Qed.

Lemma save_reference_events which tr entries (s : State W) :
  extends_with (save_event tr) s (snd (save_reference which tr entries s)).
Proof. destruct which; apply save_collection_events. Qed.

End StorageEvents.

Section OperationEvents.

Context {W : Type} `{!Collaborators W}.

Lemma save_event_local tr e : save_event tr e -> local_unless_remote tr e.
Proof. now intros [_ H]. Qed.

Lemma save_assets_local tr (assets : list Asset) (s : State W) :
  extends_with (local_unless_remote tr) s (snd (save_assets tr assets s)).
Proof.
  eapply extends_weaken; [apply save_event_local | apply save_collection_events].
Qed.

Lemma save_reference_local which tr entries (s : State W) :
  extends_with (local_unless_remote tr) s (snd (save_reference which tr entries s)).
Proof.
  eapply extends_weaken; [apply save_event_local | apply save_reference_events].
Qed.

Lemma import_loop_events (Q : Event -> Prop) lines (assets : list Asset) count
    (s : State W) :
  Q EvNow -> extends_with Q s (snd (import_loop lines assets count s)).
Proof.
  intros HQ. revert assets count s.
  induction lines as [|line rest IH]; intros assets count s; [apply extends_refl |].
  rewrite import_loop_cons, import_line_cases.
  destruct (line_format_ok line); [| apply IH].
  destruct (any_tag_eq line assets) as [e | [|]]; [apply extends_refl | apply IH |].
  eapply extends_trans; [| apply IH].
  apply (extends_intro Q _ _ [EvNow]); [reflexivity | now repeat constructor].
Qed.

Lemma import_existing_tags_local tr (assets : list Asset) pasted (s : State W) :
  extends_with (local_unless_remote tr) s (snd (import_existing_tags tr assets pasted s)).
Proof.
  unfold import_existing_tags, bind.
  pose proof (import_loop_events (local_unless_remote tr) (tag_lines pasted) assets 0 s)
    as Hloop.
  destruct (import_loop (tag_lines pasted) assets 0 s) as [r s1]. simpl in *.
  eapply extends_trans; [apply Hloop; now intros _ |].
  destruct (loop_raised r) as [e|].
  - apply (extends_emit (local_unless_remote tr) s1). now intros _.
  - destruct (loop_count r >? 0)%Z; [| apply extends_refl].
    pose proof (save_assets_local tr (loop_assets r) s1) as Hsave.
    now destruct (save_assets tr (loop_assets r) s1).
Qed.

(** What a submitted add form records after the save. *)
Lemma add_entry_fresh_state which tr (entries : list ReferenceEntry) new_code new_name
    (s : State W) :
  new_code <> EmptyString -> new_name <> EmptyString ->
  code_present new_code entries = false ->
  let entries' := (entries ++ [{| code := new_code; name := new_name |}])%list in
  let saved := save_reference which tr entries' s in
  snd (add_entry which tr entries new_code new_name s)
  = if fst saved
    then mkState (world (snd saved))
                 ((trace (snd saved) ++ [EvSuccess (added_message which)]) ++ [EvRerun])%list
    else snd saved.
Proof.
  intros Hc Hn Hp. cbv zeta. unfold add_entry.
  destruct new_code; [congruence |]. destruct new_name; [congruence |].
  cbn [PyStr.truthy andb]. rewrite Hp. unfold bind.
  destruct (save_reference which tr _ s) as [[|] s1]; reflexivity.
Qed.

Lemma add_entry_local which tr (entries : list ReferenceEntry) new_code new_name
    (s : State W) :
  extends_with (local_unless_remote tr) s
               (snd (add_entry which tr entries new_code new_name s)).
Proof.
  unfold add_entry.
  destruct (PyStr.truthy new_code && PyStr.truthy new_name); [| apply extends_refl].
  destruct (code_present new_code entries).
  - apply (extends_emit (local_unless_remote tr) s). now intros _.
  - unfold bind.
    pose proof (save_reference_local which tr
                  (entries ++ [{| code := new_code; name := new_name |}])%list s) as Hs.
    destruct (save_reference which tr _ s) as [[|] s1]; simpl in *; [| exact Hs].
    eapply extends_trans; [exact Hs |].
    apply (extends_intro _ _ _ [EvSuccess (added_message which); EvRerun]);
      [simpl; now rewrite <- app_assoc | repeat constructor; now intros _].
Qed.

Lemma remove_entry_local which tr (entries : list ReferenceEntry) entry (s : State W) :
  extends_with (local_unless_remote tr) s (snd (remove_entry which tr entries entry s)).
Proof.
  unfold remove_entry. destruct (py_remove entry entries) as [l|]; [| apply extends_refl].
  unfold bind. pose proof (save_reference_local which tr l s) as Hs.
  destruct (save_reference which tr l s) as [[|] s1]; simpl in *; [| exact Hs].
  eapply extends_trans; [exact Hs |].
  apply (extends_intro _ _ _ [EvSuccess (removed_message which); EvRerun]);
    [simpl; now rewrite <- app_assoc | repeat constructor; now intros _].
Qed.

Lemma save_all_tags_local tr (assets : list Asset) session (s : State W) :
  extends_with (local_unless_remote tr) s (snd (save_all_tags tr assets session s)).
Proof.
  unfold save_all_tags, bind.
  pose proof (save_assets_local tr (assets ++ asset_data_list session)%list s) as Hs.
  destruct (save_assets tr _ s) as [[|] s1]; simpl in *.
  - eapply extends_trans; [exact Hs |].
    eapply (extends_intro _ _ _ [_; _]);
      [simpl; rewrite <- app_assoc; reflexivity | repeat constructor; now intros _].
  - eapply extends_trans; [exact Hs |].
    apply (extends_emit (local_unless_remote tr) s1). now intros _.
Qed.

End OperationEvents.

(** X15. Without a remote backend in use, no operation that saves ever calls
    the remote repository: a save of a collection, an import, an added or
    removed reference entry and a saved batch record no remote call. *)
Theorem no_remote_call_without_backend {W : Type} `{!Collaborators W}
    (tr : Tracker) (s : State W) :
  use_github tr = false ->
  (forall filename data,
      Forall (fun e => is_remote_event e = false)
             (new_events s (snd (save_collection tr filename data s))))
  /\ (forall (assets : list Asset) pasted_tags,
        Forall (fun e => is_remote_event e = false)
               (new_events s (snd (import_existing_tags tr assets pasted_tags s))))
  /\ (forall which entries new_code new_name,
        Forall (fun e => is_remote_event e = false)
               (new_events s (snd (add_entry which tr entries new_code new_name s))))
  /\ (forall which entries entry,
        Forall (fun e => is_remote_event e = false)
               (new_events s (snd (remove_entry which tr entries entry s))))
  /\ (forall (assets : list Asset) session,
        Forall (fun e => is_remote_event e = false)
               (new_events s (snd (save_all_tags tr assets session s)))).
Proof.
  intros Hgh.
  assert (forall s', extends_with (local_unless_remote tr) s s' ->
                     Forall (fun e => is_remote_event e = false) (new_events s s')) as Hgo.
  { intros s' [_ Hq]. eapply List.Forall_impl; [| exact Hq]. intros e He. now apply He. }
  split; [| split; [| split; [| split]]]; intros; apply Hgo.
  - eapply extends_weaken; [apply save_event_local | apply save_collection_events].
  - apply import_existing_tags_local.
  - apply add_entry_local.
  - apply remove_entry_local.
  - apply save_all_tags_local.
Qed.

Lemma no_remote_call_without_backend_witness :
  use_github local_tracker = false
  /\ Forall (fun e => is_remote_event e = false)
            (new_events sim_ok
               (snd (import_existing_tags local_tracker [] "EGY-ZE-0001" sim_ok))).
Proof.
  split; [reflexivity |].
  apply (no_remote_call_without_backend local_tracker sim_ok eq_refl).
Defined.

(** X16. When the read finds the document and the update raises, the remote
    save goes on to call the create; it succeeds exactly when that create
    succeeds, and the only error message shown is the one of the create. *)
Theorem failed_update_falls_back_to_create {W : Type} `{!Collaborators W}
    (tr : Tracker) (filename : string) (data : Collection) (s : State W)
    (r : string) (cf : ContentFile) (w1 w2 : W) (e : Exc) :
  repo tr = Some r ->
  get_contents filename (world s) = (inr cf, w1) ->
  update_file filename ("Update " ++ filename) (json_dumps data) (sha cf) w1 = (inl e, w2) ->
  let created := create_file filename ("Create " ++ filename) (json_dumps data) w2 in
  let calls := [EvGetContents filename;
                EvUpdateFile filename ("Update " ++ filename) (json_dumps data) (sha cf);
                EvCreateFile filename ("Create " ++ filename) (json_dumps data)] in
  world (snd (save_data_to_github tr filename data s)) = snd created
  /\ match fst created with
     | inr _ =>
         fst (save_data_to_github tr filename data s) = true
         /\ new_events s (snd (save_data_to_github tr filename data s)) = calls
     | inl e' =>
         fst (save_data_to_github tr filename data s) = false
         /\ new_events s (snd (save_data_to_github tr filename data s))
            = (calls ++ [EvError ("Error saving to GitHub: " ++ exc_str e')])%list
     end.
Proof.
  intros Hrepo Hget Hup. cbv zeta.
  rewrite (save_data_to_github_found _ _ _ _ _ _ _ Hrepo Hget). cbv zeta.
  rewrite Hup. unfold new_events.
  destruct (create_file _ _ _ w2) as [[e' | u'] w3]; simpl;
    (split; [reflexivity |]); (split; [reflexivity |]);
    rewrite <- !app_assoc; simpl; now rewrite drop_app_length.
Qed.

Lemma failed_update_falls_back_to_create_witness :
  @get_contents _ conflict_collaborators data_file (world sim_stored)
  = (inr {| decoded_content := "[]"; sha := "rev7" |}, world sim_stored)
  /\ fst (@save_data_to_github _ conflict_collaborators github_tracker data_file
            (AssetList []) sim_stored) = false.
Proof.
  split; [reflexivity |].
  destruct (@failed_update_falls_back_to_create _ conflict_collaborators
              github_tracker data_file (AssetList []) sim_stored
              "owner/asset-tracker" {| decoded_content := "[]"; sha := "rev7" |}
              (world sim_stored) (world sim_stored) (Raised "409 Conflict")
              eq_refl eq_refl eq_refl) as [_ H].
  exact (proj1 H).
Defined.

(** ** More on the reference lists *)

Lemma entry_eqb_eq a b : entry_eqb a b = true <-> a = b.
Proof.
  unfold entry_eqb. rewrite andb_true_iff, !String.eqb_eq.
  destruct a, b; simpl. split; [intros [-> ->]; reflexivity | intros [= -> ->]; auto].
Qed.

(** [remove] drops the first occurrence and nothing else. *)
Lemma py_remove_in x (l : list ReferenceEntry) :
  In x l ->
  exists l1 l2, l = (l1 ++ x :: l2)%list /\ ~ In x l1
                /\ py_remove x l = Some (l1 ++ l2)%list.
Proof.
  induction l as [|y l IH]; intros Hin; [destruct Hin |]. cbn [py_remove].
  destruct (entry_eqb y x) eqn:E.
  - apply entry_eqb_eq in E as ->. exists [], l. repeat split. intros [].
  - assert (y <> x) as Hne by (intros ->; rewrite (proj2 (entry_eqb_eq x x) eq_refl) in E;
                               discriminate).
    destruct Hin as [-> | Hin]; [congruence |].
    destruct (IH Hin) as (l1 & l2 & -> & Hnot & ->).
    exists (y :: l1), l2. repeat split. intros [-> | H]; [congruence | auto].
Qed.

Lemma py_remove_absent x (l : list ReferenceEntry) : ~ In x l -> py_remove x l = None.
Proof.
  induction l as [|y l IH]; intros Hnot; [reflexivity |]. cbn [py_remove].
  destruct (entry_eqb y x) eqn:E.
  - apply entry_eqb_eq in E as ->. exfalso. apply Hnot. now left.
  - rewrite IH; [reflexivity |]. intros H. apply Hnot. now right.
Qed.

Lemma code_present_app x (l1 l2 : list ReferenceEntry) :
  code_present x (l1 ++ l2) = code_present x l1 || code_present x l2.
Proof. unfold code_present. apply existsb_app. Qed.

Lemma code_absent_iff x (l : list ReferenceEntry) :
  code_present x l = false <-> ~ In x (map code l).
Proof.
  split.
  - intros H Hin. apply in_map_iff in Hin as (c & Hc & Hin).
    assert (code_present x l = true) by (apply code_present_iff; eauto). congruence.
  - intros H. destruct (code_present x l) eqn:E; [| reflexivity].
    apply code_present_iff in E as (c & Hin & Hc). exfalso. apply H.
    apply in_map_iff. eauto.
Qed.


(** X12. A submitted add of a code that is not in the list appends the new
    entry at the end whatever the save returns, keeps the codes unique, and
    shows its success message exactly when the save succeeded. *)
Theorem add_fresh_code_appends {W : Type} `{!Collaborators W}
    (which : RefList) (tr : Tracker) (entries : list ReferenceEntry)
    (new_code new_name : string) (s : State W) :
  new_code <> EmptyString -> new_name <> EmptyString ->
  code_present new_code entries = false ->
  let entries' := (entries ++ [{| code := new_code; name := new_name |}])%list in
  let after := add_entry which tr entries new_code new_name s in
  fst after = entries'
  /\ (NoDup (map code entries) -> NoDup (map code entries'))
  /\ (In (EvSuccess (added_message which)) (new_events s (snd after))
      <-> fst (save_reference which tr entries' s) = true).
Proof.
  intros Hc Hn Hp entries' after. subst after.
  split; [now apply add_entry_fresh |]. split.
  - intros Hnd. subst entries'. rewrite map_app. simpl.
    apply NoDup_app. split; [exact Hnd |]. split; [| apply NoDup_singleton].
    intros x Hx Hin. apply list_elem_of_singleton in Hin as ->.
    apply code_absent_iff in Hp. apply Hp. now apply list_elem_of_In.
  - rewrite add_entry_fresh_state by assumption. cbv zeta. fold entries'.
    destruct (save_reference_events which tr entries' s) as [Ht Hq].
    destruct (save_reference which tr entries' s) as [[|] s1]; simpl in *.
    + split; [reflexivity | intros _]. unfold new_events. simpl.
      rewrite Ht, <- !app_assoc, drop_app_length.
      apply in_or_app. right. now left.
    + split; [| discriminate]. intros Hin.
      rewrite Forall_forall in Hq.
      apply list_elem_of_In, Hq in Hin. destruct Hin as [Hs _]. discriminate Hs.
Qed.

Lemma add_fresh_code_appends_witness :
  code_present "UAE" default_countries = false
  /\ fst (add_entry Countries local_tracker default_countries "UAE" "Emirates" sim_ok)
     = (default_countries ++ [{| code := "UAE"; name := "Emirates" |}])%list.
Proof.
  split; [reflexivity |].
  apply (add_fresh_code_appends Countries local_tracker default_countries "UAE" "Emirates"
           sim_ok); [discriminate | discriminate | reflexivity].
Defined.


(** X13. A pressed Remove button on an entry of a list with unique codes
    leaves the list without that entry and without its code, keeps the other
    entries in their order, and hands the shortened list to the save; an entry
    that is not in the list raises and saves nothing. *)
Theorem remove_entry_removes {W : Type} `{!Collaborators W}
    (which : RefList) (tr : Tracker) (entries : list ReferenceEntry)
    (entry : ReferenceEntry) (s : State W) :
  (In entry entries -> NoDup (map code entries) ->
   let entries' := List.filter (fun c => negb (has_code (code entry) c)) entries in
   fst (remove_entry which tr entries entry s) = inr entries'
   /\ code_present (code entry) entries' = false
   /\ length entries = S (length entries')
   /\ NoDup (map code entries')
   /\ (In (EvSuccess (removed_message which))
          (new_events s (snd (remove_entry which tr entries entry s)))
       <-> fst (save_reference which tr entries' s) = true))
  /\ (~ In entry entries ->
      exists e, remove_entry which tr entries entry s = (inl e, s)).
Proof.
  split.
  - intros Hin Hnd entries'.
    destruct (py_remove_in entry entries Hin) as (l1 & l2 & Hl & Hnot & Hrem).
    assert (entries' = (l1 ++ l2)%list) as Heq.
    { subst entries' entries. rewrite map_app in Hnd. simpl in Hnd.
      apply NoDup_app in Hnd as (Hnd1 & Hdisj & Hnd2).
      apply NoDup_cons in Hnd2 as [Hnot2 Hnd2].
      rewrite List.filter_app. cbn [List.filter]. unfold has_code at 2.
      rewrite String.eqb_refl. cbn [negb]. f_equal.
      - apply forallb_filter_id. apply forallb_forall. intros c Hc.
        unfold has_code. apply negb_true_iff, String.eqb_neq. intros Hcode.
        apply (Hdisj (code c)); [apply list_elem_of_In, in_map; exact Hc |].
        rewrite Hcode. apply list_elem_of_here.
      - apply forallb_filter_id. apply forallb_forall. intros c Hc.
        unfold has_code. apply negb_true_iff, String.eqb_neq. intros Hcode.
        apply Hnot2. rewrite <- Hcode. apply list_elem_of_In, in_map. exact Hc. }
    assert (code_present (code entry) entries' = false) as Habs.
    { subst entries'. unfold code_present.
      apply not_true_is_false. intros H. apply existsb_exists in H as (c & Hc & Hh).
      apply filter_In in Hc as [_ Hneg]. rewrite Hh in Hneg. discriminate. }
    assert (NoDup (map code entries')) as Hnd'.
    { rewrite Heq. subst entries. rewrite map_app in *. simpl in Hnd.
      apply NoDup_app in Hnd as (Hnd1 & Hdisj & Hnd2).
      apply NoDup_cons in Hnd2 as [_ Hnd2].
      apply NoDup_app. split; [exact Hnd1 |]. split; [| exact Hnd2].
      intros x Hx Hx2. apply (Hdisj x Hx). now apply list_elem_of_further. }
    unfold remove_entry. rewrite Hrem, <- Heq. unfold bind.
    destruct (save_reference_events which tr entries' s) as [Ht Hq].
    destruct (save_reference which tr entries' s) as [[|] s1] eqn:Hsave; simpl in *.
    + split; [reflexivity |]. split; [exact Habs |].
      split; [rewrite Heq, Hl, !length_app; simpl; lia |]. split; [exact Hnd' |].
      split; [reflexivity | intros _]. unfold new_events. simpl.
      rewrite Ht, <- !app_assoc, drop_app_length. apply in_or_app. right. now left.
    + split; [reflexivity |]. split; [exact Habs |].
      split; [rewrite Heq, Hl, !length_app; simpl; lia |]. split; [exact Hnd' |].
      split; [| discriminate]. intros Hin'.
      rewrite Forall_forall in Hq.
      apply list_elem_of_In, Hq in Hin'. destruct Hin' as [Hs _]. discriminate Hs.
  - intros Hnot. unfold remove_entry. rewrite py_remove_absent by assumption.
    eexists. reflexivity.
Qed.

Lemma remove_entry_removes_witness :
  let egypt := {| code := "EGY"; name := "Egypt" |} in
  In egypt default_countries
  /\ fst (remove_entry Countries local_tracker default_countries egypt sim_ok)
     = inr [{| code := "KSA"; name := "Saudi Arabia" |}].
Proof.
  cbv zeta.
  assert (In {| code := "EGY"; name := "Egypt" |} default_countries) as Hin by now left.
  split; [exact Hin |].
  apply (proj1 (remove_entry_removes Countries local_tracker default_countries
                  {| code := "EGY"; name := "Egypt" |} sim_ok) Hin).
  apply (bool_decide_unpack (NoDup _)). vm_compute. exact I.
Defined.



(** ** Loading *)

Section Loading.

Context {W : Type} `{!Collaborators W} `{!Readers W}.

(** A remote load records its read and nothing else, whatever happens. *)
Lemma load_data_from_github_quiet tr filename (s : State W) :
  new_events s (snd (load_data_from_github tr filename s)) = []
  \/ new_events s (snd (load_data_from_github tr filename s)) = [EvGetContents filename].
Proof.
  unfold load_data_from_github, new_events.
  destruct (repo tr); [| left; simpl; apply drop_all].
  right. unfold bind, call, ret.
  destruct (get_contents filename (world s)) as [[e | fc] w1]; simpl;
    [now rewrite drop_app_length |].
  destruct (json_loads (decoded_content fc)); simpl; now rewrite drop_app_length.
Qed.

Lemma load_with_defaults_truthy (m : M W Collection) defaults (s : State W) :
  defaults <> [] ->
  let loaded := fst (m s) in
  let result := fst (bind m (fun data => if collection_truthy data then ret data
                                         else ret (ReferenceList defaults)) s) in
  collection_truthy result = true
  /\ (collection_truthy loaded = true -> result = loaded)
  /\ (collection_truthy loaded = false -> result = ReferenceList defaults).
Proof.
  intros Hne. cbv zeta. unfold bind. destruct (m s) as [data s1]. simpl.
  destruct (collection_truthy data) eqn:E; simpl.
  - repeat split; [exact E | discriminate].
  - repeat split; [| discriminate]. destruct defaults; [congruence | reflexivity].
Qed.

End Loading.

(** X18. Loading the countries or the manufacturers never gives an empty
    list: the stored list is returned as it is when it is not empty, and the
    default entries otherwise (no document, a failed read, a text that does
    not parse); a remote load shows no message. *)
Theorem reference_lists_load_non_empty {W : Type} `{!Collaborators W} `{!Readers W}
    (tr : Tracker) (s : State W) :
  (collection_truthy (fst (load_countries tr s)) = true
   /\ (collection_truthy (fst (load_from_backend tr countries_file s)) = true ->
       fst (load_countries tr s) = fst (load_from_backend tr countries_file s))
   /\ (collection_truthy (fst (load_from_backend tr countries_file s)) = false ->
       fst (load_countries tr s) = ReferenceList default_countries))
  /\ (collection_truthy (fst (load_manufacturers tr s)) = true
      /\ (collection_truthy (fst (load_from_backend tr manufacturers_file s)) = true ->
          fst (load_manufacturers tr s) = fst (load_from_backend tr manufacturers_file s))
      /\ (collection_truthy (fst (load_from_backend tr manufacturers_file s)) = false ->
          fst (load_manufacturers tr s) = ReferenceList default_manufacturers))
  /\ (use_github tr = true ->
      forall filename e,
        In e (new_events s (snd (load_from_backend tr filename s))) ->
        e = EvGetContents filename).
Proof.
  split; [| split].
  - apply (load_with_defaults_truthy (load_from_backend tr countries_file)
             default_countries s). discriminate.
  - apply (load_with_defaults_truthy (load_from_backend tr manufacturers_file)
             default_manufacturers s). discriminate.
  - intros Hgh filename e. unfold load_from_backend. rewrite Hgh.
    destruct (load_data_from_github_quiet tr filename s) as [-> | ->];
      [intros [] | intros [<- | []]; reflexivity].
Qed.

(** ** Construction *)

(** X20. The tracker the constructor builds uses the remote backend exactly
    when it holds a repository; without a token, with an empty token or after
    a failed connection it is local; and a token found in the secrets without
    a repository name there is not used: both then come from the
    environment. *)
Theorem init_backend_choice (get_repo : string -> string -> Exc + string)
    (secrets : option (gmap string string)) (env : gmap string string) :
  let tr := init get_repo secrets env in
  (use_github tr = true <-> is_Some (repo tr))
  /\ (fst (read_credentials secrets env) = None
      \/ fst (read_credentials secrets env) = Some EmptyString ->
      tr = {| repo := None; use_github := false |})
  /\ (forall token repo_name e,
        read_credentials secrets env = (Some token, repo_name) ->
        get_repo token repo_name = inl e ->
        tr = {| repo := None; use_github := false |})
  /\ (forall sec, secrets = Some sec -> sec !! "GITHUB_REPO" = None ->
                  tr = init get_repo None env).
Proof.
  cbv zeta. split; [| split; [| split]].
  - unfold init. destruct (read_credentials secrets env) as [[token|] rn];
      [| simpl; split; [discriminate | intros [x Hx]; discriminate]].
    destruct (PyStr.truthy token);
      [| simpl; split; [discriminate | intros [x Hx]; discriminate]].
    destruct (get_repo token rn); simpl;
      [split; [discriminate | intros [x Hx]; discriminate] | split; eauto].
  - unfold init. destruct (read_credentials secrets env) as [[token|] rn]; simpl;
      intros [H | H]; try discriminate; try reflexivity.
    injection H as ->. reflexivity.
  - intros token rn e Hcred Hconn. unfold init. rewrite Hcred.
    destruct (PyStr.truthy token); [now rewrite Hconn | reflexivity].
  - intros sec -> Hnone. unfold init, read_credentials. rewrite Hnone.
    now destruct (sec !! "GITHUB_TOKEN").
Qed.

Lemma init_backend_choice_witness :
  let secrets : gmap string string := {["GITHUB_TOKEN" := "ghp_secret"]} in
  let env : gmap string string := ∅ in
  secrets !! "GITHUB_REPO" = None
  /\ init (fun _ r => inr r) (Some secrets) env = init (fun _ r => inr r) None env.
Proof.
  cbv zeta. split; [reflexivity |].
  destruct (init_backend_choice (fun _ r => inr r)
              (Some {["GITHUB_TOKEN" := "ghp_secret"]}) ∅) as (_ & _ & _ & Henv).
  apply (Henv {["GITHUB_TOKEN" := "ghp_secret"]}); reflexivity.
Defined.

(** ** Generating, then saving the batch *)

Section SaveAll.

Context {W : Type} `{!Collaborators W}.

Lemma save_all_tags_cases tr (assets : list Asset) session (s : State W) :
  let assets' := (assets ++ asset_data_list session)%list in
  let saved := save_assets tr assets' s in
  fst (save_all_tags tr assets session s)
  = (assets', if fst saved then None else Some session).
Proof.
  cbv zeta. unfold save_all_tags, bind.
  destruct (save_assets tr _ s) as [[|] s1]; reflexivity.
Qed.

End SaveAll.

(** X21. A batch generated from a snapshot and saved onto the same snapshot:
    when every tag of the snapshot agrees with the codes of its record, the
    tags are pairwise distinct and the codes of the pair hold no dash, the list
    handed to the save holds the snapshot followed by [num_tags] new records
    and its tags are pairwise distinct; the list is extended whatever the save
    returns, and the batch stays in the session exactly when the save
    failed. *)
Theorem generate_then_save_all {W : Type} `{!Collaborators W}
    (tr : Tracker) (country_code manufacturer_code asset_name : string)
    (num_tags : nat) (assets : list Asset) (s s' : State W) :
  asset_name <> EmptyString ->
  dash_free country_code = true -> dash_free manufacturer_code = true ->
  Forall (fun a : Asset => tidy a = true) assets -> NoDup (tags assets) ->
  exists session,
    fst (submit_generate country_code manufacturer_code asset_name num_tags assets s)
    = Some session
    /\ let after := save_all_tags tr assets session s' in
       fst (fst after) = (assets ++ asset_data_list session)%list
       /\ length (fst (fst after)) = (length assets + num_tags)%nat
       /\ NoDup (tags (fst (fst after)))
       /\ (snd (fst after) = None
           <-> fst (save_assets tr (assets ++ asset_data_list session) s') = true).
Proof.
  intros Hname Hc Hm Htidy Hnd.
  destruct (submit_generate_batch_core country_code manufacturer_code asset_name num_tags
              assets s Hname) as (session & Hs & Hgen & Htags & Hlen & _ & Hndg & _).
  exists session. split; [exact Hs |]. cbv zeta.
  rewrite save_all_tags_cases. cbv zeta. cbn [fst snd].
  split; [reflexivity |]. split; [rewrite length_app; lia |]. split.
  - rewrite tags_app, Htags. apply NoDup_app. split; [exact Hnd |].
    split; [| exact Hndg].
    intros t Ht Hin. rewrite Hgen in Hin.
    apply list_elem_of_In, in_map_iff in Hin as (j & <- & _).
    apply list_elem_of_omap in Ht as (a & Ha & Htag).
    pose proof (next_number_pos country_code manufacturer_code assets) as Hpos.
    assert (matches country_code manufacturer_code a = true) as Hmatch.
    { rewrite Forall_forall in Htidy.
      eapply tidy_matches; [exact Hc | exact Hm | | apply Htidy; exact Ha | exact Htag].
      lia. }
    assert (In (next_number country_code manufacturer_code assets + Z.of_nat j)
               (parsed_numbers country_code manufacturer_code assets)) as Hmem.
    { eapply parsed_numbers_member; [apply list_elem_of_In; exact Ha | exact Hmatch
                                     | exact Htag | lia]. }
    apply parsed_below_next in Hmem. lia.
  - destruct (fst (save_assets tr _ s')); split; congruence.
Qed.

Lemma generate_then_save_all_witness :
  let assets := [new_asset "EGY-ZE-0001" "EGY" "ZE" "Printer #1" "T0"] in
  exists session,
    fst (submit_generate "EGY" "ZE" "Printer" 2 assets sim_ok) = Some session
    /\ NoDup (tags (fst (fst (save_all_tags local_tracker assets session sim_disk_full)))).
Proof.
  cbv zeta.
  destruct (generate_then_save_all local_tracker "EGY" "ZE" "Printer" 2
              [new_asset "EGY-ZE-0001" "EGY" "ZE" "Printer #1" "T0"] sim_ok sim_disk_full)
    as (session & Hs & _ & _ & Hnd & _).
  - discriminate.
  - reflexivity.
  - reflexivity.
  - repeat constructor.
  - rewrite tags_new_asset. apply NoDup_singleton.
  - exists session. split; assumption.
Defined.

(** ** The recent tags *)

Lemma ascii_compare_lt_trans a b c :
  Ascii.compare a b = Lt -> Ascii.compare b c = Lt -> Ascii.compare a c = Lt.
Proof.
  unfold Ascii.compare. rewrite !N.compare_lt_iff. lia.
Qed.

Lemma string_compare_lt_trans s1 s2 s3 :
  String.compare s1 s2 = Lt -> String.compare s2 s3 = Lt -> String.compare s1 s3 = Lt.
Proof.
  revert s2 s3. induction s1 as [|a s1 IH]; intros [|b s2] [|c s3] H12 H23;
    simpl in *; try discriminate; try reflexivity.
  destruct (Ascii.compare a b) eqn:Eab; try discriminate.
  - apply Ascii.compare_eq_iff in Eab as ->.
    destruct (Ascii.compare b c); try discriminate; [eauto | reflexivity].
  - destruct (Ascii.compare b c) eqn:Ebc; try discriminate.
    + apply Ascii.compare_eq_iff in Ebc as <-. now rewrite Eab.
    + now rewrite (ascii_compare_lt_trans a b c).
Qed.

Lemma string_compare_refl s : String.compare s s = Eq.
Proof.
  pose proof (String.compare_antisym s s) as H.
  destruct (String.compare s s); [reflexivity | discriminate | discriminate].
Qed.

Lemma string_leb_cases s1 s2 :
  String.leb s1 s2 = true <-> String.compare s1 s2 = Lt \/ s1 = s2.
Proof.
  unfold String.leb. destruct (String.compare s1 s2) eqn:E.
  - apply String.compare_eq_iff in E. tauto.
  - tauto.
  - split; [discriminate |]. intros [H | ->]; [discriminate |].
    rewrite string_compare_refl in E. discriminate.
Qed.

Lemma string_leb_trans s1 s2 s3 :
  String.leb s1 s2 = true -> String.leb s2 s3 = true -> String.leb s1 s3 = true.
Proof.
  rewrite !string_leb_cases. intros [H12 | ->] [H23 | ->]; auto.
  left. eapply string_compare_lt_trans; eauto.
Qed.

Lemma string_ltb_leb s1 s2 : String.ltb s1 s2 = true -> String.leb s1 s2 = true.
Proof.
  unfold String.ltb, String.leb. now destruct (String.compare s1 s2).
Qed.

Lemma string_ltb_false_leb s1 s2 : String.ltb s1 s2 = false -> String.leb s2 s1 = true.
Proof.
  unfold String.ltb, String.leb. rewrite (String.compare_antisym s1 s2).
  now destruct (String.compare s2 s1).
Qed.

Lemma insert_desc_perm x l : Permutation (insert_desc x l) (x :: l).
Proof.
  induction l as [|y l IH]; [reflexivity |]. simpl.
  destruct (String.ltb (date_key y) (date_key x)); [reflexivity |].
  rewrite IH. apply perm_swap.
Qed.

Lemma insert_desc_descending x l : descending l -> descending (insert_desc x l).
Proof.
  induction l as [|y l IH]; intros Hd; [simpl; auto |]. simpl in Hd.
  destruct Hd as [Hall Hd]. simpl.
  destruct (String.ltb (date_key y) (date_key x)) eqn:E.
  - simpl. repeat split; try assumption.
    constructor; [now apply string_ltb_leb |].
    eapply List.Forall_impl; [| exact Hall]. intros z Hz.
    eapply string_leb_trans; [exact Hz | now apply string_ltb_leb].
  - simpl. split; [| now apply IH].
    rewrite (insert_desc_perm x l). constructor; [| exact Hall].
    now apply string_ltb_false_leb.
Qed.

Lemma sorted_desc_spec assets :
  Permutation (sorted_desc assets) assets /\ descending (sorted_desc assets).
Proof.
  unfold sorted_desc.
  enough (forall acc, descending acc ->
            Permutation (fold_left (fun acc x => insert_desc x acc) assets acc)
                        (acc ++ assets)
            /\ descending (fold_left (fun acc x => insert_desc x acc) assets acc)) as H
    by (apply (H []); exact I).
  induction assets as [|a l IH]; intros acc Hacc; simpl.
  - rewrite app_nil_r. now split.
  - destruct (IH (insert_desc a acc)) as [Hp Hd]; [now apply insert_desc_descending |].
    split; [| exact Hd]. rewrite Hp, insert_desc_perm.
    simpl. apply Permutation_middle.
Qed.

Lemma descending_app l1 l2 :
  descending (l1 ++ l2) ->
  descending l1 /\ forall x y, In x l1 -> In y l2 ->
                               String.leb (date_key y) (date_key x) = true.
Proof.
  induction l1 as [|a l1 IH]; intros Hd; [split; [exact I | intros x y []] |].
  simpl in Hd. destruct Hd as [Hall Hd]. destruct (IH Hd) as [Hd1 Hcross].
  apply Forall_app in Hall as [Hall1 Hall2]. split; [simpl; now split |].
  intros x y [<- | Hx] Hy; [| now apply Hcross].
  rewrite Forall_forall in Hall2. now apply Hall2, list_elem_of_In.
Qed.

(** X22. The recent view lists at most ten assets, all of them the ten first
    assets of the list sorted by date, latest first: each one is an asset of
    the list, none is followed by an asset with a later date, and no asset
    left out has a later date than one that is listed. *)
Theorem recent_assets_are_the_latest (assets : list Asset) :
  length (recent_assets assets) = Nat.min 10 (length assets)
  /\ Permutation (recent_assets assets ++ drop 10 (sorted_desc assets)) assets
  /\ descending (recent_assets assets)
  /\ Forall (fun x =>
               Forall (fun y => String.leb (date_key y) (date_key x) = true)
                      (drop 10 (sorted_desc assets)))
            (recent_assets assets).
Proof.
  destruct (sorted_desc_spec assets) as [Hp Hd]. unfold recent_assets.
  split; [rewrite length_take, (Permutation_length Hp); lia |].
  split; [now rewrite take_drop |].
  rewrite <- (take_drop 10 (sorted_desc assets)) in Hd.
  apply descending_app in Hd as [Hd1 Hcross]. split; [exact Hd1 |].
  apply Forall_forall. intros x Hx. apply Forall_forall. intros y Hy.
  apply Hcross; now apply list_elem_of_In.
Qed.

(** * More runs on concrete inputs *)

Lemma format_04d_shape_witness :
  0 <= 42 /\ 0 <= 7 /\ 42 <= 9999 /\ String.length (PyStr.format_04d 42) = 4%nat.
Proof.
  assert (0 <= 42) as H42 by lia. assert (0 <= 7) as H7 by lia.
  assert (42 <= 9999) as Hs by lia.
  split; [exact H42 |]. split; [exact H7 |]. split; [exact Hs |].
  apply (format_04d_shape 42 7 H42 H7). exact Hs.
Defined.

Lemma reference_lists_load_non_empty_witness :
  collection_truthy (fst (load_from_backend local_tracker countries_file sim_ok)) = false
  /\ fst (load_countries local_tracker sim_ok) = ReferenceList default_countries
  /\ fst (load_countries local_tracker sim_local_countries)
     = fst (load_from_backend local_tracker countries_file sim_local_countries).
Proof.
  assert (collection_truthy (fst (load_from_backend local_tracker countries_file sim_ok))
          = false) as Hempty by (vm_compute; reflexivity).
  split; [exact Hempty |]. split.
  - destruct (reference_lists_load_non_empty local_tracker sim_ok) as [(_ & _ & H) _].
    exact (H Hempty).
  - destruct (reference_lists_load_non_empty local_tracker sim_local_countries)
      as [(_ & H & _) _].
    apply H. vm_compute. reflexivity.
Defined.

Example load_stored_countries :
  fst (load_countries local_tracker sim_local_countries)
  = ReferenceList [{| code := "UAE"; name := "Emirates" |}].
Proof. vm_compute. reflexivity. Qed.

Example recent_of_three :
  map date_key
      (recent_assets [new_asset "EGY-ZE-0001" "EGY" "ZE" "a" "2024-01-05";
                      new_asset "EGY-ZE-0002" "EGY" "ZE" "b" "2024-03-01";
                      new_asset "EGY-ZE-0003" "EGY" "ZE" "c" "2024-02-11"])
  = ["2024-03-01"; "2024-02-11"; "2024-01-05"].
Proof. vm_compute. reflexivity. Qed.
